(** * MDChef: one pass, checkpoint, multi-analysis

    A shallow embedding of [trajCheckpoint.py] (the checkpoint store) and of
    the classes [menu], [recipe] and [restaurant] of [main.py], followed by
    the properties of the checkpoint/resume core.

    The program is Python 2.7.  Conventions of the embedding:
    - a Python integer is a [Z]; a variable holding an integer or [None]
      (the frame bounds [bf], [ef], [b], [e]) is an [option Z];
    - Python 2 orders [None] before every integer, and the comparison
      operators of the source are written out with that order;
    - a dictionary with string keys is a [gmap string _]; iterating over it
      visits the keys in the order of [map_to_list] (Python 2 fixes no
      order either: it is whatever the table gives, and it does not change
      while the set of keys does not change);
    - an exception is an [outcome] that is not [Ok]; [sys.exit] raises
      [SystemExit], which nothing in the program catches;
    - storage, console and the analyses' own memory form the [world]; code
      runs in a state-and-exception monad over it;
    - a recipe is held by value under its key; the only attribute the core
      changes after construction is [on], which [serve] sets from [bf], so a
      recipe object registered under two names behaves as two equal values;
    - the callables of an analysis ([loopcode], [postloopcode]) may do
      anything to the world and may raise; they do not reach into the
      menu. *)

From Stdlib Require Import ZArith Lia Ascii String List Bool.
From stdpp Require Import base option list gmap strings fin_maps.

Local Open Scope string_scope.
Local Open Scope list_scope.
Local Open Scope Z_scope.

(** ** Python values *)

(** Exceptions the modelled code can raise.  [UserError] stands for whatever
    an analysis callable raises. *)
Inductive exn :=
| IOError (path : string)
| OSError (path : string)
| IndexError
| KeyError (key : string)
| ValueError (what : string)
| SystemExit (msg : string)
| UserError (tag : string).

Inductive outcome (A : Type) :=
| Ok (a : A)
| Raise (e : exn).
Arguments Ok {A} a.
Arguments Raise {A} e.

Definition is_ok {A} (o : outcome A) : bool :=
  match o with Ok _ => true | Raise _ => false end.

(** Built-in operations of Python 2, by their Python names. *)
Module Py.

(** [x >= y], [x < y] and [x == y] on an integer or [None], as Python 2
    evaluates them: [None] is smaller than any integer and equal to itself. *)
Definition ge (x y : option Z) : bool :=
  match x, y with
  | _, None => true
  | None, Some _ => false
  | Some a, Some b => b <=? a
  end.

Definition lt (x y : option Z) : bool := negb (ge x y).

Definition eq (x y : option Z) : bool :=
  match x, y with
  | None, None => true
  | Some a, Some b => a =? b
  | _, _ => false
  end.

(** [min(l)] on a non-empty list: the first smallest element. *)
Definition min2 (x y : option Z) : option Z := if lt y x then y else x.

Definition min (l : list (option Z)) : outcome (option Z) :=
  match l with
  | [] => Raise (ValueError "min() arg is an empty sequence")
  | x :: r => Ok (fold_left min2 r x)
  end.

(** *** Decimal text of an integer: [str(n)], [int(s)] *)

Definition digit_char (d : Z) : ascii := ascii_of_nat (48 + Z.to_nat d).

Definition is_digit (c : ascii) : bool :=
  let n := Z.of_nat (nat_of_ascii c) in (48 <=? n) && (n <=? 57).

Definition digit_val (c : ascii) : Z := Z.of_nat (nat_of_ascii c) - 48.

(** The digits of [n >= 0], most significant first, in front of [acc]. *)
Fixpoint digits_fuel (fuel : nat) (n : Z) (acc : string) : string :=
  match fuel with
  | O => acc
  | S f =>
      let acc' := String (digit_char (n mod 10)) acc in
      if n <? 10 then acc' else digits_fuel f (n / 10) acc'
  end.

Definition digits (n : Z) : string :=
  digits_fuel (S (Z.to_nat (Z.log2 n))) n "".

(** [str(n)], which is also ['{0:}'.format(n)] and ["%s" % n]. *)
Definition str (n : Z) : string :=
  if n <? 0 then String "-" (digits (- n)) else digits n.

(** ["%s" % x] for an integer or [None]. *)
Definition str_opt (x : option Z) : string :=
  match x with Some n => str n | None => "None" end.

(** White space as [str.strip] and [int] understand it. *)
Definition is_space (c : ascii) : bool :=
  let n := nat_of_ascii c in
  (Nat.eqb n 32) || ((Nat.leb 9 n) && (Nat.leb n 13)).

Fixpoint lstrip (s : string) : string :=
  match s with
  | String c r => if is_space c then lstrip r else s
  | EmptyString => EmptyString
  end.

Fixpoint rstrip (s : string) : string :=
  match s with
  | String c r =>
      match rstrip r with
      | EmptyString => if is_space c then EmptyString else String c EmptyString
      | r' => String c r'
      end
  | EmptyString => EmptyString
  end.

Fixpoint parse_digits (s : string) (acc : Z) : option Z :=
  match s with
  | EmptyString => Some acc
  | String c r =>
      if is_digit c then parse_digits r (acc * 10 + digit_val c) else None
  end.

Definition parse_unsigned (s : string) : option Z :=
  match s with
  | EmptyString => None
  | _ => parse_digits s 0
  end.

(** [int(s)]: surrounding white space is dropped, one sign is allowed, the
    rest must be one or more decimal digits; anything else is a
    [ValueError]. *)
Definition int (s : string) : outcome Z :=
  let bad := Raise (ValueError ("invalid literal for int() with base 10: " +:+ s)) in
  let t := lstrip (rstrip s) in
  match t with
  | String c r =>
      if Ascii.eqb c "-" then
        match parse_unsigned r with Some n => Ok (- n) | None => bad end
      else if Ascii.eqb c "+" then
        match parse_unsigned r with Some n => Ok n | None => bad end
      else
        match parse_unsigned t with Some n => Ok n | None => bad end
  | EmptyString => bad
  end.

(** [f.readlines()]: the lines of a text, each with its newline. *)
Fixpoint readlines_from (cur : string -> string) (s : string) : list string :=
  match s with
  | EmptyString =>
      match cur EmptyString with EmptyString => [] | l => [l] end
  | String c r =>
      if Ascii.eqb c "010"%char
      then cur (String c EmptyString) :: readlines_from (fun t => t) r
      else readlines_from (fun t => cur (String c t)) r
  end.

Definition readlines (s : string) : list string :=
  readlines_from (fun t => t) s.

(** [l[0]] *)
Definition first {A} (l : list A) : outcome A :=
  match l with
  | x :: _ => Ok x
  | [] => Raise IndexError
  end.

(** [sorted(l)] on strings (byte-wise lexicographic order) and
    [sep.join(l)]. *)
Fixpoint insert_sorted (x : string) (l : list string) : list string :=
  match l with
  | [] => [x]
  | y :: r => if String.leb x y then x :: l else y :: insert_sorted x r
  end.

Definition sorted (l : list string) : list string :=
  fold_right insert_sorted [] l.

Fixpoint join (sep : string) (l : list string) : string :=
  match l with
  | [] => ""
  | [x] => x
  | x :: r => x +:+ sep +:+ join sep r
  end.

End Py.

(** ** Computations

    A computation over a state [S] ends with a value or an exception and
    leaves a state behind in both cases. *)

Definition M (S A : Type) : Type := S -> outcome A * S.

Definition ret {S A} (a : A) : M S A := fun s => (Ok a, s).

Definition bind {S A B} (m : M S A) (k : A -> M S B) : M S B :=
  fun s =>
    match m s with
    | (Ok a, s') => k a s'
    | (Raise e, s') => (Raise e, s')
    end.

Definition raise {S A} (e : exn) : M S A := fun s => (Raise e, s).

Definition gets {S A} (f : S -> A) : M S A := fun s => (Ok (f s), s).

Definition modify {S} (f : S -> S) : M S unit := fun s => (Ok tt, f s).

Notation "x <- m ;; k" := (bind m (fun x => k))
  (at level 100, m at next level, right associativity).
Notation "m ;;; k" := (bind m (fun _ => k))
  (at level 100, right associativity).

Fixpoint for_each {S X} (xs : list X) (body : X -> M S unit) : M S unit :=
  match xs with
  | [] => ret tt
  | x :: r => body x ;;; for_each r body
  end.

(** [sys.exit(msg)] *)
Definition sys_exit {S A} (msg : string) : M S A := raise (SystemExit msg).

Definition of_outcome {S A} (o : outcome A) : M S A :=
  match o with Ok a => ret a | Raise e => raise e end.

(** ** The world the program runs in *)

Section Model.

(** [Time] is the type of a time stamp ([ts.time], a float the core only
    passes on); [Ext] is the memory of the analyses and of the trajectory
    reader, which the core never looks into. *)
Context {Time Ext : Type}.

Record world := World {
  files : gmap string string;   (* regular files: path to content *)
  dirs : gset string;           (* directories *)
  console : list string;        (* lines printed so far, oldest first *)
  ext : Ext
}.

(** What the core did, in order.  The trace is not program state: it records
    the calls the properties speak about. *)
Inductive event :=
| EvRead (path : string)                (* a file was opened and read *)
| EvCommit (path : string) (frame : Z)  (* [checkpoint_write] wrote [frame] *)
| EvUnit (task : string) (frame : Z)    (* a per-unit callable was called *)
| EvFinal (task : string).              (* [runafterloop] was called *)

Record state := State {
  w : world;
  trace : list event
}.

(** Running a computation on the second component of a pair. *)
Definition lift {X A} (m : M state A) : M (X * state) A :=
  fun xs =>
    match m (snd xs) with
    | (o, s') => (o, (fst xs, s'))
    end.

(** *** Console and storage *)

Definition set_files (f : gmap string string) (x : world) : world :=
  World f (dirs x) (console x) (ext x).
Definition set_dirs (ds : gset string) (x : world) : world :=
  World (files x) ds (console x) (ext x).
Definition set_console (c : list string) (x : world) : world :=
  World (files x) (dirs x) c (ext x).

Definition on_world (f : world -> world) (s : state) : state :=
  State (f (w s)) (trace s).

(** [print line] *)
Definition say (line : string) (s : state) : state :=
  on_world (fun x => set_console (console x ++ [line]) x) s.

Definition print (line : string) : M state unit := modify (say line).

Definition log (e : event) : M state unit :=
  modify (fun s => State (w s) (trace s ++ [e])).

(** [os.path.exists(p)], [os.path.isfile(p)] *)
Definition path_exists (p : string) : M state bool :=
  gets (fun s => bool_decide (is_Some (files (w s) !! p)) || bool_decide (p ∈ dirs (w s))).

Definition path_isfile (p : string) : M state bool :=
  gets (fun s => bool_decide (is_Some (files (w s) !! p))).

(** [os.makedirs(p)]: an error when the path is already there.  Only [p]
    itself is recorded, not the directories above it. *)
Definition makedirs (p : string) : M state unit :=
  ex <- path_exists p ;;
  if ex then raise (OSError p)
  else modify (on_world (fun x => set_dirs ({[p]} ∪ dirs x) x)).

(** [open(p).readlines()] *)
Definition open_readlines (p : string) : M state (list string) :=
  s <- gets (fun s => s) ;;
  match files (w s) !! p with
  | Some txt => log (EvRead p) ;;; ret (Py.readlines txt)
  | None => raise (IOError p)
  end.

(** [with open(p, 'w') as o: o.write(txt)]: the file holds [txt] and nothing
    else afterwards.  Storage is taken to accept the write. *)
Definition open_write (p txt : string) : M state unit :=
  modify (on_world (fun x => set_files (<[p := txt]> (files x)) x)).

(** A call into an analysis: it sees and changes the world, not the trace. *)
Definition callable := world -> outcome unit * world.

Definition call (f : callable) : M state unit :=
  fun s => match f (w s) with (o, x) => (o, State x (trace s)) end.

(** ** trajCheckpoint.py *)

Definition cpt_dir (folder : string) : string := folder +:+ "/checkpoints".

Definition data_path (folder base_filename name datatype : string) : string :=
  folder +:+ "/" +:+ base_filename +:+ "." +:+ name +:+ "." +:+ datatype.

Definition cpt_path (folder base_filename name : string) : string :=
  folder +:+ "/checkpoints/" +:+ base_filename +:+ "." +:+ name +:+ ".cpt".

(** Lines 67-68: [if bf >= ef and (bf != None and ef != None): sys.exit(..)] *)
Definition check_range (bf ef : option Z) : M state unit :=
  if Py.ge bf ef && (bool_decide (bf <> None) && bool_decide (ef <> None))
  then sys_exit ("Stop Signalled: Beginning frame " +:+ Py.str_opt bf +:+
                 " is equal or greater to End frame " +:+ Py.str_opt ef)
  else ret tt.

(** [checkpoint_frame(folder, base_filename, name, datatype)].  The source
    sets [ef = None] on line 33 and never assigns it again; [ef0] is that
    initial value, so that the check of lines 67-68 can be stated for a set
    end frame as well.  The function of the source is [checkpoint_frame]
    below, with [ef0 = None]. *)
Definition checkpoint_frame_from (ef0 : option Z)
    (folder base_filename name datatype : string)
    : M state (option Z * option Z * bool) :=
  let ef := ef0 in
  ex <- path_exists (cpt_dir folder) ;;
  (if negb ex
   then print ("Creating directory: " +:+ cpt_dir folder) ;;;
        makedirs (cpt_dir folder)
   else ret tt) ;;;
  isf <- path_isfile (data_path folder base_filename name datatype) ;;
  loaded <-
    (if isf
     then print "Data file already found. Looking at checkpoint (.cpt) file." ;;;
          lines <- open_readlines (cpt_path folder base_filename name) ;;
          l0 <- of_outcome (Py.first lines) ;;
          n <- of_outcome (Py.int l0) ;;
          ret (Some (n + 1), true)
     else print "Generating new file. Starting from first frame t=0" ;;;
          ret (None, false)) ;;
  let '(bf, fex) := loaded in
  (match bf with
   | Some k => print ("Beg frame: " +:+ Py.str k)
   | None => print "Beg frame: 0 (checkpoint frame not found)"
   end) ;;;
  (match ef with
   | Some k => print ("End frame: " +:+ Py.str k)
   | None => print "End frame: not specified; will run until end of simulation"
   end) ;;;
  check_range bf ef ;;;
  print "--------------------------------------" ;;;
  ret (bf, ef, fex).

Definition checkpoint_frame := checkpoint_frame_from None.

(** [checkpoint_write(frame, cpt_name)] *)
Definition checkpoint_write (frame : Z) (cpt_name : string) : M state unit :=
  open_write cpt_name (Py.str frame) ;;;
  log (EvCommit cpt_name frame).

(** ** main.py: class recipe *)

(** One analysis.  [loopcode] and [postloopcode] are the methods an analysis
    class adds to [recipe]; the fields before them are the attributes
    [recipe.__init__] and [cpt_load] set. *)
Record recipe := Recipe {
  folder : string;
  base_filename : string;
  name : string;
  datatype : string;
  on : bool;
  debug : bool;
  data : string;
  chkpt : string;
  bf : option Z;
  ef : option Z;
  fex : bool;
  loopcode : Z -> Time -> callable;
  postloopcode : callable
}.

Definition set_on (v : bool) (a : recipe) : recipe :=
  Recipe (folder a) (base_filename a) (name a) (datatype a) v (debug a)
         (data a) (chkpt a) (bf a) (ef a) (fex a) (loopcode a) (postloopcode a).

Definition set_frames (x : option Z * option Z * bool) (a : recipe) : recipe :=
  let '(bf', ef', fex') := x in
  Recipe (folder a) (base_filename a) (name a) (datatype a) (on a) (debug a)
         (data a) (chkpt a) bf' ef' fex' (loopcode a) (postloopcode a).

(** [cpt_load(self)]; the value is [self] with [bf], [ef], [fex] assigned. *)
Definition cpt_load (self : recipe) : M state recipe :=
  r <- checkpoint_frame (folder self) (base_filename self) (name self)
                        (datatype self) ;;
  ret (set_frames r self).

(** [recipe.__init__(self, folder, base_filename, name, datatype, on, debug)].
    [bf], [ef] and [fex] do not exist before [cpt_load] assigns them. *)
Definition recipe_init (folder base_filename name datatype : string)
    (on debug : bool) (loopcode : Z -> Time -> callable)
    (postloopcode : callable) : M state recipe :=
  cpt_load
    (Recipe folder base_filename name datatype on debug
            (data_path folder base_filename name datatype)
            (cpt_path folder base_filename name)
            None None false loopcode postloopcode).

(** [cpt_out(self, frame)] *)
Definition cpt_out (self : recipe) (frame : Z) : M state unit :=
  checkpoint_write frame (chkpt self).

(** [runinloop(self, frame, time, func)] *)
Definition runinloop (self : recipe) (frame : Z) (time : Time)
    (func : Z -> Time -> callable) : M state unit :=
  log (EvUnit (chkpt self) frame) ;;;
  call (func frame time) ;;;
  cpt_out self frame.

(** [runafterloop(self, func=None)] *)
Definition runafterloop (self : recipe) (func : option callable)
    : M state unit :=
  log (EvFinal (chkpt self)) ;;;
  (match func with
   | Some f => call f
   | None => ret tt
   end) ;;;
  print ("Done " +:+ base_filename self +:+ "_" +:+ name self).

(** ** main.py: class menu *)

Record menu := Menu {
  d : gmap string recipe;
  min_bf : option Z
}.

Definition menu_init : menu := Menu ∅ None.

Definition set_d (m : gmap string recipe) (x : menu) : menu :=
  Menu m (min_bf x).
Definition set_min_bf (v : option Z) (x : menu) : menu := Menu (d x) v.

Definition on_fst {X} (f : X -> X) (xs : X * state) : X * state :=
  (f (fst xs), snd xs).

(** The keys and the values of the dictionary, in iteration order. *)
Definition keys : M (menu * state) (list string) :=
  gets (fun ms => (map_to_list (d (fst ms))).*1).

(** [len(self.d)] *)
Definition len_d : M (menu * state) Z :=
  gets (fun ms => Z.of_nat (size (d (fst ms)))).

(** [self.d[i]] *)
Definition getitem (i : string) : M (menu * state) recipe :=
  m <- gets (fun ms => d (fst ms)) ;;
  match m !! i with
  | Some a => ret a
  | None => raise (KeyError i)
  end.

(** [add(self, name, recipe)] *)
Definition add (name : string) (a : recipe) : M (menu * state) unit :=
  modify (on_fst (fun x => set_d (<[name := a]> (d x)) x)).

(** [remove(self, name)]: [del self.d[name]] *)
Definition remove (name : string) : M (menu * state) unit :=
  m <- gets (fun ms => d (fst ms)) ;;
  match m !! name with
  | Some _ => modify (on_fst (fun x => set_d (delete name (d x)) x))
  | None => raise (KeyError name)
  end.

Fixpoint show_names (i : Z) (names : list string) : M state unit :=
  match names with
  | [] => ret tt
  | name :: r =>
      print ("(" +:+ Py.str (i + 1) +:+ "): Analysis Name: " +:+ name) ;;;
      show_names (i + 1) r
  end.

(** [list_show(self)] *)
Definition list_show : M (menu * state) unit :=
  lift (print "==============================================") ;;;
  lift (print "List of Analyses") ;;;
  lift (print "==============================================") ;;;
  names <- keys ;;
  lift (show_names 0 names) ;;;
  lift (print "").

(** Lines 163-168: the names whose [bf] is [>= nframes], in iteration
    order, behind those already in [del_later]. *)
Fixpoint check_loop (nframes : Z) (names del_later : list string)
    : M (menu * state) (list string) :=
  match names with
  | [] => ret del_later
  | name :: r =>
      a <- getitem name ;;
      if Py.ge (bf a) (Some nframes)
      then
        lift (print ("Removed " +:+ name +:+ " from analysis. " +:+
                     Py.str_opt (bf a) +:+ " frames. ")) ;;;
        lift (print (" -- Reason: beginning frame exceeded the length of the trajectory (" +:+
                     Py.str nframes +:+ " frames)")) ;;;
        check_loop nframes r (del_later ++ [name])
      else check_loop nframes r del_later
  end.

(** [check_cases(self, nframes)] *)
Definition check_cases (nframes : Z) : M (menu * state) unit :=
  lift (print "==============================================") ;;;
  lift (print "Running test cases on each analysis") ;;;
  lift (print "==============================================") ;;;
  names <- keys ;;
  del_later <- check_loop nframes names [] ;;
  (if 0 <? Z.of_nat (length del_later)
   then for_each del_later remove
   else ret tt) ;;;
  lift (print "") ;;;
  n <- len_d ;;
  if n =? 0
  then sys_exit "Exit Signalled: There are zero analyses that may run."
  else ret tt.

(** Lines 184-185: [bf_list] with the [bf] of every name appended. *)
Fixpoint bf_loop (names : list string) (bf_list : list (option Z))
    : M (menu * state) (list (option Z)) :=
  match names with
  | [] => ret bf_list
  | name :: r =>
      a <- getitem name ;;
      bf_loop r (bf_list ++ [bf a])
  end.

(** [min_beg_frame(self)]: the pair [(min_bf, bf_list)], or the message the
    source returns in its place when the menu is empty. *)
Definition min_beg_frame
    : M (menu * state) (option Z * list (option Z) + string) :=
  n <- len_d ;;
  if 0 <? n
  then
    modify (on_fst (set_min_bf None)) ;;;
    names <- keys ;;
    bf_list <- bf_loop names [] ;;
    m <- of_outcome (Py.min bf_list) ;;
    modify (on_fst (set_min_bf m)) ;;;
    ret (inl (m, bf_list))
  else
    ret (inr "Attempted to obtain smallest beginning frame, but there are no analyses.").

(** ** main.py: class restaurant *)

(** One step of the trajectory: [ts.frame] and [ts.time]. *)
Record timestep := Timestep {
  frame : Z;
  time : Time
}.

(** The attributes [serve] uses.  [trajectory] is [self.u.trajectory] given
    by the time stamp of each of its frames; frame [i] is its [i]-th
    element, counted from 0. *)
Record restaurant := Restaurant {
  trajectory : list Time;
  nframes : Z;
  b : option Z;
  e : option Z;
  bf_list : list (option Z);
  the_menu : menu
}.

Definition set_menu (m : menu) (r : restaurant) : restaurant :=
  Restaurant (trajectory r) (nframes r) (b r) (e r) (bf_list r) m.
Definition set_b (v : option Z) (l : list (option Z)) (r : restaurant)
    : restaurant :=
  Restaurant (trajectory r) (nframes r) v (e r) l (the_menu r).

(** [restaurant.__init__], once the trajectory is loaded. *)
Definition restaurant_init (u : list Time) : restaurant :=
  Restaurant u (Z.of_nat (length u)) None None [] menu_init.

(** Running a method of the menu on [self.menu]. *)
Definition in_menu {A} (m : M (menu * state) A) : M (restaurant * state) A :=
  fun rs =>
    match m (the_menu (fst rs), snd rs) with
    | (o, (mn, s')) => (o, (set_menu mn (fst rs), s'))
    end.

(** A bound of [trajectory[b:e]]: [None] is the default, a negative index
    counts from the end, and the result stays within [0 .. n]. *)
Definition slice_bound (n : Z) (x : option Z) (dflt : Z) : Z :=
  match x with
  | None => dflt
  | Some i => if i <? 0 then Z.max (i + n) 0 else Z.min i n
  end.

(** [self.u.trajectory[b:e]]: the frames from [b] up to, not including,
    [e], in increasing order. *)
Definition trajectory_slice (u : list Time) (b e : option Z)
    : list timestep :=
  let n := Z.of_nat (length u) in
  let start := slice_bound n b 0 in
  let stop := slice_bound n e n in
  take (Z.to_nat (stop - start))
       (drop (Z.to_nat start) (imap (fun i t => Timestep (Z.of_nat i) t) u)).

(** [a.on = True] on the recipe the menu holds under [key]. *)
Definition turn_on (key : string) (a : recipe) : M (restaurant * state) unit :=
  modify (on_fst (fun r =>
    set_menu (set_d (<[key := set_on true a]> (d (the_menu r))) (the_menu r)) r)).

(** Lines 285-286, for the recipe [a] the menu holds under [key]. *)
Definition serve_task (ts : timestep) (fr : option Z) (ka : string * recipe)
    : M (restaurant * state) unit :=
  let '(key, a) := ka in
  (if Py.eq (bf a) fr then turn_on key a else ret tt) ;;;
  let a := if Py.eq (bf a) fr then set_on true a else a in
  if on a
  then lift (runinloop a (frame ts) (time ts) (loopcode a))
  else ret tt.

Definition values : M (restaurant * state) (list (string * recipe)) :=
  gets (fun rs => map_to_list (d (the_menu (fst rs)))).

(** Lines 279-286: the body of the loop over the trajectory. *)
Definition serve_step (ts : timestep) : M (restaurant * state) unit :=
  let fr := if 0 <? frame ts then Some (frame ts) else None in
  entries <- values ;;
  for_each entries (serve_task ts fr).

(** Lines 290-291 *)
Definition serve_after : M (restaurant * state) unit :=
  entries <- values ;;
  for_each entries (fun ka =>
    lift (runafterloop (snd ka) (Some (postloopcode (snd ka))))).

(** Lines 278-287 *)
Definition serve_loop : M (restaurant * state) unit :=
  r <- gets fst ;;
  for_each (trajectory_slice (trajectory r) (b r) (e r)) serve_step ;;;
  lift (print "").

(** Lines 265-275 *)
Definition serve_checks : M (restaurant * state) unit :=
  in_menu list_show ;;;
  n <- gets (fun rs => nframes (fst rs)) ;;
  in_menu (check_cases n) ;;;
  in_menu list_show ;;;
  r <- in_menu min_beg_frame ;;
  match r with
  | inl (m, l) =>
      modify (on_fst (set_b m l)) ;;;
      lift (print "==============================================") ;;;
      lift (print "All checks passed. Running all analyses!") ;;;
      lift (print "==============================================") ;;;
      lift (print ("Beg Frame: " +:+ Py.str_opt m +:+ "; from bf values of [" +:+
                   Py.join ", " (Py.sorted (map Py.str_opt l)) +:+ "] ")) ;;;
      en <- gets (fun rs => e (fst rs)) ;;
      lift (print ("End Frame: " +:+ Py.str_opt en))
  | inr _ => raise (ValueError "too many values to unpack")
  end.

(** [serve(self)] *)
Definition serve : M (restaurant * state) unit :=
  serve_checks ;;;
  serve_loop ;;;
  serve_after.

End Model.

(** ** Predicates used in the proofs *)

Fixpoint all_digits (s : string) : bool :=
  match s with
  | EmptyString => true
  | String c r => Py.is_digit c && all_digits r
  end.

Fixpoint no_newline (s : string) : bool :=
  match s with
  | EmptyString => true
  | String c r => negb (Ascii.eqb c "010"%char) && no_newline r
  end.

Section Auxiliary.

Context {Time Ext : Type}.

(** Two states with the same files, analysis memory and trace: they differ
    at most by console output and directories. *)
Definition same_store (s s' : @state Ext) : Prop :=
  files (w s') = files (w s) /\ ext (w s') = ext (w s) /\ trace s' = trace s.

(** The test of line 165 for the recipe a dictionary holds under [name]. *)
Definition is_doomed (nframes : Z) (m : gmap string (@recipe Time Ext))
    (name : string) : bool :=
  match m !! name with
  | Some a => Py.ge (bf a) (Some nframes)
  | None => false
  end.

(** Line 282: the frame number compared with [bf]. *)
Definition frame_key (ts : @timestep Time) : option Z :=
  if 0 <? frame ts then Some (frame ts) else None.

(** Line 285 on one recipe. *)
Definition activate (fr : option Z) (a : @recipe Time Ext) : @recipe Time Ext :=
  if Py.eq (bf a) fr then set_on true a else a.

(** The tasks whose [runafterloop] a trace records, in order. *)
Definition finals (t : list event) : list string :=
  omap (fun ev => match ev with EvFinal c => Some c | _ => None end) t.

(** What lines 285 leaves of the restaurant when the menu holds [a] under
    [key]. *)
Definition touch (fr : option Z) (key : string) (a : @recipe Time Ext)
    (r : @restaurant Time Ext) : @restaurant Time Ext :=
  if Py.eq (bf a) fr
  then set_menu (set_d (<[key := set_on true a]> (d (the_menu r))) (the_menu r)) r
  else r.

(** A computation leaves the observation [g] of the state as it found it,
    however it ends. *)
Definition keeps {S A L} (g : S -> L) (m : M S A) : Prop :=
  forall s, g (snd (m s)) = g s.

Definition fin1 (s : @state Ext) : list string := finals (trace s).
Definition fin2 {X} (xs : X * @state Ext) : list string := finals (trace (snd xs)).

End Auxiliary.

(** The message of [sys.exit] on line 176. *)
Definition exit_msg : string :=
  "Exit Signalled: There are zero analyses that may run.".

(** ** A small run

    A trajectory of five frames and three analyses writing under [out]:
    [A] is new, [B] has a checkpoint at frame 1, [C] one at frame 4, the
    last frame.  Time stamps are integers; an analysis keeps the rows it
    has computed, its name and a frame number each, in memory. *)
Module Sample.

Definition store : gmap string string :=
  {[ "out/run.B.dat" := "rows of B";
     "out/checkpoints/run.B.cpt" := "1";
     "out/run.C.dat" := "rows of C";
     "out/checkpoints/run.C.cpt" := "4" ]}.

Definition rows : Type := list (string * Z).

Definition s0 : @state rows :=
  State (World store {[ "out"; "out/checkpoints" ]} [] []) [].

(** An analysis that adds a row for the frame. *)
Definition loopcode (name : string) (fr : Z) (tm : Z) : @callable rows :=
  fun x =>
    (Ok tt, World (files x) (dirs x) (console x) (ext x ++ [(name, fr)])).

Definition postloopcode : @callable rows := fun x => (Ok tt, x).

(** An analysis that fails. *)
Definition failing (fr : Z) (tm : Z) : @callable rows :=
  fun x => (Raise (UserError "no atoms selected"), x).

(** The recipe [recipe_init] builds for [name] when its checkpoint gives
    [bf]. *)
Definition task (name : string) (bf : option Z) (fex : bool) : @recipe Z rows :=
  Recipe "out" "run" name "dat" false false
         (data_path "out" "run" name "dat") (cpt_path "out" "run" name)
         bf None fex (loopcode name) postloopcode.

Definition u : list Z := [0; 10; 20; 30; 40].

Definition dishes : gmap string (@recipe Z rows) :=
  {[ "A" := task "A" None false;
     "B" := task "B" (Some 2) true;
     "C" := task "C" (Some 5) true ]}.

Definition r0 : @restaurant Z rows :=
  Restaurant u 5 None None [] (Menu dishes None).

(** A restaurant whose only analysis has reached the end. *)
Definition r_done : @restaurant Z rows :=
  Restaurant u 5 None None [] (Menu {[ "C" := task "C" (Some 5) true ]} None).

(** The restaurant and the state when the scanning loop of [serve] ends. *)
Definition after_pass : @restaurant Z rows * @state rows :=
  snd ((serve_checks ;;; serve_loop) (r0, s0)).

(** The restaurant with [b] as [serve] sets it, and after its first three
    positions. *)
Definition r_checked : @restaurant Z rows * @state rows :=
  snd (serve_checks (r0, s0)).

Definition after_three : @restaurant Z rows * @state rows :=
  snd (for_each (take 3 (trajectory_slice (trajectory (fst r_checked))
                           (b (fst r_checked)) (e (fst r_checked))))
                serve_step r_checked).

End Sample.

(** ** Definitions for the further properties *)

Section StoreAux.

Context {Ext : Type}.

(** Line 45 without the [+ 1]: [int(f.readlines()[0])] on the text of a
    checkpoint file. *)
Definition parse_checkpoint (txt : string) : outcome Z :=
  match Py.first (Py.readlines txt) with
  | Ok l0 => Py.int l0
  | Raise err => Raise err
  end.

(** [os.path.exists(p)] as a test on a state. *)
Definition exists_in (p : string) (s : @state Ext) : bool :=
  bool_decide (is_Some (files (w s) !! p)) || bool_decide (p ∈ dirs (w s)).

End StoreAux.

Section MenuAux.

Context {Time Ext : Type}.

(** The state after printing [lines], in order. *)
Definition said (lines : list string) (s : @state Ext) : @state Ext :=
  fold_left (fun s0 line => say line s0) lines s.

(** Lines 166-167 for one entry of the menu. *)
Definition removed_lines (nframes : Z) (ka : string * @recipe Time Ext)
    : list string :=
  [ "Removed " +:+ fst ka +:+ " from analysis. " +:+
      Py.str_opt (bf (snd ka)) +:+ " frames. ";
    " -- Reason: beginning frame exceeded the length of the trajectory (" +:+
      Py.str nframes +:+ " frames)" ].

(** The entries of a menu that fail the test of line 165, in iteration
    order. *)
Definition evicted (nframes : Z) (m : gmap string (@recipe Time Ext))
    : list (string * @recipe Time Ext) :=
  filter (fun ka => Py.ge (bf (snd ka)) (Some nframes) = true) (map_to_list m).

End MenuAux.

Section ScanAux.

Context {Time Ext : Type}.

(** The events of the unit of a task at one frame: the call, then the
    commit. *)
Definition unit_pair (c : string) (p : Z) : list (@event) :=
  [EvUnit c p; EvCommit c p].

(** Whether an event is the call or the commit of the task whose checkpoint
    file is [c]. *)
Definition about (c : string) (ev : event) : bool :=
  match ev with
  | EvUnit c' _ | EvCommit c' _ => bool_decide (c' = c)
  | _ => false
  end.

(** The calls and commits of one task in a trace, in order. *)
Definition own (c : string) (evs : list event) : list event :=
  filter (fun ev => about c ev = true) evs.

(** The steps of a list from the first one line 285 matches with [bf0]. *)
Fixpoint from_resume (bf0 : option Z) (tss : list (@timestep Time))
    : list (@timestep Time) :=
  match tss with
  | [] => []
  | ts :: r =>
      if Py.eq bf0 (frame_key ts) then tss else from_resume bf0 r
  end.

(** The events of lines 285-286 for one entry of the menu, when its
    callable returns. *)
Definition task_events (ts : @timestep Time) (ka : string * @recipe Time Ext)
    : list event :=
  if on (activate (frame_key ts) (snd ka))
  then unit_pair (chkpt (snd ka)) (frame ts)
  else [].

(** The events of the scanning loop over [tss] from the menu [dm], when no
    callable raises: frame after frame, entry after entry. *)
Fixpoint scan_events (tss : list (@timestep Time))
    (dm : gmap string (@recipe Time Ext)) : list event :=
  match tss with
  | [] => []
  | ts :: rest =>
      flat_map (task_events ts) (map_to_list dm) ++
      scan_events rest (activate (frame_key ts) <$> dm)
  end.

(** No other entry of the menu has the checkpoint file of the one under
    [k]. *)
Definition own_checkpoint (dm : gmap string (@recipe Time Ext)) (k : string)
    (c : string) : Prop :=
  forall k' a', dm !! k' = Some a' -> chkpt a' = c -> k' = k.

(** The frames of a list of steps count up from [start]. *)
Definition counts_from (start : Z) (tss : list (@timestep Time)) : Prop :=
  forall i ts, tss !! i = Some ts -> frame ts = start + Z.of_nat i.

(** Lines 285-286 write the checkpoint file [c] for this entry. *)
Definition commits_to (c : string) (ts : @timestep Time)
    (ka : string * @recipe Time Ext) : bool :=
  on (activate (frame_key ts) (snd ka)) && bool_decide (chkpt (snd ka) = c).

(** No callable of the menu changes the file [c]. *)
Definition leave_alone (dm : gmap string (@recipe Time Ext)) (c : string)
    : Prop :=
  forall k a fr tm x,
    dm !! k = Some a ->
    files (snd (loopcode a fr tm x)) !! c = files x !! c.

(** A recipe after the steps [tss] of the scan. *)
Definition after_steps (tss : list (@timestep Time)) (a : @recipe Time Ext)
    : @recipe Time Ext :=
  fold_left (fun a0 ts => activate (frame_key ts) a0) tss a.

End ScanAux.

(** ** recipes.py: class rmsd_vs_time *)

Definition tab : string := String "009"%char "".
Definition nl : string := String "010"%char "".

Section Recipes.

Context {Time Ext : Type}.

(** The MDAnalysis side of the recipe is not looked into: universes, atom
    groups and the numbers of an alignment are abstract, and so are
    [select_atoms], [alignto], the text of [positions[0]] and the text
    [format] and [print] give for a number and for a time. *)
Context {Universe Atoms Float : Type}.
Variable select_atoms : Universe -> string -> outcome Atoms.
Variable alignto :
  Atoms -> Atoms -> string -> bool -> Ext -> outcome (Float * Float) * Ext.
Variable first_position : Atoms -> Ext -> string.
Variable fmt : Float -> string.
Variable fmt_time : Time -> string.

Definition set_ext (e0 : Ext) (x : @world Ext) : @world Ext :=
  World (files x) (dirs x) (console x) e0.

(** [print line] inside a callable. *)
Definition tell (line : string) (x : @world Ext) : @world Ext :=
  set_console (console x ++ [line]) x.

(** [with open(p, 'a') as opf: opf.write(..) ...]: the pieces are added at
    the end of the file, which is made when it does not exist.  Storage is
    taken to accept the writes. *)
Definition open_append (p : string) (pieces : list string) (x : @world Ext)
    : @world Ext :=
  set_files
    (<[p := fold_left String.append pieces (default "" (files x !! p))]>
       (files x)) x.

(** [rmsd_vs_time.loopcode(self, frame, time)], lines 23-35, with the
    attributes of [self] it reads. *)
Definition rmsd_loopcode (debug : bool) (data selection : string)
    (keep_original : bool) (ref mob : Atoms) (frame : Z) (time : Time)
    : @callable Ext :=
  fun x =>
    let x1 := if debug
              then tell ("Before RMSD:  " +:+ first_position mob (ext x)) x
              else x in
    match alignto mob ref selection keep_original (ext x1) with
    | (Raise err, e1) => (Raise err, set_ext e1 x1)
    | (Ok (old, new), e1) =>
        let x2 := set_ext e1 x1 in
        let x3 := if debug
                  then tell ("After RMSD:   " +:+ first_position mob (ext x2)) x2
                  else x2 in
        let x4 := if debug
                  then tell (Py.str frame +:+ " " +:+ fmt old +:+ " " +:+ fmt new) x3
                  else x3 in
        (Ok tt,
         open_append data
           [Py.str frame +:+ tab; fmt_time time +:+ tab;
            fmt old +:+ tab; fmt new +:+ nl] x4)
    end.

(** [rmsd_vs_time.postloopcode(self)]: the body is the expression [None]. *)
Definition rmsd_postloopcode : @callable Ext := fun x => (Ok tt, x).

(** What [loopcode] does while [self.ref] and [self.mob] are not assigned
    yet: reading the attribute raises. *)
Definition rmsd_unbound (frame : Z) (time : Time) : @callable Ext :=
  fun x =>
    (Raise (UserError "AttributeError: rmsd_vs_time instance has no attribute 'mob'"),
     x).

Definition set_loopcode (f : Z -> Time -> @callable Ext)
    (a : @recipe Time Ext) : @recipe Time Ext :=
  Recipe (folder a) (base_filename a) (name a) (datatype a) (on a) (debug a)
         (data a) (chkpt a) (bf a) (ef a) (fex a) f (postloopcode a).

(** The object once [self.ref] and [self.mob] are assigned: [loopcode] reads
    the attributes of [self]. *)
Definition rmsd_bound (self : @recipe Time Ext) (keep_original : bool)
    (selection : string) (ref mob : Atoms) : @recipe Time Ext :=
  set_loopcode
    (rmsd_loopcode (debug self) (data self) selection keep_original ref mob)
    self.

(** [rmsd_vs_time.__init__], lines 5-21: the heading, [recipe.__init__] with
    [on] left at its default, then the two selections.  The value is the
    object as the menu gets it, [loopcode] reading the attributes that were
    assigned. *)
Definition rmsd_init (ref mob : Universe) (nframes : Z)
    (folder base_filename name datatype : string) (keep_original : bool)
    (selection : string) (debug : bool) : M (@state Ext) (@recipe Time Ext) :=
  print ("==== " +:+ base_filename +:+ " " +:+ name +:+ " ====") ;;;
  self <- recipe_init folder base_filename name datatype false debug
            rmsd_unbound rmsd_postloopcode ;;
  ref_atoms <- of_outcome (select_atoms ref selection) ;;
  mob_atoms <- of_outcome (select_atoms mob selection) ;;
  ret (rmsd_bound self keep_original selection ref_atoms mob_atoms).

(** The row [loopcode] writes for a frame. *)
Definition rmsd_row (frame : Z) (time : Time) (old new : Float) : string :=
  Py.str frame +:+ tab +:+ fmt_time time +:+ tab +:+
  fmt old +:+ tab +:+ fmt new +:+ nl.

(** The rows of a list of steps, each with the two numbers of its
    alignment. *)
Definition rmsd_rows (l : list (@timestep Time * (Float * Float))) : string :=
  fold_right
    (fun sv acc =>
       rmsd_row (frame (fst sv)) (time (fst sv)) (fst (snd sv)) (snd (snd sv))
       +:+ acc)
    "" l.

(** The entries of a menu other than the one under [k] neither commit to
    the file [p] nor change it in their callables. *)
Definition others_apart (p k : string) (dm : gmap string (@recipe Time Ext))
    : Prop :=
  forall k' a', dm !! k' = Some a' -> k' <> k ->
    chkpt a' <> p /\
    forall fr tm x, files (snd (loopcode a' fr tm x)) !! p = files x !! p.

End Recipes.

(** ** A small run with an rmsd_vs_time task *)

Module SampleRmsd.

(** Universes and atom groups are lists of coordinates on a line; a
    selection that names nothing fails. *)
Definition select_atoms (u : list Z) (sel : string) : outcome (list Z) :=
  if String.eqb sel "nothing"
  then Raise (UserError "no atoms selected")
  else Ok u.

(** The two numbers are the distance of the first atoms and 0; the
    alignment is noted in the analysis memory. *)
Definition alignto (mob ref : list Z) (sel : string) (keep_original : bool)
    (e0 : Sample.rows) : outcome (Z * Z) * Sample.rows :=
  (Ok (Z.abs (hd 0 mob - hd 0 ref), 0), e0 ++ [(sel, hd 0 mob)]).

Definition first_position (g : list Z) (e0 : Sample.rows) : string :=
  Py.str (hd 0 g).

Definition init (name : string) : M (@state Sample.rows) (@recipe Z Sample.rows) :=
  rmsd_init select_atoms alignto first_position Py.str Py.str
    [3; 4] [5; 6] 5 "out" "run" name "dat" true "protein and name CA" false.

Definition lc : Z -> Z -> @callable Sample.rows :=
  rmsd_loopcode alignto first_position Py.str Py.str false
    (data_path "out" "run" "R" "dat") "protein and name CA" true [3; 4] [5; 6].

(** The task [rmsd_init] builds for the name [R], which has no data file. *)
Definition task : @recipe Z Sample.rows :=
  Recipe "out" "run" "R" "dat" false false
         (data_path "out" "run" "R" "dat") (cpt_path "out" "run" "R")
         None None false lc rmsd_postloopcode.

Definition r0 : @restaurant Z Sample.rows :=
  Restaurant Sample.u 5 None None []
    (Menu (<[ "R" := task ]> {[ "B" := Sample.task "B" (Some 2) true ]}) None).

End SampleRmsd.

(** ** A small run whose finalization fails *)

Module SampleFail.

(** A task whose [postloopcode] raises. *)
Definition bad (name : string) (on0 : bool) : @recipe Z Sample.rows :=
  Recipe "out" "run" name "dat" on0 false
         (data_path "out" "run" name "dat") (cpt_path "out" "run" name)
         None None false (Sample.loopcode name) (Sample.failing 0 0).

Definition r0 : @restaurant Z Sample.rows :=
  Restaurant Sample.u 5 None None []
    (Menu {[ "A" := bad "A" false;
             "P" := Sample.task "P" None false;
             "Q" := Sample.task "Q" None false ]} None).

End SampleFail.

(** ** Finalization hooks *)

Definition map_outcome {A B} (f : A -> B) (o : outcome A) : outcome B :=
  match o with
  | Ok a => Ok (f a)
  | Raise err => Raise err
  end.

Section Hooks.

Context {Time Ext : Type}.

(** The world after lines 233-235 for one entry of the menu, when its
    [postloopcode] returns: the hook has been called on the world, then the
    line [Done ...] is printed. *)
Definition finalized (x : @world Ext) (ka : string * @recipe Time Ext)
    : @world Ext :=
  let x1 := snd (postloopcode (snd ka) x) in
  set_console
    (console x1 ++
     ["Done " +:+ base_filename (snd ka) +:+ "_" +:+ name (snd ka)]) x1.

(** A recipe, a menu and a restaurant with [g] in the place of every
    [postloopcode]. *)
Definition with_hook (g : @callable Ext) (a : @recipe Time Ext)
    : @recipe Time Ext :=
  Recipe (folder a) (base_filename a) (name a) (datatype a) (on a) (debug a)
         (data a) (chkpt a) (bf a) (ef a) (fex a) (loopcode a) g.

Definition rehook_menu (g : @callable Ext) (m : @menu Time Ext)
    : @menu Time Ext :=
  set_d (with_hook g <$> d m) m.

Definition rehook (g : @callable Ext) (r : @restaurant Time Ext)
    : @restaurant Time Ext :=
  set_menu (rehook_menu g (the_menu r)) r.

(** [m'] on [phi x] does what [m] does on [x]: the same exception or the
    same value seen through [rho], the same state, and the object of [m]
    seen through [phi]. *)
Definition blind {X A} (phi : X -> X) (rho : A -> A)
    (m m' : M (X * @state Ext) A) : Prop :=
  forall x s,
    m' (phi x, s) =
    match m (x, s) with
    | (o, (x', s')) => (map_outcome rho o, (phi x', s'))
    end.

End Hooks.

(** ** A small run with hooks that leave a mark *)

Module SampleHooks.

(** A [postloopcode] that notes the task in the analysis memory, with the
    frame number -1. *)
Definition hook (name : string) : @callable Sample.rows :=
  fun x =>
    (Ok tt, World (files x) (dirs x) (console x) (ext x ++ [(name, -1)])).

Definition task (name : string) (bf : option Z) (fex : bool)
    : @recipe Z Sample.rows :=
  Recipe "out" "run" name "dat" false false
         (data_path "out" "run" name "dat") (cpt_path "out" "run" name)
         bf None fex (Sample.loopcode name) (hook name).

Definition r0 : @restaurant Z Sample.rows :=
  Restaurant Sample.u 5 None None []
    (Menu {[ "A" := task "A" None false;
             "B" := task "B" (Some 2) true;
             "C" := task "C" (Some 5) true ]} None).

End SampleHooks.

(** * Properties *)

(** ** Decimal text *)

Lemma digit_char_spec (k : Z) :
  0 <= k < 10 ->
  Py.is_digit (Py.digit_char k) = true /\
  Py.digit_val (Py.digit_char k) = k /\
  Py.is_space (Py.digit_char k) = false /\
  Ascii.eqb (Py.digit_char k) "-" = false /\
  Ascii.eqb (Py.digit_char k) "+" = false /\
  Ascii.eqb (Py.digit_char k) "010" = false.
Proof.
  intros Hk.
  assert (Hc : k = 0 \/ k = 1 \/ k = 2 \/ k = 3 \/ k = 4 \/ k = 5 \/
               k = 6 \/ k = 7 \/ k = 8 \/ k = 9) by lia.
  repeat (destruct Hc as [-> | Hc]; [vm_compute; intuition congruence |]).
  subst k; vm_compute; intuition congruence.
Qed.

Lemma is_digit_not_space (c : ascii) :
  Py.is_digit c = true -> Py.is_space c = false.
Proof.
  unfold Py.is_digit, Py.is_space. intros H.
  apply andb_true_iff in H as [H1 H2].
  apply Z.leb_le in H1. apply Z.leb_le in H2.
  destruct (Nat.eqb_spec (nat_of_ascii c) 32) as [E | _]; [lia |].
  destruct (Nat.leb_spec (nat_of_ascii c) 13) as [E | _]; [lia |].
  now rewrite andb_false_r.
Qed.

Lemma is_digit_not_newline (c : ascii) :
  Py.is_digit c = true -> Ascii.eqb c "010" = false.
Proof.
  intros H. destruct (Ascii.eqb_spec c "010"%char) as [-> | _]; [| easy].
  discriminate H.
Qed.

Lemma all_digits_no_newline (s : string) :
  all_digits s = true -> no_newline s = true.
Proof.
  induction s as [| c r IH]; simpl; [easy |].
  intros H. apply andb_true_iff in H as [Hc Hr].
  now rewrite (is_digit_not_newline c Hc), IH.
Qed.

Lemma digits_fuel_all (f : nat) : forall (n : Z) (acc : string),
  0 <= n -> all_digits acc = true ->
  all_digits (Py.digits_fuel f n acc) = true.
Proof.
  induction f as [| f IH]; intros n acc Hn Hacc; cbn [Py.digits_fuel]; [easy |].
  assert (Hd : 0 <= n mod 10 < 10) by (apply Z.mod_pos_bound; lia).
  destruct (digit_char_spec _ Hd) as (Hdig & _).
  destruct (n <? 10).
  - cbn [all_digits]. now rewrite Hdig, Hacc.
  - apply IH; [apply Z.div_pos; lia |]. cbn [all_digits]. now rewrite Hdig, Hacc.
Qed.

Lemma digits_fuel_nonempty (f : nat) : forall (n : Z) (acc : string),
  acc <> EmptyString -> Py.digits_fuel f n acc <> EmptyString.
Proof.
  induction f as [| f IH]; intros n acc Hacc; cbn [Py.digits_fuel]; [easy |].
  destruct (n <? 10); [easy |]. now apply IH.
Qed.

Lemma digits_nonempty (n : Z) : Py.digits n <> EmptyString.
Proof.
  unfold Py.digits. cbn [Py.digits_fuel]. destruct (n <? 10); [easy |].
  now apply digits_fuel_nonempty.
Qed.

(** Reading back the digits written for [n] continues the number read so
    far with [n]. *)
Lemma digits_fuel_parse (f : nat) : forall (n : Z) (acc : string),
  0 <= n < 2 ^ Z.of_nat f ->
  exists k : Z, 0 <= k /\ forall a : Z,
    Py.parse_digits (Py.digits_fuel f n acc) a =
    Py.parse_digits acc (a * 10 ^ k + n).
Proof.
  induction f as [| f IH]; intros n acc Hn.
  - exists 0. split; [lia |]. intros a. cbn [Py.digits_fuel].
    change (2 ^ Z.of_nat 0) with 1 in Hn. f_equal; lia.
  - cbn [Py.digits_fuel].
    assert (Hd : 0 <= n mod 10 < 10) by (apply Z.mod_pos_bound; lia).
    destruct (digit_char_spec _ Hd) as (Hdig & Hval & _).
    destruct (Z.ltb_spec n 10) as [Hlt | Hge].
    + exists 1. split; [lia |]. intros a. cbn [Py.parse_digits].
      rewrite Hdig, Hval. rewrite Z.mod_small by lia. f_equal; lia.
    + assert (Hq : 0 <= n / 10 < 2 ^ Z.of_nat f).
      { split; [apply Z.div_pos; lia |].
        apply Z.div_lt_upper_bound; [lia |].
        rewrite Nat2Z.inj_succ, Z.pow_succ_r in Hn by lia. lia. }
      destruct (IH (n / 10) (String (Py.digit_char (n mod 10)) acc) Hq)
        as (k & Hk & Hparse).
      exists (k + 1). split; [lia |]. intros a. rewrite Hparse.
      cbn [Py.parse_digits]. rewrite Hdig, Hval. f_equal.
      rewrite Z.pow_add_r by lia.
      pose proof (Z.div_mod n 10 ltac:(lia)). lia.
Qed.

Lemma parse_digits_digits (n : Z) :
  0 <= n -> Py.parse_unsigned (Py.digits n) = Some n.
Proof.
  intros Hn. unfold Py.parse_unsigned.
  pose proof (digits_nonempty n) as Hne.
  destruct (Py.digits n) eqn:E; [easy |]. rewrite <- E. unfold Py.digits.
  destruct (digits_fuel_parse (S (Z.to_nat (Z.log2 n))) n EmptyString)
    as (k & _ & Hparse).
  - split; [lia |].
    destruct (Z.eq_dec n 0) as [-> | Hnz]; [easy |].
    rewrite Nat2Z.inj_succ, Z2Nat.id by apply Z.log2_nonneg.
    apply Z.log2_spec. lia.
  - rewrite Hparse. cbn [Py.parse_digits]. f_equal; lia.
Qed.

Lemma all_digits_digits (n : Z) : 0 <= n -> all_digits (Py.digits n) = true.
Proof. intros Hn. now apply digits_fuel_all. Qed.

Lemma lstrip_no_space (c : ascii) (r : string) :
  Py.is_space c = false -> Py.lstrip (String c r) = String c r.
Proof. intros H. cbn [Py.lstrip]. now rewrite H. Qed.

Lemma rstrip_all_digits (s : string) :
  all_digits s = true -> Py.rstrip s = s.
Proof.
  induction s as [| c r IH]; cbn [Py.rstrip all_digits]; [easy |].
  intros H. apply andb_true_iff in H as [Hc Hr]. rewrite (IH Hr).
  destruct r; [| easy]. now rewrite (is_digit_not_space c Hc).
Qed.

(** [int(str(n)) == n] *)
Lemma int_str (n : Z) : Py.int (Py.str n) = Ok n.
Proof.
  unfold Py.str. destruct (Z.ltb_spec n 0) as [Hneg | Hpos].
  - pose proof (digits_nonempty (- n)) as Hne.
    pose proof (all_digits_digits (- n) ltac:(lia)) as Hall.
    pose proof (parse_digits_digits (- n) ltac:(lia)) as Hp.
    unfold Py.int. cbn [Py.rstrip]. rewrite (rstrip_all_digits _ Hall).
    destruct (Py.digits (- n)) as [| c r] eqn:E; [easy |].
    rewrite lstrip_no_space by reflexivity.
    change (Ascii.eqb "-" "-") with true. cbv iota.
    rewrite Hp. f_equal; lia.
  - pose proof (digits_nonempty n) as Hne.
    pose proof (all_digits_digits n Hpos) as Hall.
    pose proof (parse_digits_digits n Hpos) as Hp.
    unfold Py.int. rewrite (rstrip_all_digits _ Hall).
    destruct (Py.digits n) as [| c r] eqn:E; [easy |].
    cbn [all_digits] in Hall. apply andb_true_iff in Hall as [Hc _].
    rewrite lstrip_no_space by now apply is_digit_not_space.
    assert (Hm : Ascii.eqb c "-" = false).
    { destruct (Ascii.eqb_spec c "-"%char) as [-> | _]; [discriminate Hc | easy]. }
    assert (Hpl : Ascii.eqb c "+" = false).
    { destruct (Ascii.eqb_spec c "+"%char) as [-> | _]; [discriminate Hc | easy]. }
    rewrite Hm, Hpl. now rewrite Hp.
Qed.

Lemma readlines_from_no_newline (s : string) : forall cur : string -> string,
  no_newline s = true ->
  Py.readlines_from cur s =
  match cur s with EmptyString => [] | l => [l] end.
Proof.
  induction s as [| c r IH]; intros cur H;
    cbn [Py.readlines_from no_newline] in *; [easy |].
  apply andb_true_iff in H as [Hc Hr].
  apply negb_true_iff in Hc. rewrite Hc. now rewrite IH.
Qed.

Lemma str_no_newline (n : Z) : no_newline (Py.str n) = true.
Proof.
  unfold Py.str. destruct (Z.ltb_spec n 0).
  - cbn [no_newline]. change (Ascii.eqb "-" "010") with false. cbn [negb andb].
    apply all_digits_no_newline, all_digits_digits. lia.
  - apply all_digits_no_newline, all_digits_digits. lia.
Qed.

(** The text [checkpoint_write] leaves is one line, the number itself. *)
Lemma first_readlines_str (n : Z) :
  Py.first (Py.readlines (Py.str n)) = Ok (Py.str n).
Proof.
  unfold Py.readlines. rewrite readlines_from_no_newline by apply str_no_newline.
  destruct (Py.str n) eqn:E; [| easy].
  exfalso. unfold Py.str in E. destruct (n <? 0); [easy |].
  now apply (digits_nonempty n).
Qed.

(** ** Running computations *)

Create HintDb keeps.

Ltac mrun := cbv beta iota delta
  [bind ret raise gets modify lift sys_exit of_outcome print say log call
   path_exists path_isfile makedirs open_readlines open_write on_world
   set_files set_dirs set_console w trace files dirs console ext fst snd negb].


Section Properties.

Context {Time Ext : Type}.

Abbreviation state := (@state Ext).
Abbreviation recipe := (@recipe Time Ext).
Abbreviation menu := (@menu Time Ext).
Abbreviation restaurant := (@restaurant Time Ext).
Abbreviation timestep := (@timestep Time).

Lemma same_store_refl (s : state) : same_store s s.
Proof. now repeat split. Qed.

Lemma same_store_trans (s1 s2 s3 : state) :
  same_store s1 s2 -> same_store s2 s3 -> same_store s1 s3.
Proof. unfold same_store. intuition congruence. Qed.

Lemma same_store_say (line : string) (s : state) : same_store s (say line s).
Proof. now repeat split. Qed.

Lemma bind_ok {S A B} (m : M S A) (k : A -> M S B) (s s' : S) (a : A) :
  m s = (Ok a, s') -> bind m k s = k a s'.
Proof. intros H. unfold bind. now rewrite H. Qed.

Lemma bind_raise {S A B} (m : M S A) (k : A -> M S B) (s s' : S) (err : exn) :
  m s = (Raise err, s') -> bind m k s = (Raise err, s').
Proof. intros H. unfold bind. now rewrite H. Qed.

Lemma lift_print {X} (line : string) (x : X) (s : state) :
  lift (print line) (x, s) = (Ok tt, (x, say line s)).
Proof. reflexivity. Qed.

(** ** The checkpoint store *)

Lemma check_range_unset (bf0 : option Z) (s : state) :
  check_range bf0 None s = (Ok tt, s).
Proof.
  unfold check_range. rewrite (bool_decide_eq_false_2 (None <> None)) by congruence.
  now rewrite andb_false_r, andb_false_r.
Qed.

Lemma check_range_bad (k l : Z) (s : state) :
  l <= k ->
  check_range (Some k) (Some l) s =
  (Raise (SystemExit ("Stop Signalled: Beginning frame " +:+ Py.str k +:+
                      " is equal or greater to End frame " +:+ Py.str l)), s).
Proof.
  intros H. unfold check_range. cbn [Py.ge].
  rewrite (proj2 (Z.leb_le l k) H).
  rewrite !bool_decide_eq_true_2 by congruence. reflexivity.
Qed.

Lemma load_fresh ef0 folder base name datatype (s : state) :
  files (w s) !! data_path folder base name datatype = None ->
  exists s1,
    checkpoint_frame_from ef0 folder base name datatype s =
    (check_range None ef0 ;;;
       print "--------------------------------------" ;;;
       ret (None, ef0, false)) s1 /\
    same_store s s1.
Proof.
  intros H. unfold checkpoint_frame_from.
  destruct s as [[f ds c x] t]. cbn [w files] in H.
  mrun.
  destruct (bool_decide (is_Some (f !! cpt_dir folder)) || bool_decide (cpt_dir folder ∈ ds)) eqn:E;
    mrun; rewrite ?E; mrun; rewrite H;
    rewrite bool_decide_eq_false_2 by (intros [? ?]; discriminate); mrun.
  all: destruct ef0; eexists; (split; [reflexivity | now repeat split]).
Qed.

Lemma load_existing ef0 folder base name datatype (s : state) dtxt txt l0 n :
  files (w s) !! data_path folder base name datatype = Some dtxt ->
  files (w s) !! cpt_path folder base name = Some txt ->
  Py.first (Py.readlines txt) = Ok l0 ->
  Py.int l0 = Ok n ->
  exists s1,
    checkpoint_frame_from ef0 folder base name datatype s =
    (check_range (Some (n + 1)) ef0 ;;;
       print "--------------------------------------" ;;;
       ret (Some (n + 1), ef0, true)) s1 /\
    files (w s1) = files (w s) /\ ext (w s1) = ext (w s) /\
    trace s1 = (trace s ++ [EvRead (cpt_path folder base name)])%list.
Proof.
  intros H Hc Hl Hn. unfold checkpoint_frame_from.
  destruct s as [[f ds c x] t]. cbn [w files] in H, Hc.
  mrun.
  destruct (bool_decide (is_Some (f !! cpt_dir folder)) || bool_decide (cpt_dir folder ∈ ds)) eqn:E;
    mrun; rewrite ?E; mrun; rewrite H;
    rewrite bool_decide_eq_true_2 by eauto; mrun; rewrite Hc; mrun;
    rewrite Hl; mrun; rewrite Hn; mrun.
  all: destruct ef0; eexists; (split; [reflexivity | now repeat split]).
Qed.


(** C7 (load of a new task).  When the data file of a task does not exist,
    [checkpoint_frame] returns [bf] and [ef] unset and [fex = False]; it
    reads no file (the trace records no read) and leaves files and analysis
    memory as they were. *)
Theorem fresh_task_load folder base name datatype (s : state) :
  files (w s) !! data_path folder base name datatype = None ->
  exists s',
    checkpoint_frame folder base name datatype s = (Ok (None, None, false), s') /\
    trace s' = trace s /\
    files (w s') = files (w s) /\
    ext (w s') = ext (w s).
Proof.
  intros H.
  destruct (load_fresh None folder base name datatype s H) as (s1 & Hrun & Hf & He & Ht).
  unfold checkpoint_frame. rewrite Hrun.
  unfold bind at 1. rewrite check_range_unset.
  destruct s1 as [[f ds c x] t]. mrun. eexists. split; [reflexivity |].
  cbn [w files ext trace] in *. auto.
Qed.

(** C1 (resume correctness).  A checkpoint written for position [P >= 0] is
    read back as the next position: after [checkpoint_write P] on the
    checkpoint file of a task whose data file exists, [checkpoint_frame] for
    that task returns [bf = P + 1] (with [ef] unset and [fex = True]). *)
Theorem checkpoint_round_trip folder base name datatype (P : Z) (s : state) :
  0 <= P ->
  let s1 := snd (checkpoint_write P (cpt_path folder base name) s) in
  is_Some (files (w s1) !! data_path folder base name datatype) ->
  fst (checkpoint_write P (cpt_path folder base name) s) = Ok tt /\
  exists s2,
    checkpoint_frame folder base name datatype s1 =
    (Ok (Some (P + 1), None, true), s2).
Proof.
  intros HP s1 [dtxt Hd]. split; [reflexivity |].
  assert (Hc : files (w s1) !! cpt_path folder base name = Some (Py.str P)).
  { subst s1. destruct s as [[f ds c x] t]. unfold checkpoint_write. mrun.
    apply lookup_insert_eq. }
  destruct (load_existing None folder base name datatype s1 dtxt (Py.str P)
              (Py.str P) P Hd Hc (first_readlines_str P) (int_str P))
    as (s2 & Hrun & _).
  unfold checkpoint_frame. rewrite Hrun.
  unfold bind at 1. rewrite check_range_unset.
  destruct s2 as [[f ds c x] t]. mrun. eexists. reflexivity.
Qed.

(** The test of lines 67-68 on its own: were the end frame set to [l] when
    the test is reached, a load with [bf = n + 1 >= l] would not return but
    raise [SystemExit].  The program never gets there: see
    [checkpoint_frame_no_exit]. *)
Lemma range_check_exits folder base name datatype (s : state)
    dtxt txt l0 (n l : Z) :
  files (w s) !! data_path folder base name datatype = Some dtxt ->
  files (w s) !! cpt_path folder base name = Some txt ->
  Py.first (Py.readlines txt) = Ok l0 ->
  Py.int l0 = Ok n ->
  l <= n + 1 ->
  exists msg,
    fst (checkpoint_frame_from (Some l) folder base name datatype s) =
    Raise (SystemExit msg).
Proof.
  intros Hd Hc Hl Hn Hle.
  destruct (load_existing (Some l) folder base name datatype s dtxt txt l0 n
              Hd Hc Hl Hn) as (s1 & Hrun & _).
  rewrite Hrun. unfold bind at 1. rewrite (check_range_bad _ _ _ Hle).
  eexists. reflexivity.
Qed.

Lemma first_raises {A} (l : list A) (err : exn) :
  Py.first l = Raise err -> err = IndexError.
Proof. destruct l; cbn [Py.first]; congruence. Qed.

Lemma int_raises (t : string) (err : exn) :
  Py.int t = Raise err -> exists what, err = ValueError what.
Proof.
  unfold Py.int. intros H.
  repeat match type of H with
         | match ?x with _ => _ end = _ => destruct x
         | (if ?x then _ else _) = _ => destruct x
         end; try discriminate H; injection H as <-; eauto.
Qed.

(** The check of lines 67-68 never fires in [checkpoint_frame] itself, where
    [ef] is unset: the function ends with a result or with the error of a
    missing or unreadable checkpoint. *)
Lemma checkpoint_frame_no_exit folder base name datatype (s : state) msg :
  fst (checkpoint_frame folder base name datatype s) <> Raise (SystemExit msg).
Proof.
  unfold checkpoint_frame, checkpoint_frame_from.
  destruct s as [[f ds c x] t]. mrun.
  destruct (bool_decide (is_Some (f !! cpt_dir folder)) ||
            bool_decide (cpt_dir folder ∈ ds)) eqn:E; mrun; rewrite ?E; mrun;
    (destruct (f !! data_path folder base name datatype) eqn:Hd;
     [rewrite bool_decide_eq_true_2 by eauto
     | rewrite bool_decide_eq_false_2 by (intros [? ?]; discriminate)]); mrun;
    try (destruct (f !! cpt_path folder base name) as [txt |]; mrun;
         [| discriminate];
         destruct (Py.first (Py.readlines txt)) as [l0 |] eqn:Hl;
         [| apply first_raises in Hl; subst]; mrun; [| discriminate];
         destruct (Py.int l0) eqn:Hn;
         [| apply int_raises in Hn as [what ->]]; mrun; [| discriminate]);
    rewrite check_range_unset; mrun; discriminate.
Qed.
(** C2 (processing and checkpoint are one step).  [runinloop] calls the
    per-unit callable once.  When the callable returns, the checkpoint of
    that frame is written right after it, once: the state is the one the
    callable left with the checkpoint file set to the frame number, and the
    trace grows by the call followed by the commit.  When the callable
    raises, [runinloop] raises the same exception, the state is the one the
    callable left, and the trace grows by the call alone: no commit, and the
    checkpoint file is as it was. *)
Theorem runinloop_commit (self : recipe) (fr : Z) (tm : Time)
    (func : Z -> Time -> @callable Ext) (s : state) :
  match func fr tm (w s) with
  | (Ok _, x) =>
      runinloop self fr tm func s =
      (Ok tt,
       State (set_files (<[chkpt self := Py.str fr]> (files x)) x)
             (trace s ++ [EvUnit (chkpt self) fr; EvCommit (chkpt self) fr]))
  | (Raise err, x) =>
      runinloop self fr tm func s =
      (Raise err, State x (trace s ++ [EvUnit (chkpt self) fr]))
  end.
Proof.
  unfold runinloop, cpt_out, checkpoint_write.
  destruct s as [x0 t]. mrun.
  destruct (func fr tm x0) as [[[] | err] x]; mrun; [| reflexivity].
  now rewrite <- app_assoc.
Qed.

(** ** The menu *)

Lemma getitem_some (m : menu) (s : state) (i : string) (a : recipe) :
  d m !! i = Some a -> getitem i (m, s) = (Ok a, (m, s)).
Proof. intros H. unfold getitem, bind, gets. cbn [fst]. now rewrite H. Qed.

Lemma show_names_spec (names : list string) : forall (i : Z) (s : state),
  exists s', show_names i names s = (Ok tt, s') /\ same_store s s'.
Proof.
  induction names as [| name r IH]; intros i s; cbn [show_names].
  - exists s. split; [reflexivity | apply same_store_refl].
  - destruct (IH (i + 1) (say ("(" +:+ Py.str (i + 1) +:+ "): Analysis Name: " +:+ name) s))
      as (s' & Hrun & Hs).
    exists s'. split.
    + erewrite bind_ok by reflexivity. exact Hrun.
    + eapply same_store_trans; [apply same_store_say | exact Hs].
Qed.

Lemma lift_run {X A} (m : M state A) (x : X) (s s' : state) (o : outcome A) :
  m s = (o, s') -> lift m (x, s) = (o, (x, s')).
Proof. intros H. unfold lift. cbn [fst snd]. now rewrite H. Qed.

Lemma same_store_say_l (line : string) (s s' : state) :
  same_store (say line s) s' -> same_store s s'.
Proof. apply same_store_trans, same_store_say. Qed.

Lemma list_show_spec (m : menu) (s : state) :
  exists s', list_show (m, s) = (Ok tt, (m, s')) /\ same_store s s'.
Proof.
  unfold list_show.
  do 3 (erewrite bind_ok by apply lift_print).
  erewrite bind_ok by reflexivity. cbn [fst].
  match goal with |- context [(m, ?s0)] =>
    destruct (show_names_spec (map_to_list (d m)).*1 0 s0) as (s1 & Hrun & Hs)
  end.
  erewrite bind_ok by (apply lift_run, Hrun).
  rewrite lift_print. eexists. split; [reflexivity |].
  do 3 apply same_store_say_l in Hs.
  eapply same_store_trans; [exact Hs | apply same_store_say].
Qed.

Lemma check_loop_spec (nframes : Z) (m : menu) (names : list string) :
  forall (del : list string) (s : state),
  (forall name, name ∈ names -> is_Some (d m !! name)) ->
  exists s',
    check_loop nframes names del (m, s) =
    (Ok (del ++ filter (fun name => is_doomed nframes (d m) name = true) names),
     (m, s')) /\
    same_store s s'.
Proof.
  induction names as [| name r IH]; intros del s Hin; cbn [check_loop].
  - exists s. rewrite filter_nil, app_nil_r. split; [reflexivity | apply same_store_refl].
  - destruct (Hin name ltac:(left)) as [a Ha].
    erewrite bind_ok by (apply getitem_some, Ha).
    assert (Hd : is_doomed nframes (d m) name = Py.ge (bf a) (Some nframes))
      by (unfold is_doomed; now rewrite Ha).
    rewrite filter_cons.
    destruct (Py.ge (bf a) (Some nframes)) eqn:E.
    + rewrite decide_True by exact Hd.
      do 2 (erewrite bind_ok by apply lift_print).
      edestruct (IH (del ++ [name])) as (s' & Hrun & Hs);
        [intros; apply Hin; now right |].
      rewrite Hrun. exists s'. split.
      * now rewrite <- app_assoc.
      * now do 2 apply same_store_say_l in Hs.
    + rewrite decide_False by (rewrite Hd; discriminate).
      apply IH. intros; apply Hin; now right.
Qed.

Lemma remove_all_spec (dl : list string) : forall (m : menu) (s : state),
  NoDup dl ->
  (forall k, k ∈ dl -> is_Some (d m !! k)) ->
  exists dm',
    for_each dl remove (m, s) = (Ok tt, (set_d dm' m, s)) /\
    forall k, dm' !! k = if decide (k ∈ dl) then None else d m !! k.
Proof.
  induction dl as [| x r IH]; intros m s Hnd Hin; cbn [for_each].
  - exists (d m). destruct m. split; [reflexivity |].
    intros k. rewrite decide_False; [reflexivity | apply not_elem_of_nil].
  - apply NoDup_cons in Hnd as [Hx Hr].
    destruct (Hin x ltac:(left)) as [a Ha].
    assert (Hrm : remove x (m, s) = (Ok tt, (set_d (delete x (d m)) m, s))).
    { unfold remove, bind, gets, modify, on_fst. cbn [fst snd]. now rewrite Ha. }
    erewrite bind_ok by exact Hrm.
    destruct (IH (set_d (delete x (d m)) m) s Hr) as (dm' & Hrun & Hlk).
    { intros k Hk. cbn [set_d d]. rewrite lookup_delete_ne; [apply Hin; now right |].
      intros ->. contradiction. }
    exists dm'. split; [exact Hrun |].
    intros k. rewrite Hlk. cbn [set_d d].
    destruct (decide (k = x)) as [-> | Hne].
    + rewrite (decide_True (P := x ∈ x :: r)) by now left.
      rewrite lookup_delete_eq. now destruct (decide (x ∈ r)).
    + rewrite lookup_delete_ne by congruence.
      destruct (decide (k ∈ r)) as [Hk | Hk].
      * rewrite decide_True; [reflexivity | now right].
      * rewrite decide_False; [reflexivity |].
        intros Hk'. apply elem_of_cons in Hk' as [? | ?]; contradiction.
Qed.


Lemma elem_of_keys (dm : gmap string recipe) (k : string) :
  k ∈ (map_to_list dm).*1 <-> is_Some (dm !! k).
Proof.
  rewrite list_elem_of_fmap. split.
  - intros ([k' a] & -> & Hin). apply elem_of_map_to_list in Hin. eauto.
  - intros [a Ha]. exists (k, a). split; [reflexivity |].
    now apply elem_of_map_to_list.
Qed.

Lemma check_cases_spec (nframes : Z) (m : menu) (s : state) :
  exists dm' s',
    check_cases nframes (m, s) =
    ((if decide (dm' = ∅) then Raise (SystemExit exit_msg) else Ok tt),
     (set_d dm' m, s')) /\
    same_store s s' /\
    forall k, dm' !! k =
      match d m !! k with
      | Some a => if Py.ge (bf a) (Some nframes) then None else Some a
      | None => None
      end.
Proof.
  unfold check_cases.
  do 3 (erewrite bind_ok by apply lift_print).
  erewrite bind_ok by reflexivity. cbn [fst].
  match goal with |- context [(m, ?s0)] =>
    destruct (check_loop_spec nframes m (map_to_list (d m)).*1 [] s0)
      as (s1 & Hloop & Hs1)
  end.
  { intros name. apply elem_of_keys. }
  erewrite bind_ok by exact Hloop. rewrite app_nil_l.
  set (dl := filter (fun name => is_doomed nframes (d m) name = true)
                    (map_to_list (d m)).*1) in *.
  destruct (remove_all_spec dl m s1) as (dm' & Hrm & Hlk).
  { apply NoDup_filter, NoDup_fst_map_to_list. }
  { intros k Hk. apply list_elem_of_filter in Hk as [_ Hk].
    now apply elem_of_keys. }
  assert (Hrm' : (if 0 <? Z.of_nat (length dl) then for_each dl remove else ret tt)
                   (m, s1) = (Ok tt, (set_d dm' m, s1))).
  { destruct dl; [| exact Hrm]. exact Hrm. }
  erewrite bind_ok by exact Hrm'.
  erewrite bind_ok by apply lift_print.
  erewrite bind_ok by reflexivity. cbn [fst set_d d].
  exists dm', (say "" s1). split; [| split].
  - destruct (decide (dm' = ∅)) as [-> | Hne].
    + rewrite map_size_empty. reflexivity.
    + destruct (Z.eqb_spec (Z.of_nat (size dm')) 0) as [E | _]; [| reflexivity].
      exfalso. apply Hne, map_size_empty_iff. lia.
  - do 3 apply same_store_say_l in Hs1.
    eapply same_store_trans; [exact Hs1 | apply same_store_say].
  - intros k. rewrite Hlk. subst dl.
    destruct (d m !! k) as [a |] eqn:Ha.
    + destruct (Py.ge (bf a) (Some nframes)) eqn:E.
      * rewrite decide_True; [reflexivity |].
        apply list_elem_of_filter. split; [| apply elem_of_keys; eauto].
        unfold is_doomed. now rewrite Ha.
      * rewrite decide_False; [reflexivity |].
        intros Hk. apply list_elem_of_filter in Hk as [Hk _].
        unfold is_doomed in Hk. rewrite Ha in Hk. congruence.
    + now destruct (decide _).
Qed.

(** C4 (eviction).  Whatever way [check_cases nframes] ends, the menu it
    leaves holds no task that had [bf >= nframes], and every task it still
    holds was there before and has [bf < nframes] in the order of the
    source.  When that [bf] is a number it is below [nframes]; read with
    unset as 0 it is below [nframes] as soon as the trajectory has a
    frame. *)
Theorem eviction_correct (nframes : Z) (m : menu) (s : state) :
  let m' := fst (snd (check_cases nframes (m, s))) in
  (forall k a, d m !! k = Some a -> Py.ge (bf a) (Some nframes) = true ->
               d m' !! k = None) /\
  (forall k a, d m' !! k = Some a ->
               d m !! k = Some a /\
               Py.lt (bf a) (Some nframes) = true /\
               (forall K, bf a = Some K -> K < nframes) /\
               (0 < nframes -> default 0 (bf a) < nframes)).
Proof.
  destruct (check_cases_spec nframes m s) as (dm' & s' & Hrun & _ & Hlk).
  rewrite Hrun. cbn [fst snd set_d d]. split.
  - intros k a Ha Hge. rewrite Hlk, Ha. now rewrite Hge.
  - intros k a Hk. rewrite Hlk in Hk.
    destruct (d m !! k) as [a0 |]; [| discriminate].
    destruct (Py.ge (bf a0) (Some nframes)) eqn:E; [discriminate |].
    injection Hk as ->. split; [reflexivity |].
    unfold Py.lt. rewrite E. split; [reflexivity |].
    destruct (bf a) as [K |]; cbn [Py.ge default] in *.
    + apply Z.leb_gt in E. split; [| intros _; exact E].
      intros K' HK'. injection HK' as <-. exact E.
    + split; [discriminate | trivial].
Qed.

(** C10 (a new task is never evicted).  For every [nframes], zero
    included, a task whose [bf] is unset is still in the menu, unchanged,
    after [check_cases nframes]. *)
Theorem unset_never_evicted (nframes : Z) (m : menu) (s : state)
    (k : string) (a : recipe) :
  d m !! k = Some a ->
  bf a = None ->
  d (fst (snd (check_cases nframes (m, s)))) !! k = Some a.
Proof.
  intros Ha Hbf.
  destruct (check_cases_spec nframes m s) as (dm' & s' & Hrun & _ & Hlk).
  rewrite Hrun. cbn [fst snd set_d d]. rewrite Hlk, Ha, Hbf. reflexivity.
Qed.


(** *** The order of Python 2 on an integer or [None] *)

Lemma py_ge_refl (x : option Z) : Py.ge x x = true.
Proof. destruct x; cbn [Py.ge]; [apply Z.leb_refl | reflexivity]. Qed.

Lemma py_ge_total (x y : option Z) : Py.ge x y = false -> Py.ge y x = true.
Proof.
  destruct x as [a |], y as [c |]; cbn [Py.ge]; try easy.
  intros H. apply Z.leb_gt in H. apply Z.leb_le. lia.
Qed.

Lemma py_ge_trans (x y z : option Z) :
  Py.ge x y = true -> Py.ge y z = true -> Py.ge x z = true.
Proof.
  destruct x as [a |], y as [c |], z as [g |]; cbn [Py.ge]; try easy.
  rewrite !Z.leb_le. lia.
Qed.

Lemma fold_min2_spec (r : list (option Z)) : forall x : option Z,
  fold_left Py.min2 r x ∈ x :: r /\
  forall y, y ∈ x :: r -> Py.ge y (fold_left Py.min2 r x) = true.
Proof.
  induction r as [| z r IH]; intros x; cbn [fold_left].
  - split; [now left |]. intros y Hy. apply list_elem_of_singleton in Hy as ->.
    apply py_ge_refl.
  - destruct (IH (Py.min2 x z)) as [Hin Hle]. split.
    + apply elem_of_cons in Hin as [-> | Hin]; [| now do 2 right].
      unfold Py.min2. destruct (Py.lt z x); [right; left | left].
    + intros y Hy.
      assert (Hm : Py.ge x (Py.min2 x z) = true /\ Py.ge z (Py.min2 x z) = true).
      { unfold Py.min2, Py.lt. destruct (Py.ge z x) eqn:E; cbn [negb].
        - split; [apply py_ge_refl | exact E].
        - split; [now apply py_ge_total | apply py_ge_refl]. }
      destruct Hm as [Hx Hz].
      apply elem_of_cons in Hy as [-> | Hy].
      * eapply py_ge_trans; [exact Hx | apply Hle; now left].
      * apply elem_of_cons in Hy as [-> | Hy].
        -- eapply py_ge_trans; [exact Hz | apply Hle; now left].
        -- apply Hle. now right.
Qed.

Lemma py_min_spec (l : list (option Z)) :
  l <> [] ->
  exists mn, Py.min l = Ok mn /\ mn ∈ l /\
             forall y, y ∈ l -> Py.ge y mn = true.
Proof.
  destruct l as [| x r]; [easy |]. intros _.
  exists (fold_left Py.min2 r x). split; [reflexivity |].
  apply fold_min2_spec.
Qed.

Lemma bf_loop_spec (m : menu) (s : state) (l : list (string * recipe)) :
  forall acc : list (option Z),
  (forall k a, (k, a) ∈ l -> d m !! k = Some a) ->
  bf_loop l.*1 acc (m, s) = (Ok (acc ++ ((bf ∘ snd) <$> l)), (m, s)).
Proof.
  induction l as [| [k a] r IH]; intros acc Hin; cbn [bf_loop fmap list_fmap fst].
  - now rewrite app_nil_r.
  - erewrite bind_ok by (apply getitem_some, Hin; now left).
    rewrite IH by (intros; apply Hin; now right).
    now rewrite <- app_assoc.
Qed.

Lemma min_beg_frame_spec (m : menu) (s : state) :
  d m <> ∅ ->
  exists mn,
    min_beg_frame (m, s) =
    (Ok (inl (mn, (bf ∘ snd) <$> map_to_list (d m))), (set_min_bf mn m, s)) /\
    (exists k a, d m !! k = Some a /\ bf a = mn) /\
    (forall k a, d m !! k = Some a -> Py.ge (bf a) mn = true).
Proof.
  intros Hne. unfold min_beg_frame.
  erewrite bind_ok by reflexivity. cbn [fst].
  assert (Hsz : (0 <? Z.of_nat (size (d m))) = true).
  { apply Z.ltb_lt.
    destruct (decide (size (d m) = 0%nat)) as [E | E]; [| lia].
    now apply map_size_empty_iff in E. }
  rewrite Hsz.
  erewrite bind_ok by reflexivity.
  erewrite bind_ok by reflexivity. cbn [fst on_fst set_min_bf d snd].
  erewrite bind_ok.
  2:{ apply (bf_loop_spec _ _ (map_to_list (d m)) []).
      intros k a. apply elem_of_map_to_list. }
  rewrite app_nil_l.
  destruct (py_min_spec ((bf ∘ snd) <$> map_to_list (d m))) as (mn & Hmin & Hin & Hle).
  { intros E. apply fmap_nil_inv in E. now apply map_to_list_empty_iff in E. }
  rewrite Hmin. exists mn. split; [reflexivity |]. split.
  - apply list_elem_of_fmap in Hin as ([k a] & -> & Hin).
    apply elem_of_map_to_list in Hin. eauto.
  - intros k a Ha. apply Hle. apply list_elem_of_fmap. exists (k, a).
    split; [reflexivity | now apply elem_of_map_to_list].
Qed.

(** C6 (global minimum).  On a menu that is not empty and whose set [bf]
    are positions, that is not negative, [min_beg_frame] returns a pair
    whose first component, read with unset as 0, is the least [bf] of the
    menu read the same way: some task has it, and no task has a smaller
    one.  The second component lists the [bf] in iteration order. *)
Theorem minimum_begin_frame (m : menu) (s : state) :
  d m <> ∅ ->
  (forall k a K, d m !! k = Some a -> bf a = Some K -> 0 <= K) ->
  exists mn,
    min_beg_frame (m, s) =
    (Ok (inl (mn, (bf ∘ snd) <$> map_to_list (d m))), (set_min_bf mn m, s)) /\
    (exists k a, d m !! k = Some a /\ default 0 (bf a) = default 0 mn) /\
    (forall k a, d m !! k = Some a -> default 0 mn <= default 0 (bf a)).
Proof.
  intros Hne Hpos.
  destruct (min_beg_frame_spec m s Hne) as (mn & Hrun & (k0 & a0 & Ha0 & Hbf0) & Hle).
  exists mn. split; [exact Hrun |]. split.
  - exists k0, a0. split; [exact Ha0 | now rewrite Hbf0].
  - intros k a Ha. specialize (Hle k a Ha).
    destruct (bf a) as [K |] eqn:HK, mn as [N |]; cbn [default Py.ge] in *.
    + now apply Z.leb_le.
    + eapply Hpos; eauto.
    + discriminate.
    + lia.
Qed.

(** ** The restaurant *)

Lemma in_menu_run {A} (m : M (menu * state) A) (r : restaurant) (s s' : state)
    (mn : menu) (o : outcome A) :
  m (the_menu r, s) = (o, (mn, s')) ->
  in_menu m (r, s) = (o, (set_menu mn r, s')).
Proof. intros H. unfold in_menu. cbn [fst snd]. now rewrite H. Qed.

(** C5 (nothing left to run).  When every task of the menu has
    [bf >= nframes], an empty menu included, [serve] ends with the
    [SystemExit] of [check_cases]: the menu is empty, the trace is as it was,
    so no per-unit callable was called, no checkpoint written and no
    [runafterloop] run, and files and analysis memory are untouched. *)
Theorem empty_registry_terminates (r : restaurant) (s : state) :
  (forall k a, d (the_menu r) !! k = Some a ->
               Py.ge (bf a) (Some (nframes r)) = true) ->
  exists r' s',
    serve (r, s) = (Raise (SystemExit exit_msg), (r', s')) /\
    d (the_menu r') = ∅ /\
    trace s' = trace s /\
    files (w s') = files (w s) /\
    ext (w s') = ext (w s).
Proof.
  intros Hall. unfold serve.
  destruct (list_show_spec (the_menu r) s) as (s1 & Hshow & Hs1).
  destruct (check_cases_spec (nframes r) (the_menu r) s1)
    as (dm' & s2 & Hcheck & Hs2 & Hlk).
  assert (Hempty : dm' = ∅).
  { apply map_eq. intros k. rewrite Hlk, lookup_empty.
    destruct (d (the_menu r) !! k) as [a |] eqn:Ha; [| reflexivity].
    now rewrite (Hall k a Ha). }
  rewrite decide_True in Hcheck by exact Hempty.
  exists (set_menu (set_d dm' (the_menu r)) (set_menu (the_menu r) r)), s2.
  split; [| split; [exact Hempty |]].
  - apply bind_raise. unfold serve_checks.
    erewrite bind_ok by (apply in_menu_run, Hshow).
    erewrite bind_ok by reflexivity. cbn [fst set_menu nframes].
    apply bind_raise. apply in_menu_run. exact Hcheck.
  - destruct (same_store_trans _ _ _ Hs1 Hs2) as (Hf & He & Ht). auto.
Qed.

(** *** The scanning loop *)

Lemma serve_task_run (ts : timestep) (fr : option Z) (k : string) (a : recipe)
    (r : restaurant) (s : state) :
  exists o s2, serve_task ts fr (k, a) (r, s) = (o, (touch fr k a r, s2)).
Proof.
  unfold serve_task, touch, turn_on.
  destruct (Py.eq (bf a) fr).
  - erewrite bind_ok by reflexivity. cbn [on set_on].
    destruct (runinloop (set_on true a) (frame ts) (time ts)
                (loopcode (set_on true a)) s) as [o s2] eqn:E.
    exists o, s2. now apply lift_run.
  - erewrite bind_ok by reflexivity.
    destruct (on a).
    + destruct (runinloop a (frame ts) (time ts) (loopcode a) s) as [o s2] eqn:E.
      exists o, s2. now apply lift_run.
    + exists (Ok tt), s. reflexivity.
Qed.

Lemma touch_lookup (fr : option Z) (k : string) (a : recipe) (r : restaurant) :
  d (the_menu r) !! k = Some a ->
  forall k', d (the_menu (touch fr k a r)) !! k' =
             if decide (k' = k) then Some (activate fr a)
             else d (the_menu r) !! k'.
Proof.
  intros Ha k'. unfold touch, activate.
  destruct (Py.eq (bf a) fr); cbn [the_menu set_menu d set_d].
  - destruct (decide (k' = k)) as [-> | Hne].
    + apply lookup_insert_eq.
    + now rewrite lookup_insert_ne.
  - destruct (decide (k' = k)) as [-> | Hne]; [exact Ha | reflexivity].
Qed.

Lemma touch_fields (fr : option Z) (k : string) (a : recipe) (r : restaurant) :
  trajectory (touch fr k a r) = trajectory r /\
  b (touch fr k a r) = b r /\ e (touch fr k a r) = e r.
Proof. unfold touch. now destruct (Py.eq (bf a) fr). Qed.

Lemma serve_tasks_spec (ts : timestep) (fr : option Z)
    (l : list (string * recipe)) :
  forall (r r' : restaurant) (s s' : state),
  NoDup l.*1 ->
  (forall k a, (k, a) ∈ l -> d (the_menu r) !! k = Some a) ->
  for_each l (serve_task ts fr) (r, s) = (Ok tt, (r', s')) ->
  (forall k, d (the_menu r') !! k =
             if decide (k ∈ l.*1) then activate fr <$> d (the_menu r) !! k
             else d (the_menu r) !! k) /\
  trajectory r' = trajectory r /\ b r' = b r /\ e r' = e r.
Proof.
  induction l as [| [k a] l IH]; intros r r' s s' Hnd Hin Hrun.
  - cbn [for_each] in Hrun. injection Hrun as <- <-. split; [| easy].
    intros k. rewrite decide_False; [reflexivity | apply not_elem_of_nil].
  - cbn [for_each] in Hrun. cbn [fmap list_fmap fst] in Hnd.
    apply NoDup_cons in Hnd as [Hk Hnd].
    assert (Ha : d (the_menu r) !! k = Some a) by (apply Hin; now left).
    destruct (serve_task_run ts fr k a r s) as (o & s2 & Htask).
    unfold bind in Hrun. rewrite Htask in Hrun.
    destruct o as [[] | err]; [| discriminate].
    pose proof (touch_lookup fr k a r Ha) as Hlk.
    destruct (touch_fields fr k a r) as (Ht & Hb & He).
    destruct (IH (touch fr k a r) r' s2 s' Hnd) as (Hlk' & Ht' & Hb' & He').
    { intros k' a' Hin'. rewrite Hlk. rewrite decide_False.
      - apply Hin. now right.
      - intros ->. apply Hk. apply list_elem_of_fmap. now exists (k, a'). }
    { exact Hrun. }
    split; [| repeat split; congruence].
    intros k'. rewrite Hlk'. cbn [fmap list_fmap fst]. rewrite !Hlk.
    destruct (decide (k' = k)) as [-> | Hne].
    + rewrite decide_False by exact Hk.
      rewrite decide_True by now left. now rewrite Ha.
    + destruct (decide (k' ∈ l.*1)) as [Hl | Hl].
      * rewrite decide_True by now right. reflexivity.
      * rewrite decide_False; [reflexivity |].
        intros Hc. apply elem_of_cons in Hc as [? | ?]; contradiction.
Qed.

Lemma serve_step_spec (ts : timestep) (r r' : restaurant) (s s' : state) :
  serve_step ts (r, s) = (Ok tt, (r', s')) ->
  d (the_menu r') = activate (frame_key ts) <$> d (the_menu r) /\
  trajectory r' = trajectory r /\ b r' = b r /\ e r' = e r.
Proof.
  unfold serve_step, values. intros Hrun.
  erewrite bind_ok in Hrun by reflexivity. cbn [fst] in Hrun.
  apply serve_tasks_spec in Hrun as (Hlk & Hrest).
  - split; [| exact Hrest]. apply map_eq. intros k.
    rewrite Hlk, lookup_fmap.
    destruct (decide _) as [_ | Hk]; [reflexivity |].
    destruct (d (the_menu r) !! k) eqn:E; [| reflexivity].
    exfalso. apply Hk, elem_of_keys. eauto.
  - apply NoDup_fst_map_to_list.
  - intros k a. apply elem_of_map_to_list.
Qed.

Lemma activate_fields (fr : option Z) (a : recipe) :
  bf (activate fr a) = bf a /\ chkpt (activate fr a) = chkpt a /\
  on (activate fr a) = on a || Py.eq (bf a) fr.
Proof.
  unfold activate. destruct (Py.eq (bf a) fr); cbn [set_on bf chkpt on].
  - now rewrite orb_true_r.
  - now rewrite orb_false_r.
Qed.

Lemma scan_spec (tss : list timestep) :
  forall (r r' : restaurant) (s s' : state) (k : string) (a : recipe),
  for_each tss serve_step (r, s) = (Ok tt, (r', s')) ->
  d (the_menu r) !! k = Some a ->
  exists a',
    d (the_menu r') !! k = Some a' /\ bf a' = bf a /\ chkpt a' = chkpt a /\
    on a' = on a || existsb (fun ts => Py.eq (bf a) (frame_key ts)) tss.
Proof.
  induction tss as [| ts tss IH]; intros r r' s s' k a Hrun Ha.
  - cbn [for_each] in Hrun. injection Hrun as <- <-.
    exists a. cbn [existsb]. now rewrite orb_false_r.
  - cbn [for_each] in Hrun. unfold bind in Hrun.
    destruct (serve_step ts (r, s)) as [[[] | err] [r1 s1]] eqn:Hstep;
      [| discriminate].
    apply serve_step_spec in Hstep as (Hd & _).
    destruct (activate_fields (frame_key ts) a) as (Hbf & Hck & Hon).
    destruct (IH r1 r' s1 s' k (activate (frame_key ts) a) Hrun)
      as (a' & Ha' & Hbf' & Hck' & Hon').
    { now rewrite Hd, lookup_fmap, Ha. }
    exists a'. repeat split; try congruence.
    rewrite Hon', Hon, Hbf. cbn [existsb]. now rewrite orb_assoc.
Qed.


Lemma slice_bound_nonneg (n : Z) (x : option Z) (dflt : Z) :
  0 <= n -> 0 <= dflt -> 0 <= slice_bound n x dflt.
Proof.
  intros Hn Hd. unfold slice_bound. destruct x as [i |]; [| exact Hd].
  destruct (Z.ltb_spec i 0); lia.
Qed.

(** The frames of [trajectory[b:e]] are consecutive, from its lower bound. *)
Lemma slice_lookup (u : list Time) (b0 e0 : option Z) (i : nat) (ts : timestep) :
  trajectory_slice u b0 e0 !! i = Some ts ->
  frame ts = slice_bound (Z.of_nat (length u)) b0 0 + Z.of_nat i.
Proof.
  unfold trajectory_slice. intros H.
  apply lookup_take_Some in H as [H _].
  rewrite lookup_drop, list_lookup_imap in H.
  destruct (u !! _) as [t |]; [| discriminate].
  cbn [fmap option_fmap option_map] in H. injection H as <-. cbn [frame].
  pose proof (slice_bound_nonneg (Z.of_nat (length u)) b0 0 ltac:(lia) ltac:(lia)).
  lia.
Qed.

Lemma eq_frame_key (a : recipe) (K : Z) (ts : timestep) :
  (bf a = Some K /\ 0 < K) \/ (bf a = None /\ K = 0) ->
  0 <= frame ts ->
  Py.eq (bf a) (frame_key ts) = true <-> frame ts = K.
Proof.
  intros Hbf Hfr. unfold frame_key.
  destruct Hbf as [[-> HK] | [-> ->]];
    destruct (Z.ltb_spec 0 (frame ts)); cbn [Py.eq].
  - rewrite Z.eqb_eq. lia.
  - split; [discriminate | lia].
  - split; [discriminate | lia].
  - split; [lia | reflexivity].
Qed.

(** C3 (activation timing).  Let a task of the menu be off before the pass
    and resume at position [K]: its [bf] is [K > 0], or is unset and
    [K = 0].  Once the scanning loop has gone through its first [j]
    positions [start, ..., start + j - 1], the task is on if and only if [K]
    is one of them.  So the task is off as long as every position visited
    is below [K], is turned on at position [K], and stays on at every later
    position. *)
Theorem activation_timing (r r1 : restaurant) (s s1 : state) (k : string)
    (a : recipe) (K : Z) (j : nat) :
  d (the_menu r) !! k = Some a ->
  (bf a = Some K /\ 0 < K) \/ (bf a = None /\ K = 0) ->
  on a = false ->
  let visited := trajectory_slice (trajectory r) (b r) (e r) in
  let start := slice_bound (Z.of_nat (length (trajectory r))) (b r) 0 in
  (j <= length visited)%nat ->
  for_each (take j visited) serve_step (r, s) = (Ok tt, (r1, s1)) ->
  exists a1,
    d (the_menu r1) !! k = Some a1 /\ bf a1 = bf a /\
    (on a1 = true <-> start <= K < start + Z.of_nat j).
Proof.
  intros Ha Hbf Hoff visited start Hj Hrun.
  destruct (scan_spec _ _ _ _ _ k a Hrun Ha) as (a1 & Ha1 & Hbf1 & _ & Hon).
  exists a1. split; [exact Ha1 |]. split; [exact Hbf1 |].
  rewrite Hon, Hoff, orb_false_l, existsb_exists.
  assert (Hpos : 0 <= start).
  { apply slice_bound_nonneg; lia. }
  split.
  - intros (ts & Hin & Heq).
    apply list_elem_of_In, list_elem_of_lookup in Hin as [i Hi].
    apply lookup_take_Some in Hi as [Hi Hlt].
    apply slice_lookup in Hi. fold start in Hi.
    apply (eq_frame_key a K ts Hbf) in Heq; lia.
  - intros HK.
    destruct (lookup_lt_is_Some_2 visited (Z.to_nat (K - start))) as [ts Hts];
      [lia |].
    pose proof (slice_lookup _ _ _ _ _ Hts) as Hfr. fold start in Hfr.
    exists ts. split.
    + apply list_elem_of_In, list_elem_of_lookup. exists (Z.to_nat (K - start)).
      apply lookup_take_Some. split; [exact Hts | lia].
    + apply (eq_frame_key a K ts Hbf); lia.
Qed.


(** What [serve] has established when its checks pass: the menu is the one
    [check_cases] leaves, and [b] is the least [bf] of that menu. *)
Lemma serve_checks_spec (r r' : restaurant) (s s' : state) :
  serve_checks (r, s) = (Ok tt, (r', s')) ->
  trajectory r' = trajectory r /\ e r' = e r /\
  (forall k, d (the_menu r') !! k =
     match d (the_menu r) !! k with
     | Some a => if Py.ge (bf a) (Some (nframes r)) then None else Some a
     | None => None
     end) /\
  (exists k a, d (the_menu r') !! k = Some a /\ bf a = b r') /\
  (forall k a, d (the_menu r') !! k = Some a -> Py.ge (bf a) (b r') = true).
Proof.
  unfold serve_checks. intros Hrun.
  destruct (list_show_spec (the_menu r) s) as (s1 & Hshow & _).
  erewrite bind_ok in Hrun by (apply in_menu_run, Hshow).
  erewrite bind_ok in Hrun by reflexivity. cbn [fst set_menu nframes the_menu] in Hrun.
  destruct (check_cases_spec (nframes r) (the_menu r) s1)
    as (dm' & s2 & Hcheck & _ & Hlk).
  destruct (decide (dm' = ∅)) as [-> | Hne].
  { erewrite bind_raise in Hrun by (apply in_menu_run, Hcheck). discriminate Hrun. }
  erewrite bind_ok in Hrun by (apply in_menu_run, Hcheck).
  cbn [set_menu the_menu] in Hrun.
  destruct (list_show_spec (set_d dm' (the_menu r)) s2) as (s3 & Hshow' & _).
  erewrite bind_ok in Hrun by (apply in_menu_run, Hshow').
  cbn [set_menu the_menu] in Hrun.
  destruct (min_beg_frame_spec (set_d dm' (the_menu r)) s3 Hne)
    as (mn & Hmin & Hex & Hle).
  erewrite bind_ok in Hrun by (apply in_menu_run, Hmin).
  cbv beta iota in Hrun.
  erewrite bind_ok in Hrun by reflexivity.
  do 4 (erewrite bind_ok in Hrun by apply lift_print).
  erewrite bind_ok in Hrun by reflexivity.
  rewrite lift_print in Hrun. injection Hrun as <- <-.
  cbn [on_fst fst set_b set_menu trajectory e b the_menu set_min_bf set_d d] in *.
  auto.
Qed.

(** In [serve], with no end frame and [nframes] the length of the
    trajectory, the scan visits the resume position of every task the
    checks keep. *)
Lemma resume_position_visited (r r' : restaurant) (s s' : state)
    (k : string) (a : recipe) (K : Z) :
  serve_checks (r, s) = (Ok tt, (r', s')) ->
  nframes r = Z.of_nat (length (trajectory r)) ->
  0 < nframes r ->
  e r = None ->
  (forall k a K, d (the_menu r) !! k = Some a -> bf a = Some K -> 0 <= K) ->
  d (the_menu r') !! k = Some a ->
  (bf a = Some K /\ 0 < K) \/ (bf a = None /\ K = 0) ->
  let visited := trajectory_slice (trajectory r') (b r') (e r') in
  let start := slice_bound (Z.of_nat (length (trajectory r'))) (b r') 0 in
  start <= K < start + Z.of_nat (length visited).
Proof.
  intros Hrun Hn Hpos He Hmodel Ha HK visited start.
  destruct (serve_checks_spec r r' s s' Hrun) as (Ht & He' & Hlk & Hex & Hle).
  subst visited start. rewrite Ht, He', He. unfold trajectory_slice.
  rewrite length_take, length_drop, length_imap. cbn [slice_bound].
  rewrite <- Hn.
  assert (Hkeep : d (the_menu r) !! k = Some a /\
                  Py.ge (bf a) (Some (nframes r)) = false).
  { specialize (Hlk k). rewrite Ha in Hlk.
    destruct (d (the_menu r) !! k) as [a0 |]; [| discriminate].
    destruct (Py.ge (bf a0) (Some (nframes r))) eqn:E; [discriminate |].
    injection Hlk as ->. auto. }
  destruct Hkeep as [Ha0 Hlt].
  assert (Hstart : 0 <= slice_bound (nframes r) (b r') 0 <= K).
  { specialize (Hle k a Ha). destruct Hex as (k1 & a1 & Ha1 & Hb1).
    destruct (b r') as [m |]; cbn [slice_bound]; [| destruct HK; lia].
    assert (0 <= m).
    { specialize (Hlk k1). rewrite Ha1 in Hlk.
      destruct (d (the_menu r) !! k1) as [a2 |] eqn:E; [| discriminate].
      destruct (Py.ge (bf a2) (Some (nframes r))); [discriminate |].
      injection Hlk as Heq. subst a2. exact (Hmodel k1 a1 m E Hb1). }
    destruct HK as [[HK ?] | [HK ?]]; rewrite HK in Hle; cbn [Py.ge] in Hle;
      [| discriminate].
    apply Z.leb_le in Hle. destruct (Z.ltb_spec m 0); lia. }
  assert (HKn : K < nframes r).
  { destruct HK as [[HK ?] | [HK ->]]; [| lia].
    rewrite HK in Hlt. cbn [Py.ge] in Hlt. now apply Z.leb_gt in Hlt. }
  lia.
Qed.

(** *** Finalization *)

Lemma keeps_ret {S A L} (g : S -> L) (a : A) : keeps g (ret a).
Proof. now intros s. Qed.

Lemma keeps_raise {S A L} (g : S -> L) (err : exn) : keeps g (@raise S A err).
Proof. now intros s. Qed.

Lemma keeps_gets {S A L} (g : S -> L) (f : S -> A) : keeps g (gets f).
Proof. now intros s. Qed.

Lemma keeps_modify {S L} (g : S -> L) (f : S -> S) :
  (forall s, g (f s) = g s) -> keeps g (modify f).
Proof. intros H s. apply H. Qed.

Lemma keeps_bind {S A B L} (g : S -> L) (m : M S A) (k : A -> M S B) :
  keeps g m -> (forall a, keeps g (k a)) -> keeps g (bind m k).
Proof.
  intros Hm Hk s. unfold bind. specialize (Hm s).
  destruct (m s) as [[a | err] s1]; cbn [snd] in *; [| exact Hm].
  now rewrite Hk.
Qed.

Lemma keeps_for_each {S X L} (g : S -> L) (l : list X) (body : X -> M S unit) :
  (forall x, keeps g (body x)) -> keeps g (for_each l body).
Proof.
  intros H. induction l as [| x l IH]; cbn [for_each].
  - apply keeps_ret.
  - apply keeps_bind; [apply H | intros _; exact IH].
Qed.

Lemma keeps_of_outcome {S A L} (g : S -> L) (o : outcome A) :
  keeps g (@of_outcome S A o).
Proof. destruct o; [apply keeps_ret | apply keeps_raise]. Qed.

Lemma keeps_lift {X A} (m : M state A) :
  keeps fin1 m -> keeps (@fin2 Ext X) (lift m).
Proof.
  intros H [x s]. unfold lift, fin2. cbn [fst snd]. specialize (H s).
  now destruct (m s).
Qed.

Lemma keeps_in_menu {A} (m : M (menu * state) A) :
  keeps fin2 m -> keeps fin2 (in_menu m).
Proof.
  intros H [r s]. unfold in_menu, fin2 in *. cbn [fst snd]. specialize (H (the_menu r, s)).
  now destruct (m (the_menu r, s)) as [o [mn s']].
Qed.

Lemma keeps_print (line : string) : keeps fin1 (@print Ext line).
Proof. now intros s. Qed.

Lemma keeps_call (f : callable) : keeps fin1 (@call Ext f).
Proof. intros s. unfold call, fin1. now destruct (f (w s)). Qed.

Lemma finals_app (t1 t2 : list event) : finals (t1 ++ t2) = finals t1 ++ finals t2.
Proof. apply omap_app. Qed.

Lemma keeps_runinloop (a : recipe) (fr : Z) (tm : Time)
    (func : Z -> Time -> callable) :
  keeps fin1 (runinloop a fr tm func).
Proof.
  unfold runinloop, cpt_out, checkpoint_write, open_write, log.
  repeat (apply keeps_bind; [| intros _]); try apply keeps_call;
    apply keeps_modify; intros s; unfold fin1; cbn [trace]; try reflexivity;
    now rewrite finals_app, app_nil_r.
Qed.

#[local] Hint Resolve keeps_ret keeps_raise keeps_gets keeps_of_outcome keeps_print
  keeps_call keeps_runinloop : keeps.

Ltac keeps_step :=
  first
    [ solve [auto with keeps]
    | apply keeps_bind; [| intros ?]
    | apply keeps_for_each; intros ?
    | apply keeps_lift
    | apply keeps_in_menu
    | apply keeps_modify; intros [? ?]; reflexivity
    | match goal with
      | |- keeps _ (if ?c then _ else _) => destruct c
      | |- keeps _ (match ?x with _ => _ end) => destruct x
      | |- keeps _ (let '(_, _) := ?x in _) => destruct x
      end ].

Lemma keeps_show_names (names : list string) : forall i : Z,
  keeps fin1 (@show_names Ext i names).
Proof.
  induction names as [| name r IH]; intros i; cbn [show_names];
    repeat keeps_step.
Qed.

Lemma keeps_check_loop (nframes : Z) (names : list string) :
  forall del : list string,
  keeps fin2 (@check_loop Time Ext nframes names del).
Proof.
  induction names as [| name r IH]; intros del; cbn [check_loop];
    unfold getitem; repeat keeps_step.
Qed.

Lemma keeps_bf_loop (names : list string) : forall acc : list (option Z),
  keeps fin2 (@bf_loop Time Ext names acc).
Proof.
  induction names as [| name r IH]; intros acc; cbn [bf_loop];
    unfold getitem; repeat keeps_step.
Qed.

#[local] Hint Resolve keeps_show_names keeps_check_loop keeps_bf_loop : keeps.

Lemma keeps_serve_checks : keeps fin2 (@serve_checks Time Ext).
Proof.
  unfold serve_checks, list_show, check_cases, min_beg_frame, keys, len_d,
    remove, sys_exit.
  repeat keeps_step.
Qed.

Lemma keeps_serve_loop : keeps fin2 (@serve_loop Time Ext).
Proof.
  unfold serve_loop, serve_step, values, serve_task, turn_on.
  repeat keeps_step.
Qed.

Lemma runafterloop_run (a : recipe) (f : callable) (s : state) :
  (forall x, fst (f x) = Ok tt) ->
  exists s',
    runafterloop a (Some f) s = (Ok tt, s') /\
    trace s' = trace s ++ [EvFinal (chkpt a)].
Proof.
  intros Hf. unfold runafterloop. destruct s as [x0 t]. mrun.
  specialize (Hf x0). destruct (f x0) as [o x]. cbn [fst] in Hf. subst o.
  eexists. split; reflexivity.
Qed.

Lemma serve_after_spec (l : list (string * recipe)) :
  forall (r : restaurant) (s : state),
  (forall ka x, ka ∈ l -> fst (postloopcode (snd ka) x) = Ok tt) ->
  exists s',
    for_each l (fun ka =>
      lift (runafterloop (snd ka) (Some (postloopcode (snd ka))))) (r, s) =
    (Ok tt, (r, s')) /\
    trace s' = trace s ++ ((EvFinal ∘ chkpt ∘ snd) <$> l).
Proof.
  induction l as [| ka l IH]; intros r s Hok; cbn [for_each].
  - exists s. split; [reflexivity |]. cbn. now rewrite app_nil_r.
  - destruct (runafterloop_run (snd ka) (postloopcode (snd ka)) s)
      as (s1 & Hrun & Ht); [intros x; apply Hok; now left |].
    erewrite bind_ok by (apply lift_run, Hrun).
    destruct (IH r s1) as (s' & Hrest & Ht');
      [intros; apply Hok; now right |].
    exists s'. split; [exact Hrest |].
    rewrite Ht', Ht, <- app_assoc. reflexivity.
Qed.

Lemma bind_assoc {S A B C} (m : M S A) (k : A -> M S B) (h : B -> M S C) (s : S) :
  bind (bind m k) h s = bind m (fun a => bind (k a) h) s.
Proof.
  unfold bind. destruct (m s) as [[a | err] s1]; [| reflexivity].
  reflexivity.
Qed.

End Properties.

(** ** The small run *)

Example recipe_init_B :
  fst (recipe_init "out" "run" "B" "dat" false false
         (Sample.loopcode "B") Sample.postloopcode
         Sample.s0) = Ok (Sample.task "B" (Some 2) true).
Proof. vm_compute. reflexivity. Qed.

Lemma checkpoint_round_trip_witness :
  let s1 := snd (checkpoint_write 49 (cpt_path "out" "run" "B") Sample.s0) in
  0 <= 49 /\
  is_Some (files (w s1) !! data_path "out" "run" "B" "dat") /\
  fst (checkpoint_write 49 (cpt_path "out" "run" "B") Sample.s0) = Ok tt /\
  exists s2,
    checkpoint_frame "out" "run" "B" "dat" s1 = (Ok (Some (49 + 1), None, true), s2).
Proof.
  intros s1.
  assert (H1 : 0 <= 49) by lia.
  assert (H2 : is_Some (files (w s1) !! data_path "out" "run" "B" "dat"))
    by (exists "rows of B"; vm_compute; reflexivity).
  split; [exact H1 |]. split; [exact H2 |].
  exact (checkpoint_round_trip "out" "run" "B" "dat" 49 Sample.s0 H1 H2).
Defined.

Ltac in_sample_map H :=
  apply elem_of_map_to_list in H; vm_compute in H;
  repeat (apply elem_of_cons in H as [H | H];
          [injection H as -> -> |]);
  [.. | now apply elem_of_nil in H].

Lemma activation_timing_witness :
  let r := fst Sample.r_checked in
  let s := snd Sample.r_checked in
  let a := Sample.task "B" (Some 2) true in
  let visited := trajectory_slice (trajectory r) (b r) (e r) in
  d (the_menu r) !! "B" = Some a /\
  for_each (take 3 visited) serve_step (r, s) =
    (Ok tt, (fst Sample.after_three, snd Sample.after_three)) /\
  exists a1,
    d (the_menu (fst Sample.after_three)) !! "B" = Some a1 /\ bf a1 = bf a /\
    (on a1 = true <->
     slice_bound (Z.of_nat (length (trajectory r))) (b r) 0 <= 2 <
     slice_bound (Z.of_nat (length (trajectory r))) (b r) 0 + Z.of_nat 3).
Proof.
  intros r s a visited.
  assert (H1 : d (the_menu r) !! "B" = Some a) by (vm_compute; reflexivity).
  assert (H2 : (bf a = Some 2 /\ 0 < 2) \/ (bf a = None /\ 2 = 0))
    by (left; split; [reflexivity | lia]).
  assert (H3 : on a = false) by reflexivity.
  assert (H4 : (3 <= length visited)%nat) by (vm_compute; lia).
  assert (H5 : for_each (take 3 visited) serve_step (r, s) =
               (Ok tt, (fst Sample.after_three, snd Sample.after_three)))
    by (vm_compute; reflexivity).
  split; [exact H1 |]. split; [exact H5 |].
  exact (activation_timing r (fst Sample.after_three) s (snd Sample.after_three)
           "B" a 2 3 H1 H2 H3 H4 H5).
Defined.

Lemma empty_registry_terminates_witness :
  (forall k a, d (the_menu Sample.r_done) !! k = Some a ->
               Py.ge (bf a) (Some (nframes Sample.r_done)) = true) /\
  exists r' s',
    serve (Sample.r_done, Sample.s0) = (Raise (SystemExit exit_msg), (r', s')) /\
    d (the_menu r') = ∅ /\
    trace s' = trace Sample.s0 /\
    files (w s') = files (w Sample.s0) /\
    ext (w s') = ext (w Sample.s0).
Proof.
  assert (H : forall k a, d (the_menu Sample.r_done) !! k = Some a ->
                          Py.ge (bf a) (Some (nframes Sample.r_done)) = true).
  { intros k a Hk. in_sample_map Hk. reflexivity. }
  split; [exact H |].
  exact (empty_registry_terminates Sample.r_done Sample.s0 H).
Defined.

Lemma minimum_begin_frame_witness :
  let m := Menu Sample.dishes None in
  d m <> ∅ /\
  (forall k a K, d m !! k = Some a -> bf a = Some K -> 0 <= K) /\
  exists mn,
    min_beg_frame (m, Sample.s0) =
    (Ok (inl (mn, (bf ∘ snd) <$> map_to_list (d m))), (set_min_bf mn m, Sample.s0)) /\
    (exists k a, d m !! k = Some a /\ default 0 (bf a) = default 0 mn) /\
    (forall k a, d m !! k = Some a -> default 0 mn <= default 0 (bf a)).
Proof.
  intros m.
  assert (H1 : d m <> ∅).
  { intros E. apply (f_equal (fun x => x !! "A")) in E. vm_compute in E.
    discriminate E. }
  assert (H2 : forall k a K, d m !! k = Some a -> bf a = Some K -> 0 <= K).
  { intros k a K Hk HK. in_sample_map Hk; vm_compute in HK;
      try discriminate HK; injection HK as <-; lia. }
  split; [exact H1 |]. split; [exact H2 |].
  exact (minimum_begin_frame m Sample.s0 H1 H2).
Defined.

Lemma fresh_task_load_witness :
  files (w Sample.s0) !! data_path "out" "run" "A" "dat" = None /\
  exists s',
    checkpoint_frame "out" "run" "A" "dat" Sample.s0 = (Ok (None, None, false), s') /\
    trace s' = trace Sample.s0 /\
    files (w s') = files (w Sample.s0) /\
    ext (w s') = ext (w Sample.s0).
Proof.
  assert (H : files (w Sample.s0) !! data_path "out" "run" "A" "dat" = None)
    by (vm_compute; reflexivity).
  split; [exact H |].
  exact (fresh_task_load "out" "run" "A" "dat" Sample.s0 H).
Defined.

Lemma unset_never_evicted_witness :
  let m := Menu Sample.dishes None in
  let a := Sample.task "A" None false in
  d m !! "A" = Some a /\
  bf a = None /\
  d (fst (snd (check_cases 0 (m, Sample.s0)))) !! "A" = Some a.
Proof.
  intros m a.
  assert (H1 : d m !! "A" = Some a) by (vm_compute; reflexivity).
  assert (H2 : bf a = None) by reflexivity.
  split; [exact H1 |]. split; [exact H2 |].
  exact (unset_never_evicted 0 m Sample.s0 "A" a H1 H2).
Defined.

(** The pass of the small run: [C] is evicted, the scan starts at frame 0,
    [A] runs from frame 0 and [B] from frame 2, each frame is committed
    after its row, and both are finalized at the end. *)
Example serve_small_run :
  let run := serve (Sample.r0, Sample.s0) in
  fst run = Ok tt /\
  trace (snd (snd run)) =
    [EvUnit "out/checkpoints/run.A.cpt" 0; EvCommit "out/checkpoints/run.A.cpt" 0;
     EvUnit "out/checkpoints/run.A.cpt" 1; EvCommit "out/checkpoints/run.A.cpt" 1;
     EvUnit "out/checkpoints/run.A.cpt" 2; EvCommit "out/checkpoints/run.A.cpt" 2;
     EvUnit "out/checkpoints/run.B.cpt" 2; EvCommit "out/checkpoints/run.B.cpt" 2;
     EvUnit "out/checkpoints/run.A.cpt" 3; EvCommit "out/checkpoints/run.A.cpt" 3;
     EvUnit "out/checkpoints/run.B.cpt" 3; EvCommit "out/checkpoints/run.B.cpt" 3;
     EvUnit "out/checkpoints/run.A.cpt" 4; EvCommit "out/checkpoints/run.A.cpt" 4;
     EvUnit "out/checkpoints/run.B.cpt" 4; EvCommit "out/checkpoints/run.B.cpt" 4;
     EvFinal "out/checkpoints/run.A.cpt"; EvFinal "out/checkpoints/run.B.cpt"] /\
  ext (w (snd (snd run))) =
    [("A", 0); ("A", 1); ("A", 2); ("B", 2); ("A", 3); ("B", 3); ("A", 4); ("B", 4)] /\
  files (w (snd (snd run))) !! "out/checkpoints/run.A.cpt" = Some "4" /\
  files (w (snd (snd run))) !! "out/checkpoints/run.B.cpt" = Some "4".
Proof. vm_compute. repeat split; reflexivity. Qed.

(** A failing analysis leaves the checkpoint of [B] at frame 1. *)
Example runinloop_failing :
  let run := runinloop (Sample.task "B" (Some 2) true) 2 20 Sample.failing Sample.s0 in
  fst run = Raise (UserError "no atoms selected") /\
  files (w (snd run)) !! "out/checkpoints/run.B.cpt" = Some "1" /\
  trace (snd run) = [EvUnit "out/checkpoints/run.B.cpt" 2].
Proof. vm_compute. repeat split; reflexivity. Qed.

(** Outside the data model.  A checkpoint file is written by
    [checkpoint_write] with a frame number, so a set [bf] is at least 1.  A
    [bf] of 0, which only a file holding -1 gives, is never matched by line
    285 (frame 0 is compared as [None]), and a negative [bf] is above [None]
    in the order [min] uses. *)
Example zero_never_on :
  let a := Sample.task "Z" (Some 0) true in
  let r := Restaurant Sample.u 5 None None [] (Menu {[ "Z" := a ]} None) in
  let run := serve (r, Sample.s0) in
  fst run = Ok tt /\
  (on <$> d (the_menu (fst (snd run))) !! "Z") = Some false /\
  trace (snd (snd run)) = [EvFinal (cpt_path "out" "run" "Z")].
Proof. vm_compute. repeat split; reflexivity. Qed.

Example min_below_zero :
  let m := Menu {[ "A" := Sample.task "A" None false;
                   "N" := Sample.task "N" (Some (-3)) true ]} None in
  fst (min_beg_frame (m, Sample.s0)) = Ok (inl (None, [None; Some (-3)])).
Proof. vm_compute. reflexivity. Qed.

(** ** Decimal text: examples *)

Example str_49 : Py.str 49 = "49". Proof. reflexivity. Qed.
Example str_0 : Py.str 0 = "0". Proof. reflexivity. Qed.
Example str_m12 : Py.str (-12) = "-12". Proof. reflexivity. Qed.
Example int_49 : Py.int " 49
" = Ok 49. Proof. reflexivity. Qed.
Example int_m : Py.int "-7" = Ok (-7). Proof. reflexivity. Qed.
Example int_bad : is_ok (Py.int "4x") = false. Proof. reflexivity. Qed.
Example int_empty : is_ok (Py.int "") = false. Proof. reflexivity. Qed.
Example readlines_two : Py.readlines "ab
c" = ["ab
"; "c"]. Proof. reflexivity. Qed.
Example readlines_empty : Py.readlines "" = []. Proof. reflexivity. Qed.
Example sorted_strings : Py.sorted ["50"; "None"; "100"] = ["100"; "50"; "None"]. Proof. reflexivity. Qed.
Example min_with_none : Py.min [Some 5; None; Some 2] = Ok None. Proof. reflexivity. Qed.

(** * Further properties *)

Section StoreProperties.

Context {Ext : Type}.

Abbreviation state := (@state Ext).

(** The result of a load is read off two files: the data file decides
    between a new start and a resume, the checkpoint file gives the frame. *)
Lemma load_outcome folder base name datatype (s : state) :
  fst (checkpoint_frame folder base name datatype s) =
  match files (w s) !! data_path folder base name datatype with
  | None => Ok (None, None, false)
  | Some _ =>
      match files (w s) !! cpt_path folder base name with
      | None => Raise (IOError (cpt_path folder base name))
      | Some txt =>
          match parse_checkpoint txt with
          | Ok n => Ok (Some (n + 1), None, true)
          | Raise err => Raise err
          end
      end
  end.
Proof.
  unfold checkpoint_frame, checkpoint_frame_from, parse_checkpoint.
  destruct s as [[f ds c x] t]. mrun.
  destruct (bool_decide (is_Some (f !! cpt_dir folder)) ||
            bool_decide (cpt_dir folder ∈ ds)) eqn:E; mrun; rewrite ?E; mrun;
    (destruct (f !! data_path folder base name datatype) eqn:Hd;
     [rewrite bool_decide_eq_true_2 by eauto
     | rewrite bool_decide_eq_false_2 by (intros [? ?]; discriminate)]); mrun;
    try (destruct (f !! cpt_path folder base name) as [txt |]; mrun;
         [| reflexivity];
         destruct (Py.first (Py.readlines txt)) as [l0 |]; mrun;
         [| reflexivity];
         destruct (Py.int l0); mrun; [| reflexivity]);
    rewrite check_range_unset; mrun; reflexivity.
Qed.

Lemma parse_checkpoint_raises (txt : string) (err : exn) :
  parse_checkpoint txt = Raise err ->
  err = IndexError \/ exists what, err = ValueError what.
Proof.
  unfold parse_checkpoint. destruct (Py.first (Py.readlines txt)) eqn:E.
  - intros H. right. eapply int_raises, H.
  - intros H. injection H as <-. left. eapply first_raises, E.
Qed.

Lemma exists_after_makedirs (p : string) (f : gmap string string)
    (ds : gset string) :
  bool_decide (is_Some (f !! p)) || bool_decide (p ∈ {[p]} ∪ ds) = true.
Proof.
  rewrite (bool_decide_eq_true_2 (p ∈ {[p]} ∪ ds)) by set_solver.
  apply orb_true_r.
Qed.

(** X1.  Whatever way it ends, [checkpoint_frame] changes no file and no
    analysis memory, removes no directory, and leaves the [checkpoints]
    directory (or whatever is at that path) in place. *)
Theorem load_leaves_files folder base name datatype (s : state) :
  let s' := snd (checkpoint_frame folder base name datatype s) in
  files (w s') = files (w s) /\
  ext (w s') = ext (w s) /\
  dirs (w s) ⊆ dirs (w s') /\
  exists_in (cpt_dir folder) s' = true.
Proof.
  unfold checkpoint_frame, checkpoint_frame_from, exists_in.
  destruct s as [[f ds c x] t]. mrun.
  pose proof (exists_after_makedirs (cpt_dir folder) f ds) as Hmk.
  assert (Hsub : ds ⊆ {[cpt_dir folder]} ∪ ds) by set_solver.
  destruct (bool_decide (is_Some (f !! cpt_dir folder)) ||
            bool_decide (cpt_dir folder ∈ ds)) eqn:E; mrun; rewrite ?E; mrun;
    (destruct (f !! data_path folder base name datatype) eqn:Hd;
     [rewrite bool_decide_eq_true_2 by eauto
     | rewrite bool_decide_eq_false_2 by (intros [? ?]; discriminate)]); mrun;
    try (destruct (f !! cpt_path folder base name) as [txt |]; mrun;
         [| now auto];
         destruct (Py.first (Py.readlines txt)) as [l0 |]; mrun;
         [| now auto];
         destruct (Py.int l0); mrun; [| now auto]);
    rewrite check_range_unset; mrun; now auto.
Qed.

(** X2.  When the data file exists, a load returns a result only from a
    checkpoint file whose first line is an integer [n], and the result is
    then [bf = n + 1]; with no checkpoint file it raises [IOError], with an
    empty one [IndexError], with any other first line [ValueError].  It
    never falls back to a new start. *)
Theorem load_needs_checkpoint folder base name datatype (s : state) (dtxt : string) :
  files (w s) !! data_path folder base name datatype = Some dtxt ->
  match fst (checkpoint_frame folder base name datatype s) with
  | Ok (bf, ef, fex) =>
      exists txt n,
        files (w s) !! cpt_path folder base name = Some txt /\
        parse_checkpoint txt = Ok n /\
        bf = Some (n + 1) /\ ef = None /\ fex = true
  | Raise err =>
      (files (w s) !! cpt_path folder base name = None /\
       err = IOError (cpt_path folder base name)) \/
      (exists txt,
         files (w s) !! cpt_path folder base name = Some txt /\
         parse_checkpoint txt = Raise err /\
         (txt = EmptyString -> err = IndexError) /\
         (err = IndexError \/ exists what, err = ValueError what))
  end.
Proof.
  intros Hd. rewrite load_outcome, Hd.
  destruct (files (w s) !! cpt_path folder base name) as [txt |]; [| now left].
  destruct (parse_checkpoint txt) as [n | err] eqn:E.
  - exists txt, n. auto.
  - right. exists txt. split; [reflexivity |]. split; [exact E |]. split.
    + intros ->. cbn in E. congruence.
    + eapply parse_checkpoint_raises, E.
Qed.

Lemma app_empty (s : string) : EmptyString +:+ s = s.
Proof. reflexivity. Qed.

Lemma app_cons (c : ascii) (r s : string) :
  String c r +:+ s = String c (r +:+ s).
Proof. reflexivity. Qed.

Lemma rstrip_space_end (s : string) (c : ascii) :
  Py.is_space c = true ->
  Py.rstrip (s +:+ String c EmptyString) = Py.rstrip s.
Proof.
  intros Hc. induction s as [| a r IH].
  - rewrite app_empty. cbn [Py.rstrip]. now rewrite Hc.
  - rewrite app_cons. cbn [Py.rstrip]. now rewrite IH.
Qed.

Lemma int_ok_ext (s t : string) (n : Z) :
  Py.lstrip (Py.rstrip s) = Py.lstrip (Py.rstrip t) ->
  Py.int t = Ok n -> Py.int s = Ok n.
Proof.
  unfold Py.int. intros ->.
  destruct (Py.lstrip (Py.rstrip t)) as [| c r]; [discriminate |].
  destruct (Ascii.eqb c "-"); [| destruct (Ascii.eqb c "+")];
    match goal with |- context [Py.parse_unsigned ?x] =>
      destruct (Py.parse_unsigned x) end; congruence.
Qed.

Lemma readlines_from_line (s rest : string) : forall cur : string -> string,
  no_newline s = true ->
  Py.first (Py.readlines_from cur (s +:+ String "010" rest)) =
  Ok (cur (s +:+ String "010" EmptyString)).
Proof.
  induction s as [| c r IH]; intros cur H.
  - rewrite !app_empty. reflexivity.
  - rewrite !app_cons. cbn [Py.readlines_from no_newline] in *.
    apply andb_true_iff in H as [Hc Hr]. apply negb_true_iff in Hc.
    rewrite Hc. now rewrite IH.
Qed.

Lemma parse_checkpoint_line (n : Z) (rest : string) :
  parse_checkpoint (Py.str n +:+ String "010" rest) = Ok n.
Proof.
  unfold parse_checkpoint, Py.readlines.
  rewrite readlines_from_line by apply str_no_newline.
  apply (int_ok_ext _ (Py.str n)); [| apply int_str].
  now rewrite rstrip_space_end.
Qed.

Lemma parse_checkpoint_str (n : Z) : parse_checkpoint (Py.str n) = Ok n.
Proof. unfold parse_checkpoint. rewrite first_readlines_str. apply int_str. Qed.

(** X3.  Only the first line of a checkpoint file counts: a file that
    holds the number [P], a newline and anything after it is read as [P],
    and the load returns [bf = P + 1]. *)
Theorem load_reads_first_line folder base name datatype (s : state)
    (dtxt rest : string) (P : Z) :
  files (w s) !! data_path folder base name datatype = Some dtxt ->
  files (w s) !! cpt_path folder base name =
    Some (Py.str P +:+ String "010" rest) ->
  fst (checkpoint_frame folder base name datatype s) =
  Ok (Some (P + 1), None, true).
Proof.
  intros Hd Hc. now rewrite load_outcome, Hd, Hc, parse_checkpoint_line.
Qed.

Lemma checkpoint_write_files (P : Z) (p : string) (s : state) :
  files (w (snd (checkpoint_write P p s))) = <[p := Py.str P]> (files (w s)).
Proof. destruct s as [[f ds c x] t]. reflexivity. Qed.

(** X4.  A checkpoint keeps no history: after [checkpoint_write P] and then
    [checkpoint_write Q] on the checkpoint file of a task, a load returns
    [bf = Q + 1], whatever [P] was. *)
Theorem last_commit_wins folder base name datatype (P Q : Z) (s : state) :
  let p := cpt_path folder base name in
  let s2 := snd (checkpoint_write Q p (snd (checkpoint_write P p s))) in
  is_Some (files (w s2) !! data_path folder base name datatype) ->
  fst (checkpoint_frame folder base name datatype s2) =
  Ok (Some (Q + 1), None, true).
Proof.
  intros p s2 [dtxt Hd]. rewrite load_outcome, Hd.
  subst s2. rewrite checkpoint_write_files, lookup_insert_eq.
  now rewrite parse_checkpoint_str.
Qed.

(** X5.  A commit to another file does not change what a task loads: when
    [p] is neither the data file nor the checkpoint file of the task, the
    load after [checkpoint_write P p] gives what it gave before. *)
Theorem load_ignores_other_commits folder base name datatype (P : Z)
    (p : string) (s : state) :
  p <> data_path folder base name datatype ->
  p <> cpt_path folder base name ->
  fst (checkpoint_frame folder base name datatype
         (snd (checkpoint_write P p s))) =
  fst (checkpoint_frame folder base name datatype s).
Proof.
  intros Hd Hc. rewrite !load_outcome, checkpoint_write_files.
  now rewrite !lookup_insert_ne by assumption.
Qed.

Lemma append_inj_l (p s t : string) : p +:+ s = p +:+ t -> s = t.
Proof.
  induction p as [| c p IH]; [easy |].
  rewrite !app_cons. intros H. injection H as H. now apply IH.
Qed.

Lemma length_append (s t : string) :
  String.length (s +:+ t) = (String.length s + String.length t)%nat.
Proof.
  induction s as [| c s IH]; [reflexivity |].
  rewrite app_cons. cbn [String.length]. now rewrite IH.
Qed.

Lemma append_inj_r (s t x : string) : s +:+ x = t +:+ x -> s = t.
Proof.
  intros H.
  assert (Hlen : String.length s = String.length t).
  { apply (f_equal String.length) in H. rewrite !length_append in H. lia. }
  revert t H Hlen. induction s as [| c s IH]; intros [| c' t] H Hlen;
    cbn [String.length] in *; try discriminate; [reflexivity |].
  rewrite !app_cons in H. injection H as -> H. f_equal. apply IH; [exact H | lia].
Qed.

(** X6.  Two analyses of one folder and base file name with different names
    have different checkpoint files and different data files. *)
Theorem paths_differ_by_name folder base name name' datatype :
  name <> name' ->
  cpt_path folder base name <> cpt_path folder base name' /\
  data_path folder base name datatype <> data_path folder base name' datatype.
Proof.
  intros Hne. unfold cpt_path, data_path. split; intros H; apply Hne.
  - do 4 apply append_inj_l in H. now apply append_inj_r in H.
  - do 4 apply append_inj_l in H. now apply append_inj_r in H.
Qed.

End StoreProperties.

Section RecipeProperties.

Context {Time Ext : Type}.

Abbreviation state := (@state Ext).
Abbreviation recipe := (@recipe Time Ext).

(** The recipe [recipe.__init__] passes to [cpt_load]. *)
Lemma recipe_init_outcome fo ba na dt (on0 debug0 : bool)
    (lc : Z -> Time -> callable) (plc : callable) (s : state) :
  fst (recipe_init fo ba na dt on0 debug0 lc plc s) =
  match fst (checkpoint_frame fo ba na dt s) with
  | Ok r =>
      Ok (set_frames r
            (Recipe fo ba na dt on0 debug0 (data_path fo ba na dt)
               (cpt_path fo ba na) None None false lc plc))
  | Raise err => Raise err
  end.
Proof.
  unfold recipe_init, cpt_load, bind.
  cbn [folder base_filename name datatype].
  destruct (checkpoint_frame fo ba na dt s) as [[r | err] s1]; reflexivity.
Qed.

Lemma recipe_init_fields folder base name datatype (on0 debug0 : bool)
    (lc : Z -> Time -> callable) (plc : callable) (s : state) (a : recipe) :
  fst (recipe_init folder base name datatype on0 debug0 lc plc s) = Ok a ->
  chkpt a = cpt_path folder base name /\
  data a = data_path folder base name datatype /\
  on a = on0 /\ loopcode a = lc /\ postloopcode a = plc.
Proof.
  rewrite recipe_init_outcome.
  destruct (fst (checkpoint_frame folder base name datatype s))
    as [[[bf0 ef0] fex0] | err]; [| discriminate].
  intros H. injection H as <-. cbn. auto.
Qed.

Lemma runinloop_run (a : recipe) (fr : Z) (tm : Time)
    (func : Z -> Time -> callable) (s : state) :
  runinloop a fr tm func s =
  match func fr tm (w s) with
  | (Ok _, x) =>
      (Ok tt,
       State (set_files (<[chkpt a := Py.str fr]> (files x)) x)
             (trace s ++ [EvUnit (chkpt a) fr; EvCommit (chkpt a) fr]))
  | (Raise err, x) =>
      (Raise err, State x (trace s ++ [EvUnit (chkpt a) fr]))
  end.
Proof.
  unfold runinloop, cpt_out, checkpoint_write.
  destruct s as [x0 t]. mrun.
  destruct (func fr tm x0) as [[[] | err] x]; mrun; [| reflexivity].
  now rewrite <- app_assoc.
Qed.

(** X7.  A recipe reads the checkpoint it writes.  Let [a] be a recipe made
    by [recipe.__init__].  After a unit of [a] at frame [fr] whose callable
    returned, and when the data file of [a] exists then, making the recipe
    again gives [bf = fr + 1] and [fex = True]: the next run starts at the
    frame after the last one done. *)
Theorem resume_after_unit folder base name datatype (on0 debug0 : bool)
    (lc : Z -> Time -> callable) (plc : callable)
    (s0 s : state) (a : recipe) (fr : Z) (tm : Time) :
  fst (recipe_init folder base name datatype on0 debug0 lc plc s0) = Ok a ->
  fst (lc fr tm (w s)) = Ok tt ->
  let s1 := snd (runinloop a fr tm (loopcode a) s) in
  is_Some (files (w s1) !! data a) ->
  exists a',
    fst (recipe_init folder base name datatype on0 debug0 lc plc s1) = Ok a' /\
    bf a' = Some (fr + 1) /\ ef a' = None /\ fex a' = true /\
    chkpt a' = chkpt a /\ data a' = data a.
Proof.
  intros Hinit Hok s1 [dtxt Hd].
  destruct (recipe_init_fields _ _ _ _ _ _ _ _ _ _ Hinit)
    as (Hck & Hdata & _ & Hlc & _).
  assert (Hload : fst (checkpoint_frame folder base name datatype s1) =
                  Ok (Some (fr + 1), None, true)).
  { rewrite load_outcome. rewrite <- Hdata, Hd, <- Hck.
    subst s1. rewrite runinloop_run, Hlc.
    destruct (lc fr tm (w s)) as [[[] | err] x]; [| discriminate Hok].
    cbn [snd w files set_files]. rewrite lookup_insert_eq.
    now rewrite parse_checkpoint_str. }
  rewrite recipe_init_outcome, Hload. eexists. split; [reflexivity |].
  cbn. auto.
Qed.

(** X8.  A unit that fails is not recorded.  When the callable of a unit
    raises and has left the data file and the checkpoint file of the task as
    they were, [runinloop] raises the same exception and a load afterwards
    gives what a load before the unit gave: the unit will be done again. *)
Theorem failed_unit_keeps_resume_point folder base name datatype
    (a : recipe) (fr : Z) (tm : Time) (func : Z -> Time -> callable)
    (s : state) (err : exn) :
  fst (func fr tm (w s)) = Raise err ->
  (let x := snd (func fr tm (w s)) in
   files x !! data_path folder base name datatype =
     files (w s) !! data_path folder base name datatype /\
   files x !! cpt_path folder base name =
     files (w s) !! cpt_path folder base name) ->
  fst (runinloop a fr tm func s) = Raise err /\
  fst (checkpoint_frame folder base name datatype
         (snd (runinloop a fr tm func s))) =
  fst (checkpoint_frame folder base name datatype s).
Proof.
  intros Hraise [Hd Hc]. rewrite runinloop_run.
  destruct (func fr tm (w s)) as [[[] | err'] x]; [discriminate Hraise |].
  cbn [fst snd] in *. injection Hraise as ->. split; [reflexivity |].
  rewrite !load_outcome. cbn [w files]. now rewrite Hd, Hc.
Qed.

End RecipeProperties.

Section MenuProperties.

Context {Time Ext : Type}.

Abbreviation state := (@state Ext).
Abbreviation recipe := (@recipe Time Ext).
Abbreviation menu := (@menu Time Ext).
Abbreviation restaurant := (@restaurant Time Ext).

Lemma said_app (l1 l2 : list string) (s : state) :
  said (l1 ++ l2) s = said l2 (said l1 s).
Proof. unfold said. apply fold_left_app. Qed.

Lemma said_spec (lines : list string) : forall s : state,
  console (w (said lines s)) = console (w s) ++ lines /\
  files (w (said lines s)) = files (w s) /\
  dirs (w (said lines s)) = dirs (w s) /\
  ext (w (said lines s)) = ext (w s) /\
  trace (said lines s) = trace s.
Proof.
  induction lines as [| l r IH]; intros s.
  - cbn. now rewrite app_nil_r.
  - destruct (IH (say l s)) as (Hc & Hf & Hd & He & Ht).
    change (said (l :: r) s) with (said r (say l s)).
    rewrite Hc, Hf, Hd, He, Ht. cbn. now rewrite <- app_assoc.
Qed.

Lemma check_loop_run (nframes : Z) (m : menu) (l : list (string * recipe)) :
  forall (del : list string) (s : state),
  (forall k a, (k, a) ∈ l -> d m !! k = Some a) ->
  check_loop nframes l.*1 del (m, s) =
  (Ok (del ++ (filter (fun ka => Py.ge (bf (snd ka)) (Some nframes) = true) l).*1),
   (m, said (flat_map (removed_lines nframes)
               (filter (fun ka => Py.ge (bf (snd ka)) (Some nframes) = true) l)) s)).
Proof.
  induction l as [| [k a] l IH]; intros del s Hin;
    cbn [check_loop fmap list_fmap fst].
  - rewrite filter_nil. cbn. now rewrite app_nil_r.
  - erewrite bind_ok by (apply getitem_some, Hin; now left).
    rewrite filter_cons. cbn [snd].
    destruct (Py.ge (bf a) (Some nframes)) eqn:E.
    + rewrite decide_True by reflexivity.
      do 2 (erewrite bind_ok by apply lift_print).
      rewrite IH by (intros; apply Hin; now right).
      cbn [fmap list_fmap fst flat_map]. rewrite <- app_assoc.
      rewrite said_app. reflexivity.
    + rewrite decide_False by discriminate.
      apply IH. intros; apply Hin; now right.
Qed.

Lemma evicted_keys (nframes : Z) (dm : gmap string recipe) (k : string) :
  k ∈ (evicted nframes dm).*1 <->
  exists a, dm !! k = Some a /\ Py.ge (bf a) (Some nframes) = true.
Proof.
  unfold evicted. rewrite list_elem_of_fmap. split.
  - intros ([k' a] & -> & Hin). apply list_elem_of_filter in Hin as [Hge Hin].
    apply elem_of_map_to_list in Hin. eauto.
  - intros (a & Ha & Hge). exists (k, a). split; [reflexivity |].
    apply list_elem_of_filter. split; [exact Hge |].
    now apply elem_of_map_to_list.
Qed.

Lemma evicted_NoDup (nframes : Z) (dm : gmap string recipe) :
  NoDup (evicted nframes dm).*1.
Proof.
  unfold evicted.
  pose proof (NoDup_fst_map_to_list dm) as H.
  induction (map_to_list dm) as [| [k a] l IH]; [constructor |].
  cbn [fmap list_fmap fst] in H. apply NoDup_cons in H as [Hk Hl].
  rewrite filter_cons. destruct (decide _); [| now apply IH].
  cbn [fmap list_fmap fst]. apply NoDup_cons. split; [| now apply IH].
  intros Hin. apply Hk. apply list_elem_of_fmap in Hin as ([k' a'] & -> & Hin).
  apply list_elem_of_filter in Hin as [_ Hin].
  apply list_elem_of_fmap. now exists (k', a').
Qed.

(** The whole of [check_cases]: its result, the menu and the state it
    leaves. *)
Lemma check_cases_run (nframes : Z) (m : menu) (s : state) :
  exists dm',
    check_cases nframes (m, s) =
    ((if decide (dm' = ∅) then Raise (SystemExit exit_msg) else Ok tt),
     (set_d dm' m,
      said ([ "==============================================";
              "Running test cases on each analysis";
              "==============================================" ] ++
            flat_map (removed_lines nframes) (evicted nframes (d m)) ++
            [ "" ]) s)) /\
    forall k, dm' !! k =
      match d m !! k with
      | Some a => if Py.ge (bf a) (Some nframes) then None else Some a
      | None => None
      end.
Proof.
  unfold check_cases.
  do 3 (erewrite bind_ok by apply lift_print).
  erewrite bind_ok by reflexivity. cbn [fst].
  erewrite bind_ok.
  2:{ apply (check_loop_run nframes m (map_to_list (d m)) []).
      intros k a. apply elem_of_map_to_list. }
  rewrite app_nil_l. fold (evicted nframes (d m)).
  match goal with |- context [(m, said ?ls ?s0)] => set (s1 := said ls s0) end.
  destruct (remove_all_spec (evicted nframes (d m)).*1 m s1) as (dm' & Hrm & Hlk).
  { apply evicted_NoDup. }
  { intros k Hk. apply evicted_keys in Hk as (a & Ha & _). eauto. }
  assert (Hrm' : (if 0 <? Z.of_nat (length (evicted nframes (d m)).*1)
                  then for_each (evicted nframes (d m)).*1 remove else ret tt)
                   (m, s1) = (Ok tt, (set_d dm' m, s1))).
  { destruct ((evicted nframes (d m)).*1); [| exact Hrm]. exact Hrm. }
  erewrite bind_ok by exact Hrm'.
  erewrite bind_ok by apply lift_print.
  erewrite bind_ok by reflexivity. cbn [fst set_d d].
  exists dm'. split.
  - assert (Hst : say "" s1 =
                  said ([ "==============================================";
                          "Running test cases on each analysis";
                          "==============================================" ] ++
                        flat_map (removed_lines nframes) (evicted nframes (d m)) ++
                        [ "" ]) s).
    { subst s1. rewrite !said_app. reflexivity. }
    rewrite Hst.
    destruct (decide (dm' = ∅)) as [-> | Hne].
    + rewrite map_size_empty. reflexivity.
    + destruct (Z.eqb_spec (Z.of_nat (size dm')) 0) as [E | _]; [| reflexivity].
      exfalso. apply Hne, map_size_empty_iff. lia.
  - intros k. rewrite Hlk.
    destruct (d m !! k) as [a |] eqn:Ha.
    + destruct (Py.ge (bf a) (Some nframes)) eqn:E.
      * rewrite decide_True; [reflexivity |]. apply evicted_keys. eauto.
      * rewrite decide_False; [reflexivity |].
        intros Hk. apply evicted_keys in Hk as (a' & Ha' & Hge). congruence.
    + now destruct (decide _).
Qed.

(** X9.  [check_cases] reports what it removes and touches nothing else:
    it prints its heading, then for every task it removes, in iteration
    order, the line naming the task and its [bf] and the line giving the
    reason, then an empty line; files, directories, analysis memory and
    trace are left as they were. *)
Theorem check_cases_report (nframes : Z) (m : menu) (s : state) :
  let s' := snd (snd (check_cases nframes (m, s))) in
  console (w s') =
    console (w s) ++
    [ "==============================================";
      "Running test cases on each analysis";
      "==============================================" ] ++
    flat_map (removed_lines nframes) (evicted nframes (d m)) ++ [ "" ] /\
  files (w s') = files (w s) /\
  dirs (w s') = dirs (w s) /\
  ext (w s') = ext (w s) /\
  trace s' = trace s.
Proof.
  destruct (check_cases_run nframes m s) as (dm' & Hrun & _).
  rewrite Hrun. cbn [snd]. apply said_spec.
Qed.

(** X10.  [check_cases] ends in one of two ways: it exits, exactly when
    every task of the menu (none included) has [bf >= nframes], or it
    returns; it raises nothing else, [KeyError] from [remove] included. *)
Theorem check_cases_outcome (nframes : Z) (m : menu) (s : state) :
  (fst (check_cases nframes (m, s)) = Raise (SystemExit exit_msg) <->
   forall k a, d m !! k = Some a -> Py.ge (bf a) (Some nframes) = true) /\
  (fst (check_cases nframes (m, s)) = Ok tt <->
   exists k a, d m !! k = Some a /\ Py.ge (bf a) (Some nframes) = false).
Proof.
  destruct (check_cases_run nframes m s) as (dm' & Hrun & Hlk).
  rewrite Hrun. cbn [fst].
  assert (Hiff : dm' = ∅ <->
                 forall k a, d m !! k = Some a -> Py.ge (bf a) (Some nframes) = true).
  { split.
    - intros -> k a Ha. specialize (Hlk k). rewrite lookup_empty, Ha in Hlk.
      now destruct (Py.ge (bf a) (Some nframes)).
    - intros Hall. apply map_eq. intros k. rewrite Hlk, lookup_empty.
      destruct (d m !! k) as [a |] eqn:Ha; [| reflexivity].
      now rewrite (Hall k a Ha). }
  destruct (decide (dm' = ∅)) as [He | Hne].
  - split; (split; [intros H | intros H]); try reflexivity; try discriminate.
    + now apply Hiff.
    + destruct H as (k & a & Ha & Hge).
      rewrite (proj1 Hiff He k a Ha) in Hge. discriminate.
  - split; (split; [intros H | intros H]); try reflexivity; try discriminate.
    + exfalso. apply Hne, Hiff, H.
    + destruct (map_choose dm' Hne) as (k & a & Hk). exists k, a.
      rewrite Hlk in Hk. destruct (d m !! k) as [a0 |]; [| discriminate].
      destruct (Py.ge (bf a0) (Some nframes)) eqn:E; [discriminate |].
      injection Hk as ->. auto.
Qed.

(** X11.  Running [check_cases] a second time with the same [nframes]
    removes nothing: the menu is the one the first run left. *)
Theorem check_cases_idempotent (nframes : Z) (m : menu) (s : state) :
  let ms1 := snd (check_cases nframes (m, s)) in
  d (fst (snd (check_cases nframes ms1))) = d (fst ms1).
Proof.
  destruct (check_cases_run nframes m s) as (dm1 & Hrun1 & Hlk1).
  rewrite Hrun1. cbn [snd].
  match goal with |- context [check_cases nframes (?m1, ?s1)] =>
    destruct (check_cases_run nframes m1 s1) as (dm2 & Hrun2 & Hlk2)
  end.
  rewrite Hrun2. cbn [fst snd set_d d] in *.
  apply map_eq. intros k. rewrite Hlk2, Hlk1.
  destruct (d m !! k) as [a |]; [| reflexivity].
  destruct (Py.ge (bf a) (Some nframes)) eqn:E; [reflexivity |].
  now rewrite E.
Qed.

End MenuProperties.

Section ScanProperties.

Context {Time Ext : Type}.

Abbreviation state := (@state Ext).
Abbreviation recipe := (@recipe Time Ext).
Abbreviation menu := (@menu Time Ext).
Abbreviation restaurant := (@restaurant Time Ext).
Abbreviation timestep := (@timestep Time).

(** *** One task at one frame *)

Lemma serve_task_trace (ts : timestep) (k : string) (a : recipe)
    (r : restaurant) (s : state) :
  exists o s2,
    serve_task ts (frame_key ts) (k, a) (r, s) =
      (o, (touch (frame_key ts) k a r, s2)) /\
    match o with
    | Ok _ => trace s2 = trace s ++ task_events ts (k, a)
    | Raise _ =>
        on (activate (frame_key ts) a) = true /\
        trace s2 = trace s ++ [EvUnit (chkpt a) (frame ts)]
    end.
Proof.
  unfold serve_task, touch, turn_on, task_events, activate. cbn [snd].
  destruct (Py.eq (bf a) (frame_key ts)).
  - erewrite bind_ok by reflexivity. cbn [on set_on chkpt].
    destruct (runinloop (set_on true a) (frame ts) (time ts)
                (loopcode (set_on true a)) s) as [o s2] eqn:E.
    exists o, s2. split; [now apply lift_run |].
    rewrite runinloop_run in E. cbn [chkpt set_on loopcode] in E.
    destruct (loopcode a (frame ts) (time ts) (w s)) as [[[] | err] x];
      injection E as <- <-; cbn [trace]; auto.
  - erewrite bind_ok by reflexivity.
    destruct (on a) eqn:Hon.
    + destruct (runinloop a (frame ts) (time ts) (loopcode a) s)
        as [o s2] eqn:E.
      exists o, s2. split; [now apply lift_run |].
      rewrite runinloop_run in E.
      destruct (loopcode a (frame ts) (time ts) (w s)) as [[[] | err] x];
        injection E as <- <-; cbn [trace]; auto.
    + exists (Ok tt), s. split; [reflexivity |]. now rewrite app_nil_r.
Qed.


(** *** All tasks at one frame *)

Lemma serve_tasks_trace (ts : timestep) (l : list (string * recipe)) :
  forall (r r' : restaurant) (s s' : state) (o : outcome unit),
  for_each l (serve_task ts (frame_key ts)) (r, s) = (o, (r', s')) ->
  match o with
  | Ok _ => trace s' = trace s ++ flat_map (task_events ts) l
  | Raise _ =>
      exists l1 ka l2,
        l = l1 ++ ka :: l2 /\
        on (activate (frame_key ts) (snd ka)) = true /\
        trace s' =
          trace s ++ flat_map (task_events ts) l1 ++
          [EvUnit (chkpt (snd ka)) (frame ts)]
  end.
Proof.
  induction l as [| [k a] l IH]; intros r r' s s' o Hrun.
  - cbn [for_each] in Hrun. injection Hrun as <- <- <-.
    cbn. now rewrite app_nil_r.
  - cbn [for_each] in Hrun.
    destruct (serve_task_trace ts k a r s) as (o1 & s2 & Htask & Htr).
    unfold bind in Hrun. rewrite Htask in Hrun.
    destruct o1 as [[] | err].
    + specialize (IH _ _ _ _ _ Hrun). destruct o as [[] | err'].
      * rewrite IH, Htr. cbn [flat_map]. now rewrite <- app_assoc.
      * destruct IH as (l1 & ka & l2 & -> & Hon & Ht).
        exists ((k, a) :: l1), ka, l2. split; [reflexivity |].
        split; [exact Hon |]. rewrite Ht, Htr. cbn [flat_map].
        now rewrite <- !app_assoc.
    + injection Hrun as <- <- <-. destruct Htr as [Hon Htr].
      exists [], (k, a), l. split; [reflexivity |]. split; [exact Hon |].
      rewrite Htr. reflexivity.
Qed.

Lemma serve_step_trace (ts : timestep) (r r' : restaurant) (s s' : state)
    (o : outcome unit) :
  serve_step ts (r, s) = (o, (r', s')) ->
  match o with
  | Ok _ =>
      trace s' = trace s ++ flat_map (task_events ts) (map_to_list (d (the_menu r)))
  | Raise _ =>
      exists l1 ka l2,
        map_to_list (d (the_menu r)) = l1 ++ ka :: l2 /\
        on (activate (frame_key ts) (snd ka)) = true /\
        trace s' =
          trace s ++ flat_map (task_events ts) l1 ++
          [EvUnit (chkpt (snd ka)) (frame ts)]
  end.
Proof.
  unfold serve_step, values. intros Hrun.
  erewrite bind_ok in Hrun by reflexivity. cbn [fst] in Hrun.
  exact (serve_tasks_trace ts _ _ _ _ _ _ Hrun).
Qed.

(** *** The whole scan *)

Lemma scan_trace (tss : list timestep) :
  forall (r r' : restaurant) (s s' : state) (o : outcome unit),
  for_each tss serve_step (r, s) = (o, (r', s')) ->
  match o with
  | Ok _ => trace s' = trace s ++ scan_events tss (d (the_menu r))
  | Raise _ =>
      exists pre ts post evs c,
        tss = pre ++ ts :: post /\
        trace s' = trace s ++ evs ++ [EvUnit c (frame ts)] /\
        forall ev, ev ∈ evs ++ [EvUnit c (frame ts)] ->
                   ev ∈ scan_events (pre ++ [ts]) (d (the_menu r))
  end.
Proof.
  induction tss as [| ts tss IH]; intros r r' s s' o Hrun.
  - cbn [for_each] in Hrun. injection Hrun as <- <- <-.
    cbn. now rewrite app_nil_r.
  - cbn [for_each] in Hrun. unfold bind in Hrun.
    destruct (serve_step ts (r, s)) as [[[] | err] [r1 s1]] eqn:Hstep.
    + pose proof (serve_step_trace _ _ _ _ _ _ Hstep) as Ht1.
      apply serve_step_spec in Hstep as (Hd & _).
      specialize (IH _ _ _ _ _ Hrun). rewrite Hd in IH.
      destruct o as [[] | err'].
      * rewrite IH, Ht1. cbn [scan_events]. now rewrite <- app_assoc.
      * destruct IH as (pre & ts' & post & evs & c & -> & Ht & Hin).
        exists (ts :: pre), ts', post,
               (flat_map (task_events ts) (map_to_list (d (the_menu r))) ++ evs), c.
        split; [reflexivity |]. split.
        -- rewrite Ht, Ht1. now rewrite <- !app_assoc.
        -- intros ev Hev. cbn [app scan_events]. rewrite <- app_assoc in Hev.
           apply elem_of_app in Hev as [Hev | Hev];
             apply elem_of_app; [now left | right; now apply Hin].
    + injection Hrun as <- <- <-.
      pose proof (serve_step_trace _ _ _ _ _ _ Hstep)
        as (l1 & ka & l2 & Hl & Hon & Ht).
      exists [], ts, tss, (flat_map (task_events ts) l1), (chkpt (snd ka)).
      split; [reflexivity |]. split; [exact Ht |].
      intros ev Hev. cbn [app scan_events]. apply elem_of_app. left.
      rewrite Hl, flat_map_app. cbn [flat_map].
      apply elem_of_app in Hev as [Hev | Hev];
        apply elem_of_app; [now left | right].
      apply list_elem_of_singleton in Hev as ->.
      apply elem_of_app. left. unfold task_events. rewrite Hon. now left.
Qed.


(** *** The events of one task *)

Lemma own_app (c : string) (l1 l2 : list event) :
  own c (l1 ++ l2) = own c l1 ++ own c l2.
Proof. apply filter_app. Qed.

Lemma own_unit_pair (c c' : string) (p : Z) :
  own c (unit_pair c' p) = if decide (c' = c) then unit_pair c' p else [].
Proof.
  unfold own, unit_pair. rewrite !filter_cons, filter_nil. cbn [about].
  destruct (decide (c' = c)) as [-> | Hne].
  - rewrite bool_decide_eq_true_2 by reflexivity.
    now rewrite !decide_True by reflexivity.
  - rewrite bool_decide_eq_false_2 by exact Hne.
    now rewrite !decide_False by discriminate.
Qed.

Lemma own_task_events (c : string) (ts : timestep) (ka : string * recipe) :
  own c (task_events ts ka) =
  if decide (chkpt (snd ka) = c) then task_events ts ka else [].
Proof.
  unfold task_events. rewrite (proj2 (proj2 (activate_fields _ _))).
  destruct (on (snd ka) || Py.eq (bf (snd ka)) (frame_key ts)).
  - apply own_unit_pair.
  - now destruct (decide _).
Qed.

Lemma own_entries (c k : string) (a : recipe) (dm : gmap string recipe)
    (ts : timestep) (l : list (string * recipe)) :
  dm !! k = Some a -> chkpt a = c -> own_checkpoint dm k c ->
  NoDup l.*1 ->
  (forall k' a', (k', a') ∈ l -> dm !! k' = Some a') ->
  own c (flat_map (task_events ts) l) =
  if decide (k ∈ l.*1) then task_events ts (k, a) else [].
Proof.
  intros Ha Hc Hown. induction l as [| [k' a'] l IH]; intros Hnd Hin.
  - cbn. rewrite decide_False; [reflexivity | apply not_elem_of_nil].
  - cbn [fmap list_fmap fst] in Hnd. apply NoDup_cons in Hnd as [Hk' Hnd].
    cbn [flat_map fmap list_fmap fst]. rewrite own_app, own_task_events.
    rewrite IH by (try assumption; intros; apply Hin; now right).
    assert (Ha' : dm !! k' = Some a') by (apply Hin; now left).
    cbn [snd]. destruct (decide (chkpt a' = c)) as [Hc' | Hc'].
    + assert (k' = k) by exact (Hown k' a' Ha' Hc'). subst k'.
      assert (a' = a) by congruence. subst a'.
      rewrite decide_False by exact Hk'.
      rewrite decide_True by now left. now rewrite app_nil_r.
    + cbn [app]. destruct (decide (k ∈ l.*1)) as [Hl | Hl].
      * rewrite decide_True by now right. reflexivity.
      * rewrite decide_False; [reflexivity |].
        intros Hk. apply elem_of_cons in Hk as [-> | Hk]; [| contradiction].
        apply Hc'. congruence.
Qed.

Lemma own_step (c k : string) (a : recipe) (dm : gmap string recipe)
    (ts : timestep) :
  dm !! k = Some a -> chkpt a = c -> own_checkpoint dm k c ->
  own c (flat_map (task_events ts) (map_to_list dm)) = task_events ts (k, a).
Proof.
  intros Ha Hc Hown.
  rewrite (own_entries c k a dm ts); try assumption.
  - rewrite decide_True; [reflexivity |]. apply elem_of_keys. eauto.
  - apply NoDup_fst_map_to_list.
  - intros k' a'. apply elem_of_map_to_list.
Qed.

Lemma own_checkpoint_activate (dm : gmap string recipe) (k c : string)
    (fr : option Z) :
  own_checkpoint dm k c -> own_checkpoint (activate fr <$> dm) k c.
Proof.
  intros Hown k' a' Hk' Hc'. rewrite lookup_fmap in Hk'.
  destruct (dm !! k') as [a0 |] eqn:E; [| discriminate].
  injection Hk' as <-. apply (Hown k' a0 E).
  now rewrite <- (proj1 (proj2 (activate_fields fr a0))).
Qed.

(** The calls and commits of one task in the events of a scan: from the
    step that turns it on, one call then one commit at every step. *)
Lemma own_scan (c k : string) (tss : list timestep) :
  forall (a : recipe) (dm : gmap string recipe),
  dm !! k = Some a -> chkpt a = c -> own_checkpoint dm k c ->
  own c (scan_events tss dm) =
  flat_map (fun ts => unit_pair c (frame ts))
           (if on a then tss else from_resume (bf a) tss).
Proof.
  induction tss as [| ts tss IH]; intros a dm Ha Hc Hown.
  - cbn. now destruct (on a).
  - cbn [scan_events]. rewrite own_app, (own_step c k a) by assumption.
    destruct (activate_fields (frame_key ts) a) as (Hbf & Hck & Hon).
    rewrite (IH (activate (frame_key ts) a) (activate (frame_key ts) <$> dm)).
    2:{ now rewrite lookup_fmap, Ha. }
    2:{ congruence. }
    2:{ now apply own_checkpoint_activate. }
    unfold task_events. cbn [snd]. rewrite Hon, Hbf, Hc.
    cbn [from_resume].
    destruct (on a); cbn [orb]; [reflexivity |].
    destruct (Py.eq (bf a) (frame_key ts)); reflexivity.
Qed.

(** *** Frames that count up *)

Lemma counts_from_slice (u : list Time) (b0 e0 : option Z) :
  counts_from (slice_bound (Z.of_nat (length u)) b0 0) (trajectory_slice u b0 e0).
Proof. intros i ts. apply slice_lookup. Qed.

Lemma counts_from_cons (start : Z) (ts : timestep) (l : list timestep) :
  counts_from start (ts :: l) ->
  frame ts = start /\ counts_from (start + 1) l.
Proof.
  intros H. split.
  - rewrite (H 0%nat ts eq_refl). lia.
  - intros i ts' Hi. rewrite (H (S i) ts' Hi). lia.
Qed.

Lemma frames_counts_from (l : list timestep) : forall start : Z,
  counts_from start l ->
  frame <$> l = seqZ start (Z.of_nat (length l)).
Proof.
  induction l as [| ts l IH]; intros start H; [reflexivity |].
  apply counts_from_cons in H as [Hts Hl].
  cbn [fmap list_fmap length]. rewrite seqZ_cons by lia.
  rewrite Hts. f_equal.
  replace (Z.pred (Z.of_nat (S (length l)))) with (Z.of_nat (length l)) by lia.
  replace (Z.succ start) with (start + 1) by lia. now apply IH.
Qed.

Lemma frames_from_resume (a : recipe) (K : Z) (l : list timestep) :
  forall start : Z,
  (bf a = Some K /\ 0 < K) \/ (bf a = None /\ K = 0) ->
  counts_from start l -> 0 <= start -> start <= K ->
  frame <$> from_resume (bf a) l = seqZ K (start + Z.of_nat (length l) - K).
Proof.
  intros start HK. revert start.
  induction l as [| ts l IH]; intros start H Hpos Hle.
  - cbn. rewrite seqZ_nil; [reflexivity | lia].
  - pose proof H as Hall. apply counts_from_cons in H as [Hts Hl].
    cbn [from_resume].
    destruct (Py.eq (bf a) (frame_key ts)) eqn:E.
    + apply (eq_frame_key a K ts HK) in E; [| lia].
      rewrite (frames_counts_from _ start Hall). f_equal; lia.
    + assert (frame ts <> K).
      { intros Hc. apply (eq_frame_key a K ts HK) in Hc; [congruence | lia]. }
      rewrite (IH (start + 1)) by (try assumption; lia).
      f_equal. cbn [length]. lia.
Qed.


Lemma from_resume_lower (a : recipe) (K : Z) (l : list timestep) :
  forall start : Z,
  (bf a = Some K /\ 0 < K) \/ (bf a = None /\ K = 0) ->
  counts_from start l -> 0 <= start ->
  forall ts, ts ∈ from_resume (bf a) l -> K <= frame ts.
Proof.
  intros start HK. revert start.
  induction l as [| ts0 l IH]; intros start H Hpos ts Hin.
  - cbn in Hin. now apply elem_of_nil in Hin.
  - pose proof H as Hall. apply counts_from_cons in H as [Hts Hl].
    cbn [from_resume] in Hin.
    destruct (Py.eq (bf a) (frame_key ts0)) eqn:E.
    + apply (eq_frame_key a K ts0 HK) in E; [| lia].
      apply list_elem_of_lookup in Hin as [i Hi].
      rewrite (Hall i ts Hi). lia.
    + apply (IH (start + 1)); try assumption. lia.
Qed.

Lemma counts_from_prefix (start : Z) (l1 l2 : list timestep) :
  counts_from start (l1 ++ l2) -> counts_from start l1.
Proof.
  intros H i ts Hi. apply (H i ts). now apply lookup_app_l_Some.
Qed.

Lemma flat_map_frames (c : string) (l : list timestep) :
  flat_map (fun ts => unit_pair c (frame ts)) l =
  flat_map (unit_pair c) (frame <$> l).
Proof.
  induction l as [| ts l IH]; [reflexivity |].
  cbn [flat_map fmap list_fmap]. now rewrite IH.
Qed.

(** The scanning loop of [serve_loop], apart from its last [print]. *)
Lemma serve_loop_inv (r r' : restaurant) (s s' : state) (o : outcome unit) :
  serve_loop (r, s) = (o, (r', s')) ->
  exists s1,
    for_each (trajectory_slice (trajectory r) (b r) (e r)) serve_step (r, s) =
      (o, (r', s1)) /\
    trace s' = trace s1 /\ files (w s') = files (w s1).
Proof.
  unfold serve_loop. intros Hrun.
  erewrite bind_ok in Hrun by reflexivity. cbn [fst] in Hrun.
  unfold bind in Hrun.
  destruct (for_each _ serve_step (r, s)) as [[[] | err] [r1 s1]].
  - rewrite lift_print in Hrun. injection Hrun as <- <- <-.
    exists s1. auto.
  - injection Hrun as <- <- <-. exists s1. auto.
Qed.

(** X12.  Every frame once, each followed by its commit.  Let a task of the
    menu be off before the pass, resume at position [K] (its [bf] is
    [K > 0], or is unset and [K = 0]) and have a checkpoint file of its own,
    and let the scan start at or before [K].  When the scanning loop ends
    normally, the calls and commits of that task in the trace are exactly:
    the call at [K], the commit of [K], the call at [K + 1], the commit of
    [K + 1], and so on up to the last frame visited. *)
Theorem units_exactly_once (r r' : restaurant) (s s' : state) (k : string)
    (a : recipe) (K : Z) :
  d (the_menu r) !! k = Some a ->
  (bf a = Some K /\ 0 < K) \/ (bf a = None /\ K = 0) ->
  on a = false ->
  own_checkpoint (d (the_menu r)) k (chkpt a) ->
  let visited := trajectory_slice (trajectory r) (b r) (e r) in
  let start := slice_bound (Z.of_nat (length (trajectory r))) (b r) 0 in
  let stop := start + Z.of_nat (length visited) in
  start <= K ->
  serve_loop (r, s) = (Ok tt, (r', s')) ->
  exists evs,
    trace s' = trace s ++ evs /\
    own (chkpt a) evs = flat_map (unit_pair (chkpt a)) (seqZ K (stop - K)).
Proof.
  intros Ha HK Hoff Hown visited start stop Hle Hrun.
  apply serve_loop_inv in Hrun as (s1 & Hrun & Ht & _).
  apply scan_trace in Hrun. cbv beta iota in Hrun.
  exists (scan_events visited (d (the_menu r))).
  split; [now rewrite Ht |].
  rewrite (own_scan _ k _ a) by (try assumption; reflexivity).
  rewrite Hoff, flat_map_frames.
  rewrite (frames_from_resume a K visited start HK); try assumption.
  - reflexivity.
  - apply counts_from_slice.
  - apply slice_bound_nonneg; lia.
Qed.

(** X13.  No frame before the resume point.  Under the same conditions on
    the task, and whatever way the scanning loop ends, an exception
    included, the per-unit callable of the task is called at no frame below
    [K]: a frame that an earlier run has committed is not done again. *)
Theorem no_unit_before_resume (r r' : restaurant) (s s' : state) (k : string)
    (a : recipe) (K : Z) (o : outcome unit) :
  d (the_menu r) !! k = Some a ->
  (bf a = Some K /\ 0 < K) \/ (bf a = None /\ K = 0) ->
  on a = false ->
  own_checkpoint (d (the_menu r)) k (chkpt a) ->
  serve_loop (r, s) = (o, (r', s')) ->
  exists evs,
    trace s' = trace s ++ evs /\
    forall p, EvUnit (chkpt a) p ∈ evs -> K <= p.
Proof.
  intros Ha HK Hoff Hown Hrun.
  apply serve_loop_inv in Hrun as (s1 & Hrun & Ht & _).
  pose proof (counts_from_slice (trajectory r) (b r) (e r)) as Hcount.
  assert (Hpos : 0 <= slice_bound (Z.of_nat (length (trajectory r))) (b r) 0)
    by (apply slice_bound_nonneg; lia).
  assert (Hkey : forall l p,
            counts_from (slice_bound (Z.of_nat (length (trajectory r))) (b r) 0) l ->
            EvUnit (chkpt a) p ∈ scan_events l (d (the_menu r)) -> K <= p).
  { intros l p Hl Hin.
    assert (Hin' : EvUnit (chkpt a) p ∈ own (chkpt a) (scan_events l (d (the_menu r)))).
    { apply list_elem_of_filter. split; [| exact Hin].
      cbn [about]. now apply bool_decide_eq_true_2. }
    rewrite (own_scan _ k _ a) in Hin' by (try assumption; reflexivity).
    rewrite Hoff in Hin'. apply list_elem_of_In, in_flat_map in Hin'
      as (ts & Hts & Hp).
    apply list_elem_of_In in Hts.
    pose proof (from_resume_lower a K l _ HK Hl Hpos ts Hts) as Hlow.
    cbn in Hp. destruct Hp as [Hp | [Hp | []]]; [| discriminate Hp].
    injection Hp as <-. exact Hlow. }
  apply scan_trace in Hrun. destruct o as [[] | err].
  - eexists. split; [rewrite Ht; exact Hrun |].
    intros p. now apply Hkey.
  - destruct Hrun as (pre & ts & post & evs & c & Hsplit & Htr & Hin).
    exists (evs ++ [EvUnit c (frame ts)]). split; [now rewrite Ht, Htr |].
    intros p Hp. apply Hin in Hp. apply (Hkey (pre ++ [ts])); [| exact Hp].
    apply (counts_from_prefix _ _ post). rewrite <- app_assoc.
    cbn [app]. rewrite <- Hsplit. exact Hcount.
Qed.


(** X14.  A failure stops everything.  When the checks of [serve] have
    passed and the scanning loop raises, [serve] raises the same exception
    in the same state; the last thing traced is the call of a per-unit
    callable at a visited frame, with no commit after it; and no
    [runafterloop] has run. *)
Theorem failed_unit_stops_serve (r r1 r' : restaurant) (s s1 s' : state)
    (err : exn) :
  serve_checks (r, s) = (Ok tt, (r1, s1)) ->
  serve_loop (r1, s1) = (Raise err, (r', s')) ->
  serve (r, s) = (Raise err, (r', s')) /\
  (exists evs c ts,
     ts ∈ trajectory_slice (trajectory r1) (b r1) (e r1) /\
     trace s' = trace s1 ++ evs ++ [EvUnit c (frame ts)]) /\
  finals (trace s') = finals (trace s).
Proof.
  intros Hchecks Hloop. split; [| split].
  - unfold serve. erewrite bind_ok by exact Hchecks.
    now apply bind_raise.
  - apply serve_loop_inv in Hloop as (s2 & Hscan & Ht & _).
    apply scan_trace in Hscan as (pre & ts & post & evs & c & Hsplit & Htr & _).
    exists evs, c, ts. split.
    + rewrite Hsplit. apply elem_of_app. right. now left.
    + now rewrite Ht.
  - pose proof (keeps_serve_checks (r, s)) as H1.
    pose proof (keeps_serve_loop (r1, s1)) as H2.
    rewrite Hchecks in H1. rewrite Hloop in H2.
    unfold fin2 in *. cbn [snd] in *. congruence.
Qed.

(** *** The checkpoint files after the scan *)

Lemma for_each_app {S X} (l1 l2 : list X) (body : X -> M S unit) (s : S) :
  for_each (l1 ++ l2) body s =
  bind (for_each l1 body) (fun _ => for_each l2 body) s.
Proof.
  revert s. induction l1 as [| x l1 IH]; intros s; [reflexivity |].
  cbn [app for_each]. unfold bind.
  destruct (body x s) as [[[] | err] s1]; [| reflexivity].
  rewrite IH. reflexivity.
Qed.

Lemma serve_task_file (c : string) (ts : timestep) (k : string) (a : recipe)
    (r r2 : restaurant) (s s2 : state) :
  (forall fr tm x, files (snd (loopcode a fr tm x)) !! c = files x !! c) ->
  serve_task ts (frame_key ts) (k, a) (r, s) = (Ok tt, (r2, s2)) ->
  files (w s2) !! c =
  if commits_to c ts (k, a) then Some (Py.str (frame ts))
  else files (w s) !! c.
Proof.
  intros Hq. unfold serve_task, turn_on, commits_to, activate. cbn [snd].
  assert (Hstep : forall a0 s3,
            chkpt a0 = chkpt a -> loopcode a0 = loopcode a ->
            runinloop a0 (frame ts) (time ts) (loopcode a0) s = (Ok tt, s3) ->
            files (w s3) !! c =
            if bool_decide (chkpt a = c) then Some (Py.str (frame ts))
            else files (w s) !! c).
  { intros a0 s3 Hc Hl Hrun. rewrite runinloop_run, Hl, Hc in Hrun.
    specialize (Hq (frame ts) (time ts) (w s)).
    destruct (loopcode a (frame ts) (time ts) (w s)) as [[[] | err] x];
      [| discriminate Hrun].
    injection Hrun as <-. cbn [w files set_files snd] in *.
    destruct (decide (chkpt a = c)) as [<- | Hne].
    - rewrite bool_decide_eq_true_2 by reflexivity. apply lookup_insert_eq.
    - rewrite bool_decide_eq_false_2 by exact Hne.
      now rewrite lookup_insert_ne. }
  destruct (Py.eq (bf a) (frame_key ts)).
  - erewrite bind_ok by reflexivity. cbn [on set_on chkpt andb].
    intros Hrun. unfold lift in Hrun. cbn [fst snd on_fst] in Hrun.
    destruct (runinloop _ _ _ _ s) as [o s3] eqn:E.
    injection Hrun as -> _ <-. now apply (Hstep _ _ eq_refl eq_refl E).
  - erewrite bind_ok by reflexivity. destruct (on a); cbn [andb].
    + intros Hrun. unfold lift in Hrun. cbn [fst snd on_fst] in Hrun.
      destruct (runinloop _ _ _ _ s) as [o s3] eqn:E.
      injection Hrun as -> _ <-. now apply (Hstep _ _ eq_refl eq_refl E).
    + intros Hrun. now injection Hrun as _ <-.
Qed.

Lemma serve_tasks_file (c : string) (ts : timestep)
    (l : list (string * recipe)) :
  forall (r r' : restaurant) (s s' : state),
  (forall ka fr tm x, ka ∈ l ->
     files (snd (loopcode (snd ka) fr tm x)) !! c = files x !! c) ->
  for_each l (serve_task ts (frame_key ts)) (r, s) = (Ok tt, (r', s')) ->
  files (w s') !! c =
  if existsb (commits_to c ts) l then Some (Py.str (frame ts))
  else files (w s) !! c.
Proof.
  induction l as [| [k a] l IH]; intros r r' s s' Hq Hrun.
  - cbn [for_each] in Hrun. now injection Hrun as _ <-.
  - cbn [for_each] in Hrun. unfold bind in Hrun.
    destruct (serve_task ts (frame_key ts) (k, a) (r, s))
      as [[[] | err] [r2 s2]] eqn:Htask; [| discriminate Hrun].
    apply (serve_task_file c) in Htask;
      [| intros; apply (Hq (k, a)); now left].
    rewrite (IH _ _ _ _ (fun ka fr tm x H => Hq ka fr tm x (list_elem_of_further _ _ _ H)) Hrun).
    rewrite Htask. cbn [existsb].
    destruct (commits_to c ts (k, a)); cbn [orb]; [| reflexivity].
    now destruct (existsb _ l).
Qed.

Lemma after_steps_fields (tss : list timestep) : forall a : recipe,
  bf (after_steps tss a) = bf a /\
  chkpt (after_steps tss a) = chkpt a /\
  loopcode (after_steps tss a) = loopcode a /\
  on (after_steps tss a) =
    on a || existsb (fun ts => Py.eq (bf a) (frame_key ts)) tss.
Proof.
  induction tss as [| ts tss IH]; intros a.
  - cbn. now rewrite orb_false_r.
  - change (after_steps (ts :: tss) a)
      with (after_steps tss (activate (frame_key ts) a)).
    destruct (IH (activate (frame_key ts) a)) as (Hbf & Hck & Hlc & Hon).
    destruct (activate_fields (frame_key ts) a) as (Hbf' & Hck' & Hon').
    assert (Hlc' : loopcode (activate (frame_key ts) a) = loopcode a).
    { unfold activate. now destruct (Py.eq _ _). }
    rewrite Hbf, Hck, Hlc, Hon, Hbf', Hck', Hlc', Hon'. cbn [existsb].
    now rewrite orb_assoc.
Qed.

Lemma scan_menu (tss : list timestep) :
  forall (r r' : restaurant) (s s' : state),
  for_each tss serve_step (r, s) = (Ok tt, (r', s')) ->
  d (the_menu r') = after_steps tss <$> d (the_menu r).
Proof.
  induction tss as [| ts tss IH]; intros r r' s s' Hrun.
  - cbn [for_each] in Hrun. injection Hrun as <- _.
    apply map_eq. intros k. rewrite lookup_fmap.
    now destruct (d (the_menu r) !! k).
  - cbn [for_each] in Hrun. unfold bind in Hrun.
    destruct (serve_step ts (r, s)) as [[[] | err] [r1 s1]] eqn:Hstep;
      [| discriminate Hrun].
    apply serve_step_spec in Hstep as (Hd & _).
    rewrite (IH _ _ _ _ Hrun), Hd. apply map_eq. intros k.
    rewrite !lookup_fmap. now destruct (d (the_menu r) !! k).
Qed.

Lemma resume_in_slice (a : recipe) (K : Z) (u : list Time) (b0 e0 : option Z) :
  (bf a = Some K /\ 0 < K) \/ (bf a = None /\ K = 0) ->
  let visited := trajectory_slice u b0 e0 in
  let start := slice_bound (Z.of_nat (length u)) b0 0 in
  start <= K < start + Z.of_nat (length visited) ->
  existsb (fun ts => Py.eq (bf a) (frame_key ts)) visited = true.
Proof.
  intros HK visited start Hin.
  assert (Hpos : 0 <= start) by (apply slice_bound_nonneg; lia).
  destruct (lookup_lt_is_Some_2 visited (Z.to_nat (K - start))) as [ts Hts];
    [lia |].
  pose proof (slice_lookup _ _ _ _ _ Hts) as Hfr. fold start in Hfr.
  apply existsb_exists. exists ts. split.
  - apply list_elem_of_In, list_elem_of_lookup. eauto.
  - apply (eq_frame_key a K ts HK); lia.
Qed.

Lemma final_checkpoint_file (r r' : restaurant) (s s' : state) (k : string)
    (a : recipe) (K : Z) :
  d (the_menu r) !! k = Some a ->
  (bf a = Some K /\ 0 < K) \/ (bf a = None /\ K = 0) ->
  leave_alone (d (the_menu r)) (chkpt a) ->
  let visited := trajectory_slice (trajectory r) (b r) (e r) in
  let start := slice_bound (Z.of_nat (length (trajectory r))) (b r) 0 in
  let stop := start + Z.of_nat (length visited) in
  start <= K < stop ->
  serve_loop (r, s) = (Ok tt, (r', s')) ->
  files (w s') !! chkpt a = Some (Py.str (stop - 1)).
Proof.
  intros Ha HK Hq visited start stop Hin Hrun.
  apply serve_loop_inv in Hrun as (s2 & Hrun & _ & Hf). rewrite Hf.
  fold visited in Hrun.
  pose proof (resume_in_slice a K (trajectory r) (b r) (e r) HK Hin) as Hex.
  fold visited in Hex.
  assert (Hne : visited <> []).
  { intros E. unfold stop in Hin. rewrite E in Hin. cbn [length] in Hin. lia. }
  destruct (exists_last Hne) as (pre & lst & Hsplit).
  rewrite Hsplit, for_each_app in Hrun. unfold bind in Hrun.
  destruct (for_each pre serve_step (r, s)) as [[[] | err] [r1 s1]] eqn:Hpre;
    [| discriminate Hrun].
  cbn [for_each] in Hrun. unfold bind in Hrun.
  destruct (serve_step lst (r1, s1)) as [[[] | err] [r3 s3]] eqn:Hlast;
    [| discriminate Hrun].
  injection Hrun as <- <-.
  pose proof (scan_menu _ _ _ _ _ Hpre) as Hd1.
  unfold serve_step, values in Hlast.
  erewrite bind_ok in Hlast by reflexivity. cbn [fst] in Hlast.
  apply (serve_tasks_file (chkpt a)) in Hlast.
  - assert (Hfr : frame lst = stop - 1).
    { assert (Hl : visited !! length pre = Some lst).
      { rewrite Hsplit. apply list_lookup_middle. reflexivity. }
      rewrite (slice_lookup _ _ _ _ _ Hl). subst stop. fold start.
      rewrite Hsplit, length_app. cbn [length]. lia. }
    rewrite Hlast, Hfr.
    assert (Hc : existsb (commits_to (chkpt a) lst)
                   (map_to_list (d (the_menu r1))) = true).
    { apply existsb_exists. exists (k, after_steps pre a). split.
      - apply list_elem_of_In, elem_of_map_to_list.
        now rewrite Hd1, lookup_fmap, Ha.
      - unfold commits_to. cbn [snd].
        destruct (after_steps_fields pre a) as (Hbf & Hck & _ & Hon).
        rewrite (proj2 (proj2 (activate_fields _ _))), Hon, Hbf, Hck.
        rewrite bool_decide_eq_true_2 by reflexivity. rewrite andb_true_r.
        rewrite Hsplit, existsb_app in Hex. cbn [existsb] in Hex.
        rewrite orb_false_r in Hex.
        destruct (on a); [reflexivity |]. exact Hex. }
    now rewrite Hc.
  - intros [k' a'] fr tm x Hk'. apply elem_of_map_to_list in Hk'.
    rewrite Hd1, lookup_fmap in Hk'.
    destruct (d (the_menu r) !! k') as [a0 |] eqn:E; [| discriminate].
    injection Hk' as <-. cbn [snd].
    rewrite (proj1 (proj2 (proj2 (after_steps_fields pre a0)))).
    now apply (Hq k' a0).
Qed.

(** X15.  The checkpoint after a pass.  Let a task of the menu resume at a
    position [K] that the scan visits, and let no callable of the menu
    change the checkpoint file of the task.  When the scanning loop ends
    normally, that file holds the number of the last frame visited. *)
Theorem final_checkpoint (r r' : restaurant) (s s' : state) (k : string)
    (a : recipe) (K : Z) :
  d (the_menu r) !! k = Some a ->
  (bf a = Some K /\ 0 < K) \/ (bf a = None /\ K = 0) ->
  leave_alone (d (the_menu r)) (chkpt a) ->
  let visited := trajectory_slice (trajectory r) (b r) (e r) in
  let start := slice_bound (Z.of_nat (length (trajectory r))) (b r) 0 in
  let stop := start + Z.of_nat (length visited) in
  start <= K < stop ->
  serve_loop (r, s) = (Ok tt, (r', s')) ->
  files (w s') !! chkpt a = Some (Py.str (stop - 1)).
Proof. exact (final_checkpoint_file r r' s s' k a K). Qed.


Lemma from_resume_none (bf0 : option Z) (tss : list timestep) :
  (forall ts, ts ∈ tss -> Py.eq bf0 (frame_key ts) = false) ->
  from_resume bf0 tss = [].
Proof.
  induction tss as [| ts tss IH]; intros H; [reflexivity |].
  cbn [from_resume]. rewrite (H ts) by now left.
  apply IH. intros; apply H; now right.
Qed.

(** X16.  A [bf] that is no frame number.  A task whose [bf] is set to 0 or
    to a negative number, as a checkpoint file holding a number below 0
    gives, is never turned on: line 285 compares frame 0 as [None] and only
    frames above 0 as numbers.  After a scanning loop that ended normally
    the task is still off and, when its checkpoint file is its own, the
    trace holds no call and no commit of it. *)
Theorem nonpositive_bf_never_runs (r r' : restaurant) (s s' : state)
    (k : string) (a : recipe) (K : Z) :
  d (the_menu r) !! k = Some a ->
  bf a = Some K -> K <= 0 ->
  on a = false ->
  own_checkpoint (d (the_menu r)) k (chkpt a) ->
  serve_loop (r, s) = (Ok tt, (r', s')) ->
  (exists a', d (the_menu r') !! k = Some a' /\ on a' = false) /\
  exists evs, trace s' = trace s ++ evs /\ own (chkpt a) evs = [].
Proof.
  intros Ha Hbf HK Hoff Hown Hrun.
  apply serve_loop_inv in Hrun as (s1 & Hrun & Ht & _).
  assert (Hnev : forall ts : timestep, Py.eq (bf a) (frame_key ts) = false).
  { intros ts. rewrite Hbf. unfold frame_key.
    destruct (Z.ltb_spec 0 (frame ts)); cbn [Py.eq]; [| reflexivity].
    apply Z.eqb_neq. lia. }
  split.
  - pose proof (scan_menu _ _ _ _ _ Hrun) as Hd.
    exists (after_steps (trajectory_slice (trajectory r) (b r) (e r)) a).
    split; [now rewrite Hd, lookup_fmap, Ha |].
    rewrite (proj2 (proj2 (proj2 (after_steps_fields _ a)))), Hoff.
    cbn [orb]. apply not_true_is_false. intros Hex.
    apply existsb_exists in Hex as (ts & _ & Hts). now rewrite Hnev in Hts.
  - apply scan_trace in Hrun. cbv beta iota in Hrun.
    eexists. split; [rewrite Ht; exact Hrun |].
    rewrite (own_scan _ k _ a) by (try assumption; reflexivity).
    rewrite Hoff, from_resume_none; [reflexivity |]. intros; apply Hnev.
Qed.


(** *** The checks of [serve] *)

Lemma kept_empty_iff (nframes : Z) (dm dm' : gmap string recipe) :
  (forall k, dm' !! k =
     match dm !! k with
     | Some a => if Py.ge (bf a) (Some nframes) then None else Some a
     | None => None
     end) ->
  (dm' = ∅ <->
   forall k a, dm !! k = Some a -> Py.ge (bf a) (Some nframes) = true) /\
  (dm' <> ∅ <->
   exists k a, dm !! k = Some a /\ Py.ge (bf a) (Some nframes) = false).
Proof.
  intros Hlk.
  assert (H1 : dm' = ∅ <->
               forall k a, dm !! k = Some a -> Py.ge (bf a) (Some nframes) = true).
  { split.
    - intros -> k a Ha. specialize (Hlk k). rewrite lookup_empty, Ha in Hlk.
      now destruct (Py.ge (bf a) (Some nframes)).
    - intros Hall. apply map_eq. intros k. rewrite Hlk, lookup_empty.
      destruct (dm !! k) as [a |] eqn:Ha; [| reflexivity].
      now rewrite (Hall k a Ha). }
  split; [exact H1 |]. split.
  - intros Hne. destruct (map_choose dm' Hne) as (k & a & Hk). exists k, a.
    rewrite Hlk in Hk. destruct (dm !! k) as [a0 |]; [| discriminate].
    destruct (Py.ge (bf a0) (Some nframes)) eqn:E; [discriminate |].
    injection Hk as ->. auto.
  - intros (k & a & Ha & Hge) He. rewrite (proj1 H1 He k a Ha) in Hge.
    discriminate.
Qed.

Lemma serve_checks_run (r : restaurant) (s : state) :
  exists dm' : gmap string recipe,
    (forall k, dm' !! k =
       match d (the_menu r) !! k with
       | Some a => if Py.ge (bf a) (Some (nframes r)) then None else Some a
       | None => None
       end) /\
    fst (serve_checks (r, s)) =
    if decide (dm' = ∅) then Raise (SystemExit exit_msg) else Ok tt.
Proof.
  unfold serve_checks.
  destruct (list_show_spec (the_menu r) s) as (s1 & Hshow & _).
  erewrite bind_ok by (apply in_menu_run, Hshow).
  erewrite bind_ok by reflexivity. cbn [fst set_menu nframes the_menu].
  destruct (check_cases_spec (nframes r) (the_menu r) s1)
    as (dm' & s2 & Hcheck & _ & Hlk).
  exists dm'. split; [exact Hlk |].
  destruct (decide (dm' = ∅)) as [He | Hne].
  { erewrite bind_raise by (apply in_menu_run, Hcheck). reflexivity. }
  erewrite bind_ok by (apply in_menu_run, Hcheck).
  cbn [set_menu the_menu].
  destruct (list_show_spec (set_d dm' (the_menu r)) s2) as (s3 & Hshow' & _).
  erewrite bind_ok by (apply in_menu_run, Hshow').
  cbn [set_menu the_menu].
  destruct (min_beg_frame_spec (set_d dm' (the_menu r)) s3 Hne)
    as (mn & Hmin & _).
  erewrite bind_ok by (apply in_menu_run, Hmin).
  cbv beta iota.
  erewrite bind_ok by reflexivity.
  do 4 (erewrite bind_ok by apply lift_print).
  erewrite bind_ok by reflexivity.
  now rewrite lift_print.
Qed.

(** X17.  The checks of [serve] end in one of two ways: with the exit of
    [check_cases], exactly when every task has [bf >= nframes], or normally.
    In particular [min_beg_frame] is only reached with a menu that is not
    empty, so the assignment of line 269 always gets its pair. *)
Theorem serve_checks_outcome (r : restaurant) (s : state) :
  (fst (serve_checks (r, s)) = Raise (SystemExit exit_msg) <->
   forall k a, d (the_menu r) !! k = Some a ->
               Py.ge (bf a) (Some (nframes r)) = true) /\
  (fst (serve_checks (r, s)) = Ok tt <->
   exists k a, d (the_menu r) !! k = Some a /\
               Py.ge (bf a) (Some (nframes r)) = false).
Proof.
  destruct (serve_checks_run r s) as (dm' & Hlk & Hrun).
  destruct (kept_empty_iff _ _ _ Hlk) as [H1 H2]. rewrite Hrun.
  destruct (decide (dm' = ∅)) as [He | Hne].
  - split; (split; intros H); try reflexivity; try discriminate.
    + now apply H1.
    + now apply H2 in H.
  - split; (split; intros H); try reflexivity; try discriminate.
    + now apply H1 in H.
    + now apply H2.
Qed.

(** X18.  Where the pass starts.  Let the set [bf] of the menu be positions
    (not negative) and [nframes] be the length of the trajectory.  When the
    checks of [serve] pass, the first frame of [trajectory[b:e]] is the
    least resume position of the tasks that are kept, an unset [bf]
    counting as 0: one of them resumes there and none resumes earlier. *)
Theorem scan_starts_at_least_resume (r r' : restaurant) (s s' : state) :
  serve_checks (r, s) = (Ok tt, (r', s')) ->
  nframes r = Z.of_nat (length (trajectory r)) ->
  (forall k a K, d (the_menu r) !! k = Some a -> bf a = Some K -> 0 <= K) ->
  let start := slice_bound (Z.of_nat (length (trajectory r'))) (b r') 0 in
  (exists k a, d (the_menu r') !! k = Some a /\ default 0 (bf a) = start) /\
  (forall k a, d (the_menu r') !! k = Some a -> start <= default 0 (bf a)).
Proof.
  intros Hrun Hn Hmodel start.
  destruct (serve_checks_spec r r' s s' Hrun) as (Ht & _ & Hlk & Hex & Hle).
  assert (Hkept : forall k a, d (the_menu r') !! k = Some a ->
            d (the_menu r) !! k = Some a /\
            Py.ge (bf a) (Some (nframes r)) = false).
  { intros k a Ha. specialize (Hlk k). rewrite Ha in Hlk.
    destruct (d (the_menu r) !! k) as [a0 |]; [| discriminate].
    destruct (Py.ge (bf a0) (Some (nframes r))) eqn:E; [discriminate |].
    injection Hlk as ->. auto. }
  destruct Hex as (k1 & a1 & Ha1 & Hb1).
  destruct (Hkept k1 a1 Ha1) as [Ha1' Hlt1].
  subst start. rewrite Ht, <- Hn.
  destruct (b r') as [m |] eqn:Hb; cbn [slice_bound].
  - assert (Hm : 0 <= m < nframes r).
    { split; [exact (Hmodel k1 a1 m Ha1' Hb1) |].
      rewrite Hb1 in Hlt1. cbn [Py.ge] in Hlt1. now apply Z.leb_gt in Hlt1. }
    destruct (Z.ltb_spec m 0); [lia |].
    rewrite Z.min_l by lia. split.
    + exists k1, a1. split; [exact Ha1 | now rewrite Hb1].
    + intros k a Ha. specialize (Hle k a Ha).
      destruct (bf a) as [K |]; cbn [Py.ge default] in *; [| discriminate].
      now apply Z.leb_le.
  - split.
    + exists k1, a1. split; [exact Ha1 | now rewrite Hb1].
    + intros k a Ha. destruct (Hkept k a Ha) as [Ha' _].
      destruct (bf a) as [K |] eqn:HK; cbn [default]; [| lia].
      exact (Hmodel k a K Ha' HK).
Qed.

(** X19.  A finished task is found finished.  Let a task made by
    [recipe.__init__] resume at a position the scan visits, let no callable
    of the menu change its checkpoint file, let there be no end frame and
    [nframes] be the length of the trajectory.  After a scanning loop that
    ended normally, and when the data file of the task exists, loading the
    task again gives [bf = nframes], the value at which [check_cases]
    removes a task. *)
Theorem finished_task_is_done (r r' : restaurant) (s s0 s' : state)
    (k : string) (a : recipe) (K : Z)
    folder base name datatype (on0 debug0 : bool)
    (lc : Z -> Time -> callable) (plc : callable) :
  fst (recipe_init folder base name datatype on0 debug0 lc plc s0) = Ok a ->
  d (the_menu r) !! k = Some a ->
  (bf a = Some K /\ 0 < K) \/ (bf a = None /\ K = 0) ->
  leave_alone (d (the_menu r)) (chkpt a) ->
  e r = None ->
  nframes r = Z.of_nat (length (trajectory r)) ->
  slice_bound (nframes r) (b r) 0 <= K < nframes r ->
  serve_loop (r, s) = (Ok tt, (r', s')) ->
  is_Some (files (w s') !! data a) ->
  fst (checkpoint_frame folder base name datatype s') =
    Ok (Some (nframes r), None, true).
Proof.
  intros Hinit Ha HK Hq He Hn Hin Hrun [dtxt Hd].
  destruct (recipe_init_fields _ _ _ _ _ _ _ _ _ _ Hinit) as (Hck & Hdata & _).
  assert (Hpos : 0 <= slice_bound (nframes r) (b r) 0).
  { apply slice_bound_nonneg; lia. }
  assert (Hlen : slice_bound (nframes r) (b r) 0 +
                 Z.of_nat (length (trajectory_slice (trajectory r) (b r) (e r))) =
                 nframes r).
  { unfold trajectory_slice. rewrite He, length_take, length_drop, length_imap.
    cbn [slice_bound]. rewrite <- Hn. lia. }
  pose proof (final_checkpoint_file r r' s s' k a K Ha HK Hq) as Hfile.
  cbv zeta in Hfile. rewrite <- Hn, Hlen in Hfile.
  specialize (Hfile Hin Hrun).
  rewrite load_outcome, <- Hdata, Hd, <- Hck, Hfile, parse_checkpoint_str.
  now replace (nframes r - 1 + 1) with (nframes r) by lia.
Qed.

End ScanProperties.

Section RecipesProperties.

Context {Time Ext Universe Atoms Float : Type}.
Variable select_atoms : Universe -> string -> outcome Atoms.
Variable alignto :
  Atoms -> Atoms -> string -> bool -> Ext -> outcome (Float * Float) * Ext.
Variable first_position : Atoms -> Ext -> string.
Variable fmt : Float -> string.
Variable fmt_time : Time -> string.

Abbreviation state := (@state Ext).
Abbreviation world := (@world Ext).
Abbreviation recipe := (@recipe Time Ext).

(** *** The two files of a task *)

Lemma no_checkpoints_prefix (n : nat) : forall base t1 t2 : string,
  (String.length base <= n)%nat ->
  base +:+ "." +:+ t1 <> "checkpoints/" +:+ base +:+ "." +:+ t2.
Proof.
  induction n as [| n IH]; intros base t1 t2 Hlen H.
  - destruct base; [| cbn [String.length] in Hlen; lia].
    rewrite !app_cons, !app_empty in H. discriminate.
  - rewrite !app_cons, !app_empty in H.
    do 12 (destruct base as [| c base];
           [rewrite ?app_cons, ?app_empty in H; discriminate
           | rewrite app_cons in H; injection H as -> H]).
    rewrite !app_cons in H.
    apply (IH base t1 t2); [cbn [String.length] in Hlen; lia |].
    rewrite !app_cons, !app_empty. exact H.
Qed.

Lemma data_path_neq_cpt_path folder base name datatype :
  data_path folder base name datatype <> cpt_path folder base name.
Proof.
  unfold data_path, cpt_path. intros H. apply append_inj_l in H.
  rewrite !app_cons, !app_empty in H. injection H as H.
  exact (no_checkpoints_prefix (String.length base) base _ _ (le_n _) H).
Qed.

(** X20.  The data file of a task is never its checkpoint file, whatever the
    folder, the names and the data type are: a commit cannot overwrite the
    data of its own task. *)
Theorem data_is_not_checkpoint folder base name datatype :
  data_path folder base name datatype <> cpt_path folder base name.
Proof. exact (data_path_neq_cpt_path folder base name datatype). Qed.

(** *** rmsd_vs_time *)

Lemma append_assoc (s t u : string) : (s +:+ t) +:+ u = s +:+ t +:+ u.
Proof.
  induction s as [| c s IH]; [reflexivity |].
  rewrite !app_cons. now rewrite IH.
Qed.

Lemma rmsd_loopcode_run (dbg : bool) (dat sel : string) (ko : bool)
    (ref mob : Atoms) (fr : Z) (tm : Time) (x : world) :
  rmsd_loopcode alignto first_position fmt fmt_time dbg dat sel ko ref mob
    fr tm x =
  let before := "Before RMSD:  " +:+ first_position mob (ext x) in
  match alignto mob ref sel ko (ext x) with
  | (Ok (old, new), e1) =>
      (Ok tt,
       World (<[dat := default "" (files x !! dat) +:+
                       rmsd_row fmt fmt_time fr tm old new]> (files x))
             (dirs x)
             (console x ++
              if dbg
              then [before; "After RMSD:   " +:+ first_position mob e1;
                    Py.str fr +:+ " " +:+ fmt old +:+ " " +:+ fmt new]
              else [])
             e1)
  | (Raise err, e1) =>
      (Raise err,
       World (files x) (dirs x) (console x ++ if dbg then [before] else []) e1)
  end.
Proof.
  unfold rmsd_loopcode, rmsd_row, open_append, tell, set_ext, set_console,
    set_files.
  destruct dbg; cbn [ext files dirs console fold_left];
    destruct (alignto mob ref sel ko (ext x)) as [[[old new] | err] e1];
    cbn [ext files dirs console]; rewrite ?app_nil_r, <- ?app_assoc;
    try (destruct x; reflexivity);
    rewrite !append_assoc; reflexivity.
Qed.

Lemma rmsd_init_fields (ref mob : Universe) (nframes : Z)
    folder base name datatype (ko : bool) (sel : string) (dbg : bool)
    (s : state) (a : recipe) :
  fst (rmsd_init select_atoms alignto first_position fmt fmt_time
         ref mob nframes folder base name datatype ko sel dbg s) = Ok a ->
  exists ra ma,
    select_atoms ref sel = Ok ra /\ select_atoms mob sel = Ok ma /\
    chkpt a = cpt_path folder base name /\
    data a = data_path folder base name datatype /\
    on a = false /\
    loopcode a =
      rmsd_loopcode alignto first_position fmt fmt_time dbg
        (data_path folder base name datatype) sel ko ra ma /\
    fst (checkpoint_frame folder base name datatype
           (say ("==== " +:+ base +:+ " " +:+ name +:+ " ====") s)) =
      Ok (bf a, ef a, fex a).
Proof.
  unfold rmsd_init.
  erewrite bind_ok by reflexivity.
  set (s1 := say _ s).
  pose proof (recipe_init_outcome folder base name datatype false dbg
                (@rmsd_unbound Time Ext) rmsd_postloopcode s1) as Hout.
  destruct (recipe_init folder base name datatype false dbg
              rmsd_unbound rmsd_postloopcode s1) as [[self | err] s2] eqn:Hinit;
    [| rewrite (bind_raise _ _ _ _ _ Hinit); discriminate].
  rewrite (bind_ok _ _ _ _ _ Hinit).
  cbn [fst] in Hout.
  destruct (fst (checkpoint_frame folder base name datatype s1))
    as [[[bf0 ef0] fex0] | err]; [| discriminate].
  injection Hout as ->.
  destruct (select_atoms ref sel) as [ra | err]; [| discriminate].
  destruct (select_atoms mob sel) as [ma | err]; [| discriminate].
  intros H. cbn in H. injection H as <-.
  exists ra, ma. cbn. auto 10.
Qed.

(** X21.  One row for one unit.  When the alignment of a frame returns,
    the unit of an [rmsd_vs_time] task ends normally; the data file then
    holds what it held before (nothing when it did not exist) followed by
    the one row of the frame, the checkpoint file holds the frame, and no
    other file has changed. *)
Theorem rmsd_unit_appends_row (a : recipe) (dbg : bool) (sel : string)
    (ko : bool) (ref mob : Atoms) (fr : Z) (tm : Time) (s : state)
    (old new : Float) :
  fst (alignto mob ref sel ko (ext (w s))) = Ok (old, new) ->
  let run := runinloop a fr tm
               (rmsd_loopcode alignto first_position fmt fmt_time dbg
                  (data a) sel ko ref mob) s in
  fst run = Ok tt /\
  files (w (snd run)) =
    <[chkpt a := Py.str fr]>
      (<[data a := default "" (files (w s) !! data a) +:+
                   rmsd_row fmt fmt_time fr tm old new]> (files (w s))).
Proof.
  intros Hal run. subst run. rewrite runinloop_run.
  rewrite rmsd_loopcode_run. cbv zeta.
  destruct (alignto mob ref sel ko (ext (w s))) as [[[old' new'] | err] e1];
    [| discriminate].
  cbn [fst] in Hal. injection Hal as -> ->.
  split; reflexivity.
Qed.

(** X22.  A unit of an [rmsd_vs_time] task can always be resumed from.
    After a unit at frame [fr] that ended normally, loading the task again
    gives [bf = fr + 1] and [fex = True], whether or not the data file
    existed before: the row the unit wrote has made it. *)
Theorem rmsd_unit_resumable (ref mob : Universe) (nframes : Z)
    folder base name datatype (ko : bool) (sel : string) (dbg : bool)
    (s0 s : state) (a : recipe) (fr : Z) (tm : Time) :
  fst (rmsd_init select_atoms alignto first_position fmt fmt_time
         ref mob nframes folder base name datatype ko sel dbg s0) = Ok a ->
  let run := runinloop a fr tm (loopcode a) s in
  fst run = Ok tt ->
  fst (checkpoint_frame folder base name datatype (snd run)) =
    Ok (Some (fr + 1), None, true).
Proof.
  intros Hinit run Hok. subst run.
  destruct (rmsd_init_fields _ _ _ _ _ _ _ _ _ _ _ _ Hinit)
    as (ra & ma & _ & _ & Hck & Hdata & _ & Hlc & _).
  rewrite runinloop_run, Hlc in *.
  rewrite rmsd_loopcode_run in *. cbv zeta in *.
  destruct (alignto ma ra sel ko (ext (w s))) as [[[old new] | err] e1];
    [| discriminate].
  rewrite load_outcome. cbn [snd w files set_files].
  rewrite Hck.
  rewrite lookup_insert_ne by (apply not_eq_sym, data_path_neq_cpt_path).
  rewrite lookup_insert_eq, lookup_insert_eq.
  now rewrite parse_checkpoint_str.
Qed.

(** *** The data file over a pass *)

Abbreviation rows := (rmsd_rows fmt fmt_time).
Abbreviation content p s := (default "" (files (w s) !! p)).

Lemma append_empty_r (s : string) : s +:+ "" = s.
Proof.
  induction s as [| c s IH]; [reflexivity |]. rewrite app_cons. now rewrite IH.
Qed.

Lemma rmsd_rows_app (l1 l2 : list (timestep * (Float * Float))) :
  rows (l1 ++ l2) = rows l1 +:+ rows l2.
Proof.
  induction l1 as [| x l1 IH]; [reflexivity |].
  cbn [app rmsd_rows fold_right]. fold (rows (l1 ++ l2)). fold (rows l1).
  now rewrite IH, append_assoc.
Qed.

Section OneTask.

Variables (p : string) (k : string) (a : recipe).
Variables (dbg : bool) (sel : string) (ko : bool) (ra ma : Atoms).
Hypothesis Hlc :
  loopcode a =
  rmsd_loopcode alignto first_position fmt fmt_time dbg p sel ko ra ma.
Hypothesis Hck : chkpt a <> p.

Lemma serve_task_row (ts : timestep) (r r2 : restaurant) (s s2 : state) :
  serve_task ts (frame_key ts) (k, a) (r, s) = (Ok tt, (r2, s2)) ->
  let steps := if on (activate (frame_key ts) a) then [ts] else [] in
  exists vals, length vals = length steps /\
    content p s2 = content p s +:+ rows (zip steps vals).
Proof.
  unfold serve_task, turn_on, activate.
  assert (Hstep : forall a0 s3,
            chkpt a0 = chkpt a -> loopcode a0 = loopcode a ->
            runinloop a0 (frame ts) (time ts) (loopcode a0) s = (Ok tt, s3) ->
            exists vals, length vals = 1%nat /\
              content p s3 = content p s +:+ rows (zip [ts] vals)).
  { intros a0 s3 Hc Hl Hrun. rewrite runinloop_run, Hl, Hc, Hlc in Hrun.
    rewrite rmsd_loopcode_run in Hrun. cbv zeta in Hrun.
    destruct (alignto ma ra sel ko (ext (w s))) as [[[old new] | err] e1];
      [| discriminate Hrun].
    injection Hrun as <-. exists [(old, new)]. split; [reflexivity |].
    cbn [w files set_files zip zip_with rmsd_rows fold_right fst snd].
    rewrite lookup_insert_ne by exact Hck. rewrite lookup_insert_eq.
    cbn [default]. now rewrite append_empty_r. }
  destruct (Py.eq (bf a) (frame_key ts)).
  - erewrite bind_ok by reflexivity. cbn [on set_on].
    intros Hrun. unfold lift in Hrun. cbn [fst snd on_fst] in Hrun.
    destruct (runinloop _ _ _ _ s) as [o s3] eqn:E.
    injection Hrun as -> _ <-. now apply (Hstep _ _ eq_refl eq_refl E).
  - erewrite bind_ok by reflexivity. destruct (on a).
    + intros Hrun. unfold lift in Hrun. cbn [fst snd on_fst] in Hrun.
      destruct (runinloop _ _ _ _ s) as [o s3] eqn:E.
      injection Hrun as -> _ <-. now apply (Hstep _ _ eq_refl eq_refl E).
    + intros Hrun. injection Hrun as _ <-. exists []. split; [reflexivity |].
      cbn. now rewrite append_empty_r.
Qed.

Lemma serve_tasks_row (ts : timestep) (l : list (string * recipe)) :
  forall (r r' : restaurant) (s s' : state),
  NoDup l.*1 ->
  (forall a', (k, a') ∈ l -> a' = a) ->
  (forall k' a', (k', a') ∈ l -> k' <> k ->
     chkpt a' <> p /\
     forall fr tm x, files (snd (loopcode a' fr tm x)) !! p = files x !! p) ->
  for_each l (serve_task ts (frame_key ts)) (r, s) = (Ok tt, (r', s')) ->
  let steps := if bool_decide (k ∈ l.*1) && on (activate (frame_key ts) a)
               then [ts] else [] in
  exists vals, length vals = length steps /\
    content p s' = content p s +:+ rows (zip steps vals).
Proof.
  induction l as [| [k' a'] l IH]; intros r r' s s' Hnd Hown Hoth Hrun.
  - cbn [for_each] in Hrun. injection Hrun as _ <-.
    exists []. split; [reflexivity |]. cbn. now rewrite append_empty_r.
  - cbn [for_each] in Hrun. unfold bind in Hrun.
    destruct (serve_task ts (frame_key ts) (k', a') (r, s))
      as [[[] | err] [r2 s2]] eqn:Htask; [| discriminate Hrun].
    cbn [fmap list_fmap fst] in Hnd. apply NoDup_cons in Hnd as [Hnotin Hnd].
    specialize (IH r2 r' s2 s' Hnd
                  (fun a0 H => Hown a0 (list_elem_of_further _ _ _ H))
                  (fun k0 a0 H => Hoth k0 a0 (list_elem_of_further _ _ _ H))
                  Hrun).
    destruct IH as (vals & Hlen & Hcont).
    destruct (decide (k' = k)) as [-> | Hne].
    + assert (a' = a) as -> by (apply Hown; now left).
      apply serve_task_row in Htask as (v1 & Hl1 & Hc1).
      rewrite (bool_decide_eq_false_2 (k ∈ l.*1)) in Hlen, Hcont by exact Hnotin.
      cbn [andb length zip zip_with rmsd_rows fold_right] in Hlen, Hcont.
      rewrite append_empty_r in Hcont.
      exists v1. cbn [fmap list_fmap fst].
      rewrite bool_decide_eq_true_2 by now left. cbn [andb].
      split; [exact Hl1 |]. now rewrite Hcont.
    + destruct (Hoth k' a' ltac:(now left) Hne) as [Hc' Hq'].
      apply (serve_task_file p) in Htask; [| exact Hq'].
      unfold commits_to in Htask. cbn [snd] in Htask.
      rewrite (bool_decide_eq_false_2 _ Hc'), andb_false_r in Htask.
      exists vals. cbn [fmap list_fmap fst].
      assert (Hk : bool_decide (k ∈ k' :: l.*1) = bool_decide (k ∈ l.*1)).
      { apply bool_decide_ext. rewrite elem_of_cons.
        split; [intros [E | E]; [congruence | exact E] | now right]. }
      rewrite Hk. split; [exact Hlen |]. now rewrite Hcont, Htask.
Qed.

End OneTask.

Lemma activate_others (p k : string) (fr : option Z) (dm : gmap string recipe) :
  others_apart p k dm -> others_apart p k (activate fr <$> dm).
Proof.
  intros H k' a' Hk' Hne. rewrite lookup_fmap in Hk'.
  destruct (dm !! k') as [a0 |] eqn:E; [| discriminate].
  injection Hk' as <-. destruct (H k' a0 E Hne) as [Hc Hq].
  unfold activate. destruct (Py.eq _ _); cbn; auto.
Qed.

Lemma scan_rows (p k : string) (dbg : bool) (sel : string) (ko : bool)
    (ra ma : Atoms) (tss : list timestep) :
  forall (r r' : restaurant) (s s' : state) (a : recipe),
  loopcode a =
    rmsd_loopcode alignto first_position fmt fmt_time dbg p sel ko ra ma ->
  chkpt a <> p ->
  d (the_menu r) !! k = Some a ->
  others_apart p k (d (the_menu r)) ->
  for_each tss serve_step (r, s) = (Ok tt, (r', s')) ->
  let steps := if on a then tss else from_resume (bf a) tss in
  exists vals, length vals = length steps /\
    content p s' = content p s +:+ rows (zip steps vals).
Proof.
  induction tss as [| ts tss IH]; intros r r' s s' a Hlc Hck Ha Hoth Hrun.
  - cbn [for_each] in Hrun. injection Hrun as _ <-.
    exists []. split; [now destruct (on a) |].
    destruct (on a); cbn; now rewrite append_empty_r.
  - cbn [for_each] in Hrun. unfold bind in Hrun.
    destruct (serve_step ts (r, s)) as [[[] | err] [r1 s1]] eqn:Hstep;
      [| discriminate Hrun].
    pose proof (serve_step_spec _ _ _ _ _ Hstep) as (Hd & _).
    unfold serve_step, values in Hstep.
    erewrite bind_ok in Hstep by reflexivity. cbn [fst] in Hstep.
    apply (serve_tasks_row p k a dbg sel ko ra ma Hlc Hck) in Hstep.
    + destruct Hstep as (v1 & Hl1 & Hc1).
      assert (Hin : bool_decide (k ∈ (map_to_list (d (the_menu r))).*1) = true).
      { apply bool_decide_eq_true_2, list_elem_of_fmap. exists (k, a).
        split; [reflexivity |]. now apply elem_of_map_to_list. }
      rewrite Hin in Hl1, Hc1. cbn [andb] in Hl1, Hc1.
      assert (Hlc1 : loopcode (activate (frame_key ts) a) =
                     rmsd_loopcode alignto first_position fmt fmt_time dbg p
                       sel ko ra ma).
      { unfold activate. now destruct (Py.eq _ _). }
      destruct (activate_fields (frame_key ts) a) as (Hbf1 & Hck1 & Hon1).
      destruct (IH r1 r' s1 s' (activate (frame_key ts) a) Hlc1
                  ltac:(now rewrite Hck1)
                  ltac:(now rewrite Hd, lookup_fmap, Ha)
                  ltac:(rewrite Hd; now apply activate_others) Hrun)
        as (v2 & Hl2 & Hc2).
      rewrite Hbf1 in Hl2, Hc2. rewrite Hon1 in *.
      exists (v1 ++ v2). cbn [from_resume].
      destruct (on a); cbn [orb] in *.
      * split; [rewrite length_app, Hl1, Hl2; reflexivity |].
        rewrite Hc2, Hc1, append_assoc.
        destruct v1 as [| x [| y v1]]; try discriminate Hl1.
        change (zip (ts :: tss) ([x] ++ v2)) with (zip [ts] [x] ++ zip tss v2).
        now rewrite rmsd_rows_app.
      * destruct (Py.eq (bf a) (frame_key ts)).
        -- split; [rewrite length_app, Hl1, Hl2; reflexivity |].
           rewrite Hc2, Hc1, append_assoc.
           destruct v1 as [| x [| y v1]]; try discriminate Hl1.
        change (zip (ts :: tss) ([x] ++ v2)) with (zip [ts] [x] ++ zip tss v2).
        now rewrite rmsd_rows_app.
        -- destruct v1; [| discriminate Hl1]. cbn [app].
           split; [exact Hl2 |]. rewrite Hc2, Hc1. cbn.
           now rewrite append_empty_r.
    + apply NoDup_fst_map_to_list.
    + intros a' Hin. apply elem_of_map_to_list in Hin. congruence.
    + intros k' a' Hin. apply elem_of_map_to_list in Hin. now apply Hoth.
Qed.

(** X23.  The rows of a pass.  Let a task made by [rmsd_vs_time.__init__] be
    in the menu, and let no other entry of the menu commit to its data file
    or change it.  After a scanning loop that ended normally the data file
    holds what it held before, followed by one row for each step of
    [trajectory[b:e]] from the one that matches [bf] on, in that order, and
    nothing else: no frame is written twice and none is left out. *)
Theorem rmsd_rows_after_pass (ref mob : Universe) (nframes : Z)
    folder base name datatype (ko : bool) (sel : string) (dbg : bool)
    (s0 s s' : state) (r r' : restaurant) (k : string) (a : recipe) :
  fst (rmsd_init select_atoms alignto first_position fmt fmt_time
         ref mob nframes folder base name datatype ko sel dbg s0) = Ok a ->
  d (the_menu r) !! k = Some a ->
  others_apart (data a) k (d (the_menu r)) ->
  serve_loop (r, s) = (Ok tt, (r', s')) ->
  let steps :=
    from_resume (bf a) (trajectory_slice (trajectory r) (b r) (e r)) in
  exists vals : list (Float * Float),
    length vals = length steps /\
    default "" (files (w s') !! data a) =
    default "" (files (w s) !! data a) +:+ rows (zip steps vals).
Proof.
  intros Hinit Ha Hoth Hrun.
  destruct (rmsd_init_fields _ _ _ _ _ _ _ _ _ _ _ _ Hinit)
    as (ra & ma & _ & _ & Hck & Hdata & Hon & Hlc & _).
  apply serve_loop_inv in Hrun as (s1 & Hrun & _ & Hf). rewrite Hf.
  rewrite <- Hdata in Hlc.
  assert (Hne : chkpt a <> data a).
  { rewrite Hck, Hdata. apply not_eq_sym, data_path_neq_cpt_path. }
  pose proof (scan_rows (data a) k dbg sel ko ra ma _ r r' s s1 a Hlc Hne Ha
                Hoth Hrun) as H.
  cbv zeta in H. now rewrite Hon in H.
Qed.

End RecipesProperties.

Section ReportProperties.

Context {Time Ext : Type}.

Abbreviation state := (@state Ext).
Abbreviation recipe := (@recipe Time Ext).
Abbreviation menu := (@menu Time Ext).
Abbreviation restaurant := (@restaurant Time Ext).

(** *** list_show *)

Lemma show_names_run (names : list string) : forall (i : Z) (s : state),
  show_names i names s =
  (Ok tt,
   said (imap (fun j name =>
                 "(" +:+ Py.str (i + Z.of_nat j + 1) +:+ "): Analysis Name: " +:+
                 name) names) s).
Proof.
  induction names as [| name r IH]; intros i s; cbn [show_names imap].
  - reflexivity.
  - erewrite bind_ok by reflexivity. rewrite IH.
    erewrite (imap_ext _ (_ ∘ S) r).
    + unfold said. cbn [fold_left Z.of_nat]. now rewrite Z.add_0_r.
    + intros j name' _. cbn [compose].
      now replace (i + 1 + Z.of_nat j + 1) with (i + Z.of_nat (S j) + 1) by lia.
Qed.

(** X24.  [list_show] always returns and leaves the menu as it is.  It
    prints its heading, one line for each name in iteration order, numbered
    from 1, and an empty line; files, directories, analysis memory and
    trace are left as they were. *)
Theorem list_show_report (m : menu) (s : state) :
  let run := list_show (m, s) in
  fst run = Ok tt /\
  fst (snd run) = m /\
  console (w (snd (snd run))) =
    console (w s) ++
    [ "==============================================";
      "List of Analyses";
      "==============================================" ] ++
    imap (fun j name =>
            "(" +:+ Py.str (Z.of_nat j + 1) +:+ "): Analysis Name: " +:+ name)
         (map_to_list (d m)).*1 ++ [ "" ] /\
  files (w (snd (snd run))) = files (w s) /\
  dirs (w (snd (snd run))) = dirs (w s) /\
  ext (w (snd (snd run))) = ext (w s) /\
  trace (snd (snd run)) = trace s.
Proof.
  cbv zeta. unfold list_show.
  do 3 (erewrite bind_ok by apply lift_print).
  erewrite bind_ok by reflexivity. cbn [fst].
  erewrite bind_ok by (apply lift_run, show_names_run).
  rewrite lift_print. cbn [fst snd].
  match goal with |- context [say "" (said ?l ?s0)] =>
    change (say "" (said l s0)) with (said [""] (said l s0));
    rewrite <- said_app;
    change s0 with (said ["=============================================="; "List of Analyses"; "=============================================="] s);
    rewrite <- said_app
  end.
  match goal with |- context [said ?l s] =>
    destruct (said_spec l s) as (Hc & Hf & Hd & He & Ht)
  end.
  repeat split; assumption.
Qed.

(** *** A [postloopcode] that raises *)

Lemma runafterloop_raises (a : recipe) (f : callable) (s : state) (err : exn) :
  (forall x, fst (f x) = Raise err) ->
  exists s',
    runafterloop a (Some f) s = (Raise err, s') /\
    trace s' = trace s ++ [EvFinal (chkpt a)].
Proof.
  intros Hf. unfold runafterloop. destruct s as [x0 t]. mrun.
  specialize (Hf x0). destruct (f x0) as [o x]. cbn [fst] in Hf. subst o.
  eexists. split; reflexivity.
Qed.

(** X25.  A failure after the loop.  When the checks and the scanning loop
    of [serve] have ended normally and the [postloopcode] of a task raises,
    those of the tasks before it in iteration order having returned,
    [serve] raises the same exception: [runafterloop] has been called for
    the tasks before it and for the task itself, and for none of the tasks
    after it. *)
Theorem failed_postloopcode_stops_serve (r r1 : restaurant) (s s1 : state)
    (l1 l2 : list (string * recipe)) (k : string) (a : recipe) (err : exn) :
  (serve_checks ;;; serve_loop) (r, s) = (Ok tt, (r1, s1)) ->
  map_to_list (d (the_menu r1)) = l1 ++ (k, a) :: l2 ->
  (forall ka x, ka ∈ l1 -> fst (postloopcode (snd ka) x) = Ok tt) ->
  (forall x, fst (postloopcode a x) = Raise err) ->
  exists s2,
    serve (r, s) = (Raise err, (r1, s2)) /\
    trace s2 =
      trace s1 ++ ((EvFinal ∘ chkpt ∘ snd) <$> l1) ++ [EvFinal (chkpt a)].
Proof.
  intros Hpass Hsplit Hok Hbad.
  destruct (serve_after_spec l1 r1 s1 Hok) as (s' & Hfirst & Ht).
  destruct (runafterloop_raises a (postloopcode a) s' err Hbad)
    as (s2 & Hrun & Ht2).
  exists s2. split.
  - unfold serve. rewrite <- bind_assoc.
    erewrite bind_ok by exact Hpass.
    unfold serve_after, values. erewrite bind_ok by reflexivity.
    cbn [fst]. rewrite Hsplit, for_each_app.
    erewrite bind_ok by exact Hfirst.
    cbn [for_each]. erewrite bind_raise; [reflexivity |].
    cbn [snd]. apply lift_run, Hrun.
  - rewrite Ht2, Ht, <- app_assoc. reflexivity.
Qed.

End ReportProperties.

Section HookProperties.

Context {Time Ext : Type}.

Abbreviation state := (@state Ext).
Abbreviation world := (@world Ext).
Abbreviation recipe := (@recipe Time Ext).
Abbreviation menu := (@menu Time Ext).
Abbreviation restaurant := (@restaurant Time Ext).

(** *** Computations that do not look at the hooks *)

Section Blind.

Context {X : Type} (phi : X -> X).

Lemma blind_ret {A} (rho : A -> A) (a : A) :
  blind (Ext := Ext) phi rho (ret a) (ret (rho a)).
Proof. intros x s. reflexivity. Qed.

Lemma blind_raise {A} (rho : A -> A) (err : exn) :
  blind (Ext := Ext) phi rho (raise err) (raise err).
Proof. intros x s. reflexivity. Qed.

Lemma blind_bind {A B} (rho : A -> A) (rho' : B -> B)
    (m m' : M (X * state) A) (k k' : A -> M (X * state) B) :
  blind (Ext := Ext) phi rho m m' ->
  (forall a, blind (Ext := Ext) phi rho' (k a) (k' (rho a))) ->
  blind (Ext := Ext) phi rho' (bind m k) (bind m' k').
Proof.
  intros Hm Hk x s. unfold bind. rewrite Hm.
  destruct (m (x, s)) as [[a | err] [x' s']]; cbn [map_outcome].
  - apply Hk.
  - reflexivity.
Qed.

Lemma blind_lift {A} (m : M state A) : blind (Ext := Ext) phi id (lift m) (lift m).
Proof.
  intros x s. unfold lift. cbn [fst snd].
  destruct (m s) as [[a | err] s']; reflexivity.
Qed.

Lemma blind_gets {A} (rho : A -> A) (f : X * state -> A) :
  (forall x s, f (phi x, s) = rho (f (x, s))) ->
  blind (Ext := Ext) phi rho (gets f) (gets f).
Proof. intros H x s. unfold gets. now rewrite H. Qed.

Lemma blind_modify (f f' : X * state -> X * state) :
  (forall x s, f' (phi x, s) = (phi (fst (f (x, s))), snd (f (x, s)))) ->
  blind (Ext := Ext) phi id (modify f) (modify f').
Proof.
  intros H x s. unfold modify. rewrite H.
  now destruct (f (x, s)) as [x' s'].
Qed.

Lemma blind_on_fst (f : X -> X) :
  (forall x, f (phi x) = phi (f x)) ->
  blind (Ext := Ext) phi id (modify (on_fst f)) (modify (on_fst f)).
Proof.
  intros H. apply blind_modify. intros x s. unfold on_fst. cbn [fst snd].
  now rewrite H.
Qed.

Lemma blind_for_each {Y} (sigma : Y -> Y) (body body' : Y -> M (X * state) unit)
    (l : list Y) :
  (forall y, blind (Ext := Ext) phi id (body y) (body' (sigma y))) ->
  blind (Ext := Ext) phi id (for_each l body) (for_each (sigma <$> l) body').
Proof.
  intros Hb. induction l as [| y l IH]; cbn [for_each fmap list_fmap].
  - apply (blind_ret id).
  - eapply blind_bind; [apply Hb | intros _; exact IH].
Qed.

Lemma blind_for_each_same {Y} (body : Y -> M (X * state) unit) (l : list Y) :
  (forall y, blind (Ext := Ext) phi id (body y) (body y)) ->
  blind (Ext := Ext) phi id (for_each l body) (for_each l body).
Proof.
  intros Hb. rewrite <- (list_fmap_id l) at 2.
  now apply blind_for_each.
Qed.

End Blind.

Section Unused.

Variable g : @callable Ext.

Abbreviation hm := (rehook_menu (Time := Time) g).
Abbreviation hr := (rehook (Time := Time) g).

(** **** The menu *)

Lemma rehook_keys (dm : gmap string recipe) :
  (map_to_list (with_hook g <$> dm)).*1 = (map_to_list dm).*1.
Proof.
  rewrite map_to_list_fmap, <- list_fmap_compose.
  apply list_fmap_ext. now intros i [k a] _.
Qed.

Lemma blind_keys : blind hm id keys keys.
Proof.
  apply blind_gets. intros m s. cbn [fst rehook_menu set_d d].
  apply rehook_keys.
Qed.

Lemma blind_len_d : blind hm id len_d len_d.
Proof.
  apply blind_gets. intros m s. cbn [fst rehook_menu set_d d].
  now rewrite map_size_fmap.
Qed.

Lemma blind_getitem (i : string) :
  blind hm (with_hook g) (getitem i) (getitem i).
Proof.
  intros m s. unfold getitem, bind, gets. cbn [fst rehook_menu set_d d].
  rewrite lookup_fmap. now destruct (d m !! i).
Qed.

Lemma blind_remove (i : string) : blind hm id (remove i) (remove i).
Proof.
  intros m s. unfold remove, bind, gets, modify, on_fst.
  cbn [fst snd rehook_menu set_d d min_bf].
  rewrite lookup_fmap. destruct (d m !! i) as [a |]; [| reflexivity].
  change (with_hook g <$> Some a) with (Some (with_hook g a)).
  cbv beta iota. cbn [map_outcome fst snd id].
  unfold rehook_menu, set_d. cbn [d min_bf]. now rewrite fmap_delete.
Qed.

Ltac blind_step :=
  eapply blind_bind;
  [first [apply blind_lift | apply blind_keys | apply blind_len_d
         | apply blind_getitem] |].

Lemma blind_list_show : blind hm id list_show list_show.
Proof.
  unfold list_show.
  do 3 (blind_step; intros _).
  blind_step. intros names.
  blind_step. intros _.
  apply blind_lift.
Qed.

Lemma blind_check_loop (nframes : Z) (names : list string) :
  forall del : list string,
  blind hm id (check_loop nframes names del) (check_loop nframes names del).
Proof.
  induction names as [| name r IH]; intros del; cbn [check_loop].
  - apply (blind_ret _ id).
  - blind_step. intros a. cbn [with_hook bf].
    destruct (Py.ge (bf a) (Some nframes)); [| apply IH].
    do 2 (blind_step; intros _). apply IH.
Qed.

Lemma blind_check_cases (nframes : Z) :
  blind hm id (check_cases nframes) (check_cases nframes).
Proof.
  unfold check_cases.
  do 3 (blind_step; intros _).
  blind_step. intros names.
  eapply blind_bind; [apply blind_check_loop | intros del].
  eapply blind_bind.
  { change (id del) with del. destruct (0 <? Z.of_nat (length del)).
    - apply blind_for_each_same. intros i. apply blind_remove.
    - apply (blind_ret _ id). }
  intros _. blind_step. intros _. blind_step. intros n.
  change (id n) with n. destruct (n =? 0).
  - apply blind_raise.
  - apply (blind_ret _ id).
Qed.

Lemma blind_bf_loop (names : list string) :
  forall l : list (option Z),
  blind hm id (bf_loop names l) (bf_loop names l).
Proof.
  induction names as [| name r IH]; intros l; cbn [bf_loop].
  - apply (blind_ret _ id).
  - blind_step. intros a. cbn [with_hook bf]. apply IH.
Qed.

Lemma rehook_set_min_bf (v : option Z) (m : menu) :
  set_min_bf v (rehook_menu g m) = rehook_menu g (set_min_bf v m).
Proof. reflexivity. Qed.

Lemma blind_min_beg_frame : blind hm id min_beg_frame min_beg_frame.
Proof.
  unfold min_beg_frame.
  blind_step. intros n. change (id n) with n.
  destruct (0 <? n); [| apply (blind_ret _ id)].
  eapply blind_bind; [apply blind_on_fst, rehook_set_min_bf | intros _].
  blind_step. intros names.
  eapply blind_bind; [apply blind_bf_loop | intros l].
  change (id l) with l.
  eapply blind_bind.
  { destruct (Py.min l) as [mn | err]; cbn [of_outcome].
    - apply (blind_ret _ id).
    - apply blind_raise. }
  intros mn.
  eapply blind_bind; [apply blind_on_fst, rehook_set_min_bf | intros _].
  apply (blind_ret _ id).
Qed.

(** **** The restaurant *)

Lemma blind_in_menu {A} (rho : A -> A) (m m' : M (menu * state) A) :
  blind hm rho m m' -> blind hr rho (in_menu m) (in_menu m').
Proof.
  intros H r s. unfold in_menu. cbn [fst snd rehook set_menu the_menu].
  rewrite H. now destruct (m (the_menu r, s)) as [o [mn s']].
Qed.

Lemma blind_serve_checks : blind hr id serve_checks serve_checks.
Proof.
  unfold serve_checks.
  eapply blind_bind; [apply blind_in_menu, blind_list_show | intros _].
  eapply blind_bind; [apply (blind_gets _ id); reflexivity | intros n].
  eapply blind_bind; [apply blind_in_menu, blind_check_cases | intros _].
  eapply blind_bind; [apply blind_in_menu, blind_list_show | intros _].
  eapply blind_bind; [apply blind_in_menu, blind_min_beg_frame | intros res].
  change (id res) with res.
  destruct res as [[mn l] | msg]; [| apply blind_raise].
  eapply blind_bind; [apply blind_on_fst; reflexivity | intros _].
  do 4 (eapply blind_bind; [apply blind_lift | intros _]).
  eapply blind_bind; [apply (blind_gets _ id); reflexivity | intros en].
  apply blind_lift.
Qed.

Lemma blind_turn_on (key : string) (a : recipe) :
  blind hr id (turn_on key a) (turn_on key (with_hook g a)).
Proof.
  apply blind_modify. intros r s.
  unfold on_fst, rehook, rehook_menu, set_menu, set_d.
  cbn [fst snd the_menu d min_bf trajectory nframes b e bf_list].
  now rewrite fmap_insert.
Qed.

Lemma blind_serve_task (ts : timestep) (fr : option Z) (ka : string * recipe) :
  blind hr id (serve_task ts fr ka)
    (serve_task ts fr (prod_map id (with_hook g) ka)).
Proof.
  destruct ka as [key a]. unfold serve_task, prod_map. cbn [fst snd id].
  cbn [with_hook bf].
  destruct (Py.eq (bf a) fr).
  - eapply blind_bind; [apply blind_turn_on | intros _].
    cbn [set_on with_hook on]. apply blind_lift.
  - eapply blind_bind; [apply (blind_ret _ id) | intros _].
    cbn [with_hook on]. destruct (on a); [| apply (blind_ret _ id)].
    apply blind_lift.
Qed.

Lemma blind_serve_step (ts : timestep) :
  blind hr id (serve_step ts) (serve_step ts).
Proof.
  unfold serve_step, values.
  eapply blind_bind.
  - apply (blind_gets _ (fmap (prod_map id (with_hook g)))).
    intros r s. cbn [fst rehook rehook_menu set_menu set_d the_menu d].
    apply map_to_list_fmap.
  - intros entries. apply blind_for_each. intros ka. apply blind_serve_task.
Qed.

Lemma blind_serve_loop : blind hr id serve_loop serve_loop.
Proof.
  unfold serve_loop.
  eapply blind_bind.
  - apply (blind_gets _ hr). reflexivity.
  - intros r. cbn [rehook set_menu trajectory b e].
    eapply blind_bind; [| intros _; apply blind_lift].
    apply blind_for_each_same. intros ts. apply blind_serve_step.
Qed.

Lemma hooks_unused (r r1 : restaurant) (s s1 : state) :
  (serve_checks ;;; serve_loop) (r, s) = (Ok tt, (r1, s1)) ->
  (serve_checks ;;; serve_loop) (rehook g r, s) = (Ok tt, (rehook g r1, s1)).
Proof.
  intros Hpass.
  assert (H : blind hr id (@serve_checks Time Ext ;;; serve_loop)
                (serve_checks ;;; serve_loop)).
  { eapply blind_bind; [apply blind_serve_checks | intros _].
    apply blind_serve_loop. }
  rewrite (H r s), Hpass. reflexivity.
Qed.

End Unused.

(** *** The hooks after the loop *)

Lemma runafterloop_world (k : string) (a : recipe) (s : state) :
  (forall x, fst (postloopcode a x) = Ok tt) ->
  runafterloop a (Some (postloopcode a)) s =
  (Ok tt, State (finalized (w s) (k, a)) (trace s ++ [EvFinal (chkpt a)])).
Proof.
  intros Hf. unfold runafterloop, finalized. destruct s as [x0 t]. mrun.
  specialize (Hf x0). destruct (postloopcode a x0) as [o x]. cbn [fst] in Hf.
  subst o. reflexivity.
Qed.

Lemma serve_after_world (l : list (string * recipe)) :
  forall (r : restaurant) (s : state),
  (forall ka x, ka ∈ l -> fst (postloopcode (snd ka) x) = Ok tt) ->
  for_each l (fun ka =>
    lift (runafterloop (snd ka) (Some (postloopcode (snd ka))))) (r, s) =
  (Ok tt,
   (r, State (fold_left finalized l (w s))
             (trace s ++ ((EvFinal ∘ chkpt ∘ snd) <$> l)))).
Proof.
  induction l as [| [k a] l IH]; intros r s Hok; cbn [for_each].
  - destruct s as [x t]. cbn. now rewrite app_nil_r.
  - erewrite bind_ok.
    2:{ apply lift_run. cbn [snd]. apply (runafterloop_world k a s).
        intros x. apply (Hok (k, a)). now left. }
    rewrite IH by (intros; apply Hok; now right).
    cbn [fold_left w trace fmap list_fmap compose snd].
    now rewrite <- app_assoc.
Qed.

(** C9 (finalization).  When the checks and the scanning loop of [serve]
    have ended normally and no [postloopcode] raises, [serve] ends
    normally, and what it does after the loop is to call the
    [postloopcode] of every task of the menu once, in iteration order,
    each on the world the one before left, and to print its [Done] line:
    the final world is the world at the end of the loop taken through
    [finalized] for the entries in turn, and the trace grows by one
    [runafterloop] for each of them.  Before that no hook is called: the
    checks and the loop enter no [runafterloop], and they give the same
    state whatever the hooks of the menu are. *)
Theorem finalization (r r1 : restaurant) (s s1 : state) :
  (serve_checks ;;; serve_loop) (r, s) = (Ok tt, (r1, s1)) ->
  (forall k a x, d (the_menu r1) !! k = Some a ->
                 fst (postloopcode a x) = Ok tt) ->
  exists s2,
    serve (r, s) = (Ok tt, (r1, s2)) /\
    w s2 = fold_left finalized (map_to_list (d (the_menu r1))) (w s1) /\
    trace s2 =
      trace s1 ++ ((EvFinal ∘ chkpt ∘ snd) <$> map_to_list (d (the_menu r1))) /\
    finals (trace s1) = finals (trace s) /\
    (forall g : callable,
       (serve_checks ;;; serve_loop) (rehook g r, s) =
       (Ok tt, (rehook g r1, s1))).
Proof.
  intros Hpass Hok.
  pose proof (serve_after_world (map_to_list (d (the_menu r1))) r1 s1) as Hafter.
  eexists. split; [| split; [| split; [| split]]].
  - unfold serve. rewrite <- bind_assoc.
    erewrite bind_ok by exact Hpass.
    unfold serve_after, values. erewrite bind_ok by reflexivity.
    apply Hafter. intros [k a] x Hin. apply elem_of_map_to_list in Hin.
    eapply Hok, Hin.
  - reflexivity.
  - reflexivity.
  - assert (Hk : keeps fin2 (@serve_checks Time Ext ;;; serve_loop)).
    { apply keeps_bind; [apply keeps_serve_checks | intros _; apply keeps_serve_loop]. }
    specialize (Hk (r, s)). rewrite Hpass in Hk. exact Hk.
  - intros g. now apply hooks_unused.
Qed.

(** *** The range a load returns *)


End HookProperties.

(** ** The further properties on the small runs *)

Lemma load_needs_checkpoint_witness :
  files (w Sample.s0) !! data_path "out" "run" "B" "dat" = Some "rows of B" /\
  match fst (checkpoint_frame "out" "run" "B" "dat" Sample.s0) with
  | Ok (bf, ef, fex) =>
      exists txt n,
        files (w Sample.s0) !! cpt_path "out" "run" "B" = Some txt /\
        parse_checkpoint txt = Ok n /\
        bf = Some (n + 1) /\ ef = None /\ fex = true
  | Raise err =>
      (files (w Sample.s0) !! cpt_path "out" "run" "B" = None /\
       err = IOError (cpt_path "out" "run" "B")) \/
      (exists txt,
         files (w Sample.s0) !! cpt_path "out" "run" "B" = Some txt /\
         parse_checkpoint txt = Raise err /\
         (txt = EmptyString -> err = IndexError) /\
         (err = IndexError \/ exists what, err = ValueError what))
  end.
Proof.
  assert (H : files (w Sample.s0) !! data_path "out" "run" "B" "dat" =
              Some "rows of B") by (vm_compute; reflexivity).
  split; [exact H |].
  exact (load_needs_checkpoint "out" "run" "B" "dat" Sample.s0 "rows of B" H).
Defined.

Lemma load_reads_first_line_witness :
  let s := State (World (<[cpt_path "out" "run" "B" :=
                             Py.str 7 +:+ String "010" "left from before"]>
                           Sample.store) ∅ [] ([] : Sample.rows)) [] in
  files (w s) !! data_path "out" "run" "B" "dat" = Some "rows of B" /\
  files (w s) !! cpt_path "out" "run" "B" =
    Some (Py.str 7 +:+ String "010" "left from before") /\
  fst (checkpoint_frame "out" "run" "B" "dat" s) = Ok (Some (7 + 1), None, true).
Proof.
  intros s.
  assert (H1 : files (w s) !! data_path "out" "run" "B" "dat" = Some "rows of B")
    by (vm_compute; reflexivity).
  assert (H2 : files (w s) !! cpt_path "out" "run" "B" =
               Some (Py.str 7 +:+ String "010" "left from before"))
    by (vm_compute; reflexivity).
  split; [exact H1 |]. split; [exact H2 |].
  exact (load_reads_first_line "out" "run" "B" "dat" s "rows of B"
           "left from before" 7 H1 H2).
Defined.

Lemma last_commit_wins_witness :
  let p := cpt_path "out" "run" "B" in
  let s2 := snd (checkpoint_write 8 p (snd (checkpoint_write 3 p Sample.s0))) in
  is_Some (files (w s2) !! data_path "out" "run" "B" "dat") /\
  fst (checkpoint_frame "out" "run" "B" "dat" s2) = Ok (Some (8 + 1), None, true).
Proof.
  intros p s2.
  assert (H : is_Some (files (w s2) !! data_path "out" "run" "B" "dat"))
    by (exists "rows of B"; vm_compute; reflexivity).
  split; [exact H |].
  exact (last_commit_wins "out" "run" "B" "dat" 3 8 Sample.s0 H).
Defined.

Lemma load_ignores_other_commits_witness :
  let p := cpt_path "out" "run" "C" in
  p <> data_path "out" "run" "B" "dat" /\
  p <> cpt_path "out" "run" "B" /\
  fst (checkpoint_frame "out" "run" "B" "dat"
         (snd (checkpoint_write 9 p Sample.s0))) =
  fst (checkpoint_frame "out" "run" "B" "dat" Sample.s0).
Proof.
  intros p.
  assert (H1 : p <> data_path "out" "run" "B" "dat")
    by (vm_compute; discriminate).
  assert (H2 : p <> cpt_path "out" "run" "B") by (vm_compute; discriminate).
  split; [exact H1 |]. split; [exact H2 |].
  exact (load_ignores_other_commits "out" "run" "B" "dat" 9 p Sample.s0 H1 H2).
Defined.

Lemma paths_differ_by_name_witness :
  "A" <> "B" /\
  cpt_path "out" "run" "A" <> cpt_path "out" "run" "B" /\
  data_path "out" "run" "A" "dat" <> data_path "out" "run" "B" "dat".
Proof.
  assert (H : "A" <> "B") by discriminate.
  split; [exact H |].
  exact (paths_differ_by_name "out" "run" "A" "B" "dat" H).
Defined.

Lemma resume_after_unit_witness :
  let a := Sample.task "B" (Some 2) true in
  let init := recipe_init "out" "run" "B" "dat" false false
                (Sample.loopcode "B") Sample.postloopcode in
  let s1 := snd (runinloop a 2 20 (loopcode a) Sample.s0) in
  fst (init Sample.s0) = Ok a /\
  fst (Sample.loopcode "B" 2 20 (w Sample.s0)) = Ok tt /\
  is_Some (files (w s1) !! data a) /\
  exists a',
    fst (init s1) = Ok a' /\
    bf a' = Some (2 + 1) /\ ef a' = None /\ fex a' = true /\
    chkpt a' = chkpt a /\ data a' = data a.
Proof.
  intros a init s1.
  assert (H1 : fst (init Sample.s0) = Ok a) by (vm_compute; reflexivity).
  assert (H2 : fst (Sample.loopcode "B" 2 20 (w Sample.s0)) = Ok tt)
    by reflexivity.
  assert (H3 : is_Some (files (w s1) !! data a))
    by (exists "rows of B"; vm_compute; reflexivity).
  split; [exact H1 |]. split; [exact H2 |]. split; [exact H3 |].
  exact (resume_after_unit "out" "run" "B" "dat" false false
           (Sample.loopcode "B") Sample.postloopcode Sample.s0 Sample.s0 a 2 20
           H1 H2 H3).
Defined.

Lemma failed_unit_keeps_resume_point_witness :
  let a := Sample.task "B" (Some 2) true in
  let err := UserError "no atoms selected" in
  fst (Sample.failing 2 20 (w Sample.s0)) = Raise err /\
  fst (runinloop a 2 20 Sample.failing Sample.s0) = Raise err /\
  fst (checkpoint_frame "out" "run" "B" "dat"
         (snd (runinloop a 2 20 Sample.failing Sample.s0))) =
  fst (checkpoint_frame "out" "run" "B" "dat" Sample.s0).
Proof.
  intros a err.
  assert (H1 : fst (Sample.failing 2 20 (w Sample.s0)) = Raise err)
    by reflexivity.
  split; [exact H1 |].
  apply (failed_unit_keeps_resume_point "out" "run" "B" "dat" a 2 20
           Sample.failing Sample.s0 err H1).
  split; reflexivity.
Defined.

Lemma units_exactly_once_witness :
  let r := fst Sample.r_checked in
  let s := snd Sample.r_checked in
  let r' := fst Sample.after_pass in
  let s' := snd Sample.after_pass in
  let a := Sample.task "B" (Some 2) true in
  d (the_menu r) !! "B" = Some a /\
  own_checkpoint (d (the_menu r)) "B" (chkpt a) /\
  serve_loop (r, s) = (Ok tt, (r', s')) /\
  exists evs,
    trace s' = trace s ++ evs /\
    own (chkpt a) evs =
      flat_map (unit_pair (chkpt a))
        (seqZ 2 (slice_bound (Z.of_nat (length (trajectory r))) (b r) 0 +
                 Z.of_nat (length (trajectory_slice (trajectory r) (b r) (e r)))
                 - 2)).
Proof.
  intros r s r' s' a.
  assert (H1 : d (the_menu r) !! "B" = Some a) by (vm_compute; reflexivity).
  assert (H2 : (bf a = Some 2 /\ 0 < 2) \/ (bf a = None /\ 2 = 0))
    by (left; split; [reflexivity | lia]).
  assert (H3 : on a = false) by reflexivity.
  assert (H4 : own_checkpoint (d (the_menu r)) "B" (chkpt a)).
  { intros k' a' Hk Hc. in_sample_map Hk; vm_compute in Hc;
      first [reflexivity | discriminate Hc]. }
  assert (H5 : slice_bound (Z.of_nat (length (trajectory r))) (b r) 0 <= 2)
    by (vm_compute; discriminate).
  assert (H6 : serve_loop (r, s) = (Ok tt, (r', s')))
    by (vm_compute; reflexivity).
  split; [exact H1 |]. split; [exact H4 |]. split; [exact H6 |].
  exact (units_exactly_once r r' s s' "B" a 2 H1 H2 H3 H4 H5 H6).
Defined.

Lemma no_unit_before_resume_witness :
  let r := fst Sample.r_checked in
  let s := snd Sample.r_checked in
  let r' := fst Sample.after_pass in
  let s' := snd Sample.after_pass in
  let a := Sample.task "B" (Some 2) true in
  d (the_menu r) !! "B" = Some a /\
  own_checkpoint (d (the_menu r)) "B" (chkpt a) /\
  serve_loop (r, s) = (Ok tt, (r', s')) /\
  exists evs,
    trace s' = trace s ++ evs /\
    forall p, EvUnit (chkpt a) p ∈ evs -> 2 <= p.
Proof.
  intros r s r' s' a.
  assert (H1 : d (the_menu r) !! "B" = Some a) by (vm_compute; reflexivity).
  assert (H2 : (bf a = Some 2 /\ 0 < 2) \/ (bf a = None /\ 2 = 0))
    by (left; split; [reflexivity | lia]).
  assert (H3 : on a = false) by reflexivity.
  assert (H4 : own_checkpoint (d (the_menu r)) "B" (chkpt a)).
  { intros k' a' Hk Hc. in_sample_map Hk; vm_compute in Hc;
      first [reflexivity | discriminate Hc]. }
  assert (H5 : serve_loop (r, s) = (Ok tt, (r', s')))
    by (vm_compute; reflexivity).
  split; [exact H1 |]. split; [exact H4 |]. split; [exact H5 |].
  exact (no_unit_before_resume r r' s s' "B" a 2 (Ok tt) H1 H2 H3 H4 H5).
Defined.

Lemma failed_unit_stops_serve_witness :
  let a := Recipe "out" "run" "F" "dat" false false
             (data_path "out" "run" "F" "dat") (cpt_path "out" "run" "F")
             None None false Sample.failing Sample.postloopcode in
  let r := Restaurant Sample.u 5 None None []
             (Menu {[ "A" := Sample.task "A" None false; "F" := a ]} None) in
  let checked := snd (serve_checks (r, Sample.s0)) in
  let failed := snd (serve_loop checked) in
  let err := UserError "no atoms selected" in
  serve_checks (r, Sample.s0) = (Ok tt, (fst checked, snd checked)) /\
  serve_loop (fst checked, snd checked) = (Raise err, (fst failed, snd failed)) /\
  serve (r, Sample.s0) = (Raise err, (fst failed, snd failed)) /\
  (exists evs c ts,
     ts ∈ trajectory_slice (trajectory (fst checked)) (b (fst checked))
            (e (fst checked)) /\
     trace (snd failed) = trace (snd checked) ++ evs ++ [EvUnit c (frame ts)]) /\
  finals (trace (snd failed)) = finals (trace Sample.s0).
Proof.
  intros a r checked failed err.
  assert (H1 : serve_checks (r, Sample.s0) = (Ok tt, (fst checked, snd checked)))
    by (vm_compute; reflexivity).
  assert (H2 : serve_loop (fst checked, snd checked) =
               (Raise err, (fst failed, snd failed)))
    by (vm_compute; reflexivity).
  split; [exact H1 |]. split; [exact H2 |].
  exact (failed_unit_stops_serve r (fst checked) (fst failed) Sample.s0
           (snd checked) (snd failed) err H1 H2).
Defined.

Lemma final_checkpoint_witness :
  let r := fst Sample.r_checked in
  let s := snd Sample.r_checked in
  let r' := fst Sample.after_pass in
  let s' := snd Sample.after_pass in
  let a := Sample.task "B" (Some 2) true in
  let start := slice_bound (Z.of_nat (length (trajectory r))) (b r) 0 in
  let stop :=
    start + Z.of_nat (length (trajectory_slice (trajectory r) (b r) (e r))) in
  d (the_menu r) !! "B" = Some a /\
  leave_alone (d (the_menu r)) (chkpt a) /\
  start <= 2 < stop /\
  serve_loop (r, s) = (Ok tt, (r', s')) /\
  files (w s') !! chkpt a = Some (Py.str (stop - 1)).
Proof.
  intros r s r' s' a start stop.
  assert (H1 : d (the_menu r) !! "B" = Some a) by (vm_compute; reflexivity).
  assert (H2 : (bf a = Some 2 /\ 0 < 2) \/ (bf a = None /\ 2 = 0))
    by (left; split; [reflexivity | lia]).
  assert (H3 : leave_alone (d (the_menu r)) (chkpt a)).
  { intros k0 a0 fr tm x Hk. in_sample_map Hk; reflexivity. }
  assert (H4 : start <= 2 < stop) by (vm_compute; split; [discriminate | reflexivity]).
  assert (H5 : serve_loop (r, s) = (Ok tt, (r', s')))
    by (vm_compute; reflexivity).
  split; [exact H1 |]. split; [exact H3 |]. split; [exact H4 |].
  split; [exact H5 |].
  exact (final_checkpoint r r' s s' "B" a 2 H1 H2 H3 H4 H5).
Defined.

Lemma nonpositive_bf_never_runs_witness :
  let a := Sample.task "Z" (Some 0) true in
  let r := Restaurant Sample.u 5 None None [] (Menu {[ "Z" := a ]} None) in
  let done := snd (serve_loop (r, Sample.s0)) in
  d (the_menu r) !! "Z" = Some a /\
  own_checkpoint (d (the_menu r)) "Z" (chkpt a) /\
  serve_loop (r, Sample.s0) = (Ok tt, (fst done, snd done)) /\
  (exists a', d (the_menu (fst done)) !! "Z" = Some a' /\ on a' = false) /\
  exists evs,
    trace (snd done) = trace Sample.s0 ++ evs /\ own (chkpt a) evs = [].
Proof.
  intros a r done.
  assert (H1 : d (the_menu r) !! "Z" = Some a) by (vm_compute; reflexivity).
  assert (H2 : bf a = Some 0) by reflexivity.
  assert (H3 : 0 <= 0) by lia.
  assert (H4 : on a = false) by reflexivity.
  assert (H5 : own_checkpoint (d (the_menu r)) "Z" (chkpt a)).
  { intros k' a' Hk Hc. in_sample_map Hk. reflexivity. }
  assert (H6 : serve_loop (r, Sample.s0) = (Ok tt, (fst done, snd done)))
    by (vm_compute; reflexivity).
  split; [exact H1 |]. split; [exact H5 |]. split; [exact H6 |].
  exact (nonpositive_bf_never_runs r (fst done) Sample.s0 (snd done) "Z" a 0
           H1 H2 H3 H4 H5 H6).
Defined.

Lemma scan_starts_at_least_resume_witness :
  let r' := fst Sample.r_checked in
  let s' := snd Sample.r_checked in
  let start := slice_bound (Z.of_nat (length (trajectory r'))) (b r') 0 in
  serve_checks (Sample.r0, Sample.s0) = (Ok tt, (r', s')) /\
  nframes Sample.r0 = Z.of_nat (length (trajectory Sample.r0)) /\
  (forall k a K, d (the_menu Sample.r0) !! k = Some a -> bf a = Some K ->
                 0 <= K) /\
  (exists k a, d (the_menu r') !! k = Some a /\ default 0 (bf a) = start) /\
  (forall k a, d (the_menu r') !! k = Some a -> start <= default 0 (bf a)).
Proof.
  intros r' s' start.
  assert (H1 : serve_checks (Sample.r0, Sample.s0) = (Ok tt, (r', s')))
    by (vm_compute; reflexivity).
  assert (H2 : nframes Sample.r0 = Z.of_nat (length (trajectory Sample.r0)))
    by reflexivity.
  assert (H3 : forall k a K, d (the_menu Sample.r0) !! k = Some a ->
                             bf a = Some K -> 0 <= K).
  { intros k a K Hk HK. in_sample_map Hk; vm_compute in HK;
      try discriminate HK; injection HK as <-; lia. }
  split; [exact H1 |]. split; [exact H2 |]. split; [exact H3 |].
  exact (scan_starts_at_least_resume Sample.r0 r' Sample.s0 s' H1 H2 H3).
Defined.

Lemma finished_task_is_done_witness :
  let r := fst Sample.r_checked in
  let s := snd Sample.r_checked in
  let r' := fst Sample.after_pass in
  let s' := snd Sample.after_pass in
  let a := Sample.task "B" (Some 2) true in
  fst (recipe_init "out" "run" "B" "dat" false false (Sample.loopcode "B")
         Sample.postloopcode Sample.s0) = Ok a /\
  d (the_menu r) !! "B" = Some a /\
  leave_alone (d (the_menu r)) (chkpt a) /\
  e r = None /\
  nframes r = Z.of_nat (length (trajectory r)) /\
  slice_bound (nframes r) (b r) 0 <= 2 < nframes r /\
  serve_loop (r, s) = (Ok tt, (r', s')) /\
  is_Some (files (w s') !! data a) /\
  fst (checkpoint_frame "out" "run" "B" "dat" s') =
    Ok (Some (nframes r), None, true).
Proof.
  intros r s r' s' a.
  assert (H0 : fst (recipe_init "out" "run" "B" "dat" false false
                      (Sample.loopcode "B") Sample.postloopcode Sample.s0) =
               Ok a) by (vm_compute; reflexivity).
  assert (H1 : d (the_menu r) !! "B" = Some a) by (vm_compute; reflexivity).
  assert (H2 : (bf a = Some 2 /\ 0 < 2) \/ (bf a = None /\ 2 = 0))
    by (left; split; [reflexivity | lia]).
  assert (H3 : leave_alone (d (the_menu r)) (chkpt a)).
  { intros k0 a0 fr tm x Hk. in_sample_map Hk; reflexivity. }
  assert (H4 : e r = None) by reflexivity.
  assert (H5 : nframes r = Z.of_nat (length (trajectory r))) by reflexivity.
  assert (H6 : slice_bound (nframes r) (b r) 0 <= 2 < nframes r)
    by (vm_compute; split; [discriminate | reflexivity]).
  assert (H7 : serve_loop (r, s) = (Ok tt, (r', s')))
    by (vm_compute; reflexivity).
  assert (H8 : is_Some (files (w s') !! data a))
    by (exists "rows of B"; vm_compute; reflexivity).
  split; [exact H0 |]. split; [exact H1 |]. split; [exact H3 |].
  split; [exact H4 |]. split; [exact H5 |]. split; [exact H6 |].
  split; [exact H7 |]. split; [exact H8 |].
  exact (finished_task_is_done r r' s Sample.s0 s' "B" a 2 "out" "run" "B"
           "dat" false false (Sample.loopcode "B") Sample.postloopcode
           H0 H1 H2 H3 H4 H5 H6 H7 H8).
Defined.

Lemma rmsd_unit_appends_row_witness :
  let a := SampleRmsd.task in
  let run := runinloop a 0 0 SampleRmsd.lc Sample.s0 in
  fst (SampleRmsd.alignto [5; 6] [3; 4] "protein and name CA" true
         (ext (w Sample.s0))) = Ok (2, 0) /\
  fst run = Ok tt /\
  files (w (snd run)) =
    <[chkpt a := Py.str 0]>
      (<[data a := default "" (files (w Sample.s0) !! data a) +:+
                   rmsd_row Py.str Py.str 0 0 2 0]> (files (w Sample.s0))).
Proof.
  intros a run.
  assert (H : fst (SampleRmsd.alignto [5; 6] [3; 4] "protein and name CA" true
                     (ext (w Sample.s0))) = Ok (2, 0)) by reflexivity.
  split; [exact H |].
  exact (rmsd_unit_appends_row SampleRmsd.alignto SampleRmsd.first_position
           Py.str Py.str a false "protein and name CA" true [3; 4] [5; 6]
           0 0 Sample.s0 2 0 H).
Defined.

Lemma rmsd_unit_resumable_witness :
  let a := SampleRmsd.task in
  let run := runinloop a 0 0 (loopcode a) Sample.s0 in
  fst (SampleRmsd.init "R" Sample.s0) = Ok a /\
  fst run = Ok tt /\
  fst (checkpoint_frame "out" "run" "R" "dat" (snd run)) =
    Ok (Some (0 + 1), None, true).
Proof.
  intros a run.
  assert (H1 : fst (SampleRmsd.init "R" Sample.s0) = Ok a) by reflexivity.
  assert (H2 : fst run = Ok tt) by (vm_compute; reflexivity).
  split; [exact H1 |]. split; [exact H2 |].
  exact (rmsd_unit_resumable SampleRmsd.select_atoms SampleRmsd.alignto
           SampleRmsd.first_position Py.str Py.str [3; 4] [5; 6] 5
           "out" "run" "R" "dat" true "protein and name CA" false
           Sample.s0 Sample.s0 a 0 0 H1 H2).
Defined.

Lemma rmsd_rows_after_pass_witness :
  let a := SampleRmsd.task in
  let r := SampleRmsd.r0 in
  let done := snd (serve_loop (r, Sample.s0)) in
  let steps :=
    from_resume (bf a) (trajectory_slice (trajectory r) (b r) (e r)) in
  fst (SampleRmsd.init "R" Sample.s0) = Ok a /\
  d (the_menu r) !! "R" = Some a /\
  others_apart (data a) "R" (d (the_menu r)) /\
  serve_loop (r, Sample.s0) = (Ok tt, (fst done, snd done)) /\
  exists vals : list (Z * Z),
    length vals = length steps /\
    default "" (files (w (snd done)) !! data a) =
    default "" (files (w Sample.s0) !! data a) +:+
    rmsd_rows Py.str Py.str (zip steps vals).
Proof.
  intros a r done steps.
  assert (H1 : fst (SampleRmsd.init "R" Sample.s0) = Ok a) by reflexivity.
  assert (H2 : d (the_menu r) !! "R" = Some a) by apply lookup_insert_eq.
  assert (H3 : others_apart (data a) "R" (d (the_menu r))).
  { intros k' a' Hk Hne. cbn [r SampleRmsd.r0 the_menu d] in Hk.
    rewrite lookup_insert_ne in Hk by (intros E; now apply Hne).
    apply lookup_singleton_Some in Hk as [<- <-].
    split; [vm_compute; discriminate | reflexivity]. }
  assert (H4 : serve_loop (r, Sample.s0) = (Ok tt, (fst done, snd done))).
  { assert (E : fst (serve_loop (r, Sample.s0)) = Ok tt)
      by (vm_compute; reflexivity).
    subst done. destruct (serve_loop (r, Sample.s0)) as [o [r' s']].
    cbn [fst snd] in *. now rewrite E. }
  split; [exact H1 |]. split; [exact H2 |]. split; [exact H3 |].
  split; [exact H4 |].
  exact (rmsd_rows_after_pass SampleRmsd.select_atoms SampleRmsd.alignto
           SampleRmsd.first_position Py.str Py.str [3; 4] [5; 6] 5
           "out" "run" "R" "dat" true "protein and name CA" false
           Sample.s0 Sample.s0 (snd done) r (fst done) "R" a H1 H2 H3 H4).
Defined.

(** The rows of the small run: five frames, each with its time and the two
    numbers of the alignment. *)
Example rmsd_small_run :
  files (w (snd (snd (serve_loop (SampleRmsd.r0, Sample.s0))))) !!
    "out/run.R.dat" =
  Some (rmsd_row Py.str Py.str 0 0 2 0 +:+ rmsd_row Py.str Py.str 1 10 2 0 +:+
        rmsd_row Py.str Py.str 2 20 2 0 +:+ rmsd_row Py.str Py.str 3 30 2 0 +:+
        rmsd_row Py.str Py.str 4 40 2 0).
Proof. vm_compute. reflexivity. Qed.

Lemma failed_postloopcode_stops_serve_witness :
  let r := SampleFail.r0 in
  let passed := snd ((serve_checks ;;; serve_loop) (r, Sample.s0)) in
  let l1 := [("Q", set_on true (Sample.task "Q" None false))] in
  let l2 := [("P", set_on true (Sample.task "P" None false))] in
  let a := SampleFail.bad "A" true in
  let err := UserError "no atoms selected" in
  (serve_checks ;;; serve_loop) (r, Sample.s0) =
    (Ok tt, (fst passed, snd passed)) /\
  map_to_list (d (the_menu (fst passed))) = l1 ++ ("A", a) :: l2 /\
  (forall ka x, ka ∈ l1 -> fst (postloopcode (snd ka) x) = Ok tt) /\
  (forall x, fst (postloopcode a x) = Raise err) /\
  exists s2,
    serve (r, Sample.s0) = (Raise err, (fst passed, s2)) /\
    trace s2 =
      trace (snd passed) ++ ((EvFinal ∘ chkpt ∘ snd) <$> l1) ++
      [EvFinal (chkpt a)].
Proof.
  intros r passed l1 l2 a err.
  assert (H1 : (serve_checks ;;; serve_loop) (r, Sample.s0) =
               (Ok tt, (fst passed, snd passed))) by (vm_compute; reflexivity).
  assert (H2 : map_to_list (d (the_menu (fst passed))) = l1 ++ ("A", a) :: l2)
    by (vm_compute; reflexivity).
  assert (H3 : forall ka x, ka ∈ l1 -> fst (postloopcode (snd ka) x) = Ok tt).
  { intros ka x Hin. apply list_elem_of_singleton in Hin as ->. reflexivity. }
  assert (H4 : forall x, fst (postloopcode a x) = Raise err)
    by (intros x; reflexivity).
  split; [exact H1 |]. split; [exact H2 |]. split; [exact H3 |].
  split; [exact H4 |].
  exact (failed_postloopcode_stops_serve r (fst passed) Sample.s0 (snd passed)
           l1 l2 "A" a err H1 H2 H3 H4).
Defined.


Lemma finalization_witness :
  let r := SampleHooks.r0 in
  let passed := snd ((serve_checks ;;; serve_loop) (r, Sample.s0)) in
  let r1 := fst passed in
  let s1 := snd passed in
  (serve_checks ;;; serve_loop) (r, Sample.s0) = (Ok tt, (r1, s1)) /\
  (forall k a x, d (the_menu r1) !! k = Some a -> fst (postloopcode a x) = Ok tt) /\
  exists s2,
    serve (r, Sample.s0) = (Ok tt, (r1, s2)) /\
    w s2 = fold_left finalized (map_to_list (d (the_menu r1))) (w s1) /\
    trace s2 =
      trace s1 ++ ((EvFinal ∘ chkpt ∘ snd) <$> map_to_list (d (the_menu r1))) /\
    finals (trace s1) = finals (trace Sample.s0) /\
    (forall g : callable,
       (serve_checks ;;; serve_loop) (rehook g r, Sample.s0) =
       (Ok tt, (rehook g r1, s1))).
Proof.
  intros r passed r1 s1.
  assert (H1 : (serve_checks ;;; serve_loop) (r, Sample.s0) = (Ok tt, (r1, s1)))
    by (vm_compute; reflexivity).
  assert (H2 : forall k a x, d (the_menu r1) !! k = Some a ->
                             fst (postloopcode a x) = Ok tt).
  { intros k a x Hk. in_sample_map Hk; reflexivity. }
  split; [exact H1 |]. split; [exact H2 |].
  exact (finalization r r1 Sample.s0 s1 H1 H2).
Defined.

(** The hooks of the small run: after the rows of the scan, [A] and then
    [B] are noted once each, and [C], which was removed, is not. *)
Example finalization_small_run :
  let run := serve (SampleHooks.r0, Sample.s0) in
  fst run = Ok tt /\
  ext (w (snd (snd run))) =
    [("A", 0); ("A", 1); ("A", 2); ("B", 2); ("A", 3); ("B", 3); ("A", 4);
     ("B", 4); ("A", -1); ("B", -1)] /\
  finals (trace (snd (snd run))) =
    ["out/checkpoints/run.A.cpt"; "out/checkpoints/run.B.cpt"].
Proof. vm_compute. repeat split; reflexivity. Qed.
